(** * QA analytics pipeline: registry-driven ingestion, reference data
      versioning and rule-based compliance aggregation.

    Shallow embedding of
      - [reference_data_manager.py]   (module [ReferenceDataManager]),
      - [data_source_manager.py]      (module [DataSourceManager]),
      - [enhanced_data_processor.py]  (module [EnhancedDataProcessor]),
    over a small model of the pandas values these files manipulate
    (module [Pandas]) and of the operating-system calls they make
    (module [Env]). *)

From Stdlib Require Import ZArith List Ascii String.
From Stdlib Require Import Floats.PrimFloat Numbers.Cyclic.Int63.Uint63.
From stdpp Require Import base option list gmap strings pretty.

(* ===================================================================== *)
(** ** Effects: object state and exceptions *)
(* ===================================================================== *)

(** A method of an object with fields [S] reads and updates them. *)
Definition State (S A : Type) : Type := S -> A * S.

Definition ret {S A : Type} (a : A) : State S A := fun st => (a, st).

Definition bind {S A B : Type} (m : State S A) (k : A -> State S B) : State S B :=
  fun st => let (a, st') := m st in k a st'.

Definition get {S : Type} : State S S := fun st => (st, st).

Definition put {S : Type} (st' : S) : State S unit := fun _ => (tt, st').

Notation "'let*' x ':=' m 'in' k" := (bind m (fun x => k))
  (at level 10, x name, m at level 100, k at level 200).
Notation "'run' m 'then' k" := (bind m (fun _ => k))
  (at level 10, m at level 100, k at level 200).

(** The outcome of a call that may raise. *)
Inductive outcome (A : Type) : Type :=
| Returned (a : A)
| Raised.
Arguments Returned {A} a.
Arguments Raised {A}.

(* ===================================================================== *)
(** ** Pandas values *)
(* ===================================================================== *)

Module Pandas.

(** A scalar held in a column.  [CNaN] is the missing-value marker. *)
Inductive cell : Type :=
| CStr (s : string)
| CInt (z : Z)
| CBool (b : bool)
| CNaN.

#[global] Instance cell_eq_dec : EqDecision cell.
Proof. solve_decision. Defined.

(** A DataFrame over a positional index [0 .. df_len - 1]: the labelled
    columns in order.  Labels may repeat (a rename can produce that). *)
Record DataFrame : Type := mkFrame {
  df_len : nat;
  df_data : list (string * list cell);
}.

Definition columns (df : DataFrame) : list string := map fst (df_data df).

(** [label in df.columns] *)
Definition has_column (df : DataFrame) (c : string) : bool :=
  bool_decide (c ∈ columns df).

(** [df[label]]; [None] stands for the [KeyError] of an absent label. *)
Fixpoint assoc {V : Type} (c : string) (l : list (string * V)) : option V :=
  match l with
  | [] => None
  | (k, v) :: rest => if bool_decide (k = c) then Some v else assoc c rest
  end.

Definition get_column (df : DataFrame) (c : string) : option (list cell) :=
  assoc c (df_data df).

(** [df[label] = values]: every column carrying the label is replaced;
    a new label is appended as the last column. *)
Definition set_column (df : DataFrame) (c : string) (v : list cell) : DataFrame :=
  if has_column df c
  then mkFrame (df_len df)
         (map (fun kv => if bool_decide (fst kv = c) then (c, v) else kv) (df_data df))
  else mkFrame (df_len df) (df_data df ++ [(c, v)]).

(** [mapping.get(label, label)] *)
Definition rename_label (m : gmap string string) (c : string) : string :=
  default c (m !! c).

(** [df.rename(columns=mapping)]: every label is looked up once in the
    mapping; the cells are untouched. *)
Definition rename (m : gmap string string) (df : DataFrame) : DataFrame :=
  mkFrame (df_len df) (map (fun kv => (rename_label m (fst kv), snd kv)) (df_data df)).

(** An insertion-ordered dict with string keys: assigning to an existing
    key keeps its position, a new key goes last. *)
Fixpoint dict_set {V : Type} (k : string) (v : V) (d : list (string * V))
  : list (string * V) :=
  match d with
  | [] => [(k, v)]
  | (k', v') :: rest =>
      if bool_decide (k' = k) then (k, v) :: rest else (k', v') :: dict_set k v rest
  end.

(** [==] on dictionary keys: [True == 1] and [False == 0]; a missing key
    is a float NaN, boxed anew for each row, which equals no key. *)
Definition key_eqb (a b : cell) : bool :=
  match a, b with
  | CNaN, _ | _ , CNaN => false
  | CBool x, CInt z | CInt z, CBool x => (z =? (if x then 1 else 0))%Z
  | _, _ => bool_decide (a = b)
  end.

(** [dict(zip(keys, values))] over cells: assigning to a key that is
    there keeps the key and its position and replaces the value; a new key
    goes last. *)
Fixpoint cell_dict_set (k v : cell) (d : list (cell * cell)) : list (cell * cell) :=
  match d with
  | [] => [(k, v)]
  | (k', v') :: rest =>
      if key_eqb k' k then (k', v) :: rest else (k', v') :: cell_dict_set k v rest
  end.

Fixpoint zip_cells (ks vs : list cell) : list (cell * cell) :=
  match ks, vs with
  | k :: ks', v :: vs' => (k, v) :: zip_cells ks' vs'
  | _, _ => []
  end.

Definition dict_of_zip (ks vs : list cell) : list (cell * cell) :=
  fold_left (fun d kv => cell_dict_set (fst kv) (snd kv) d) (zip_cells ks vs) [].

(** *** Strings: [str.lower] and [os.path.splitext] *)

Definition lower_ascii (a : ascii) : ascii :=
  let n := nat_of_ascii a in
  if (65 <=? n)%nat && (n <=? 90)%nat then ascii_of_nat (n + 32) else a.

Fixpoint lower (s : string) : string :=
  match s with
  | EmptyString => EmptyString
  | String a rest => String (lower_ascii a) (lower rest)
  end.

Definition dot : ascii := "."%char.
Definition sep : ascii := "/"%char.

(** Scan from the end of the path for the last dot of the last component:
    [ext_rev] collects the characters after it.  The result is the
    extension (with its dot) and the reversed text before the dot. *)
Fixpoint split_last_dot (rev_path : list ascii) (ext_rev : list ascii)
  : option (list ascii * list ascii) :=
  match rev_path with
  | [] => None
  | a :: before =>
      if bool_decide (a = sep) then None
      else if bool_decide (a = dot) then Some (dot :: ext_rev, before)
      else split_last_dot before (a :: ext_rev)
  end.

(** Is there a character other than a dot between the last separator and
    the dot?  (Leading dots of a file name do not start an extension.) *)
Fixpoint has_stem (rev_before : list ascii) : bool :=
  match rev_before with
  | [] => false
  | a :: rest =>
      if bool_decide (a = sep) then false
      else if bool_decide (a = dot) then has_stem rest
      else true
  end.

(** [os.path.splitext(path)[1]] *)
Definition splitext_ext (path : string) : string :=
  match split_last_dot (rev (list_ascii_of_string path)) [] with
  | Some (ext, before) =>
      if has_stem before then string_of_list_ascii ext else EmptyString
  | None => EmptyString
  end.

(** A string used as a condition: [None] and the empty string are false. *)
Definition truthy (s : option string) : option string :=
  match s with
  | Some EmptyString => None
  | other => other
  end.

(** *** float64 arithmetic *)

Definition float_of_Z (z : Z) : float := PrimFloat.of_uint63 (Uint63.of_Z z).

(** [numpy.rint] on [0 <= x < 2^52]: adding and removing [2^52] rounds to
    the nearest integer, ties to even. *)
Definition two52 : float := 4503599627370496%float.
Definition rint (x : float) : float := PrimFloat.sub (PrimFloat.add x two52) two52.

(** [Series.round(2)]: numpy scales by [10**2], rounds to an integer and
    scales back. *)
Definition round2 (x : float) : float :=
  PrimFloat.div (rint (PrimFloat.mul x 100%float)) 100%float.

End Pandas.

(* ===================================================================== *)
(** ** The environment: file system and clock *)
(* ===================================================================== *)

Module Env.
Import Pandas.

(** Instants ([datetime]) are counted in microseconds. *)
Definition usec_per_day : Z := 86400000000.

(** [timedelta.days]: whole days, rounded towards minus infinity. *)
Definition timedelta_days (delta : Z) : Z := (delta / usec_per_day)%Z.

(** What the code asks of the operating system and of pandas on cell
    contents (readers, date parsing, dtype inference, [Series.str.strip]).
    A reader, parser or [getmtime] answering [None] stands for a raised
    exception, whose text for a given path is [exn_text].  The clock is
    read once per operation. *)
Record World : Type := mkWorld {
  path_exists : string -> bool;
  getmtime : string -> option Z;
  read_excel : string -> option string -> option DataFrame;
  read_csv : string -> option DataFrame;
  to_datetime : list cell -> option (list cell);
  dtype_is_object : list cell -> bool;
  str_strip : list cell -> list cell;
  can_write : string -> bool;
  exn_text : string -> string;
  now : Z;
}.

(** The three readers selected by the file extension. *)
Inductive reader : Type := ReadExcel | ReadCsv | Unsupported.

Definition reader_of_ext (file_ext : string) : reader :=
  if bool_decide (file_ext = ".xlsx") || bool_decide (file_ext = ".xls") then ReadExcel
  else if bool_decide (file_ext = ".csv") then ReadCsv
  else Unsupported.

(** [df[col] = pd.to_datetime(df[col], errors='coerce')] under its
    [try]: a label carried by several columns selects a frame, which the
    parser rejects; the exception is logged and the column left as is. *)
Definition coerce_datetime (w : World) (df : DataFrame) (col : string) : DataFrame :=
  if bool_decide (length (List.filter (fun c => bool_decide (c = col)) (columns df)) = 1%nat)
  then
    match get_column df col with
    | Some cells =>
        match to_datetime w cells with
        | Some parsed => set_column df col parsed
        | None => df
        end
    | None => df
    end
  else df.

End Env.

(* ===================================================================== *)
(** ** reference_data_manager.py *)
(* ===================================================================== *)

Module ReferenceDataManager.
Import Pandas Env.

(** One entry of [reference_files] in the configuration. *)
Record RefConfig : Type := mkRefConfig {
  rc_path : option string;
  rc_format : option string;
  rc_key_column : option string;
  rc_value_column : option string;
  rc_version : option string;
  rc_max_age_days : option Z;
}.

Record Config : Type := mkConfig {
  reference_files : gmap string RefConfig;
  default_max_age_days : option Z;
  audit_log_path : option string;
}.

(** Loaded reference data: a key/value dictionary or the table as read. *)
Inductive RefValue : Type :=
| RefDict (d : list (cell * cell))
| RefFrame (df : DataFrame).

(** The value of [self.metadata[name]]. *)
Record Metadata : Type := mkMetadata {
  last_modified : Z;
  file_path : string;
  row_count : nat;
  meta_columns : list string;
  version : string;
  loaded_at : Z;
}.

(** One entry of the audit log.  [previous_version] is a copy of the
    metadata held before the update ([None] on a first load);
    [new_version] is the metadata dict stored by the load, which no later
    statement mutates (a reload binds a fresh dict). *)
Record AuditEntry : Type := mkAuditEntry {
  timestamp : Z;
  action : string;
  entry_name : string;
  user : string;
  previous_version : option Metadata;
  new_version : Metadata;
}.

(** The manager object.  [saved_log] is the content of the audit log file
    as last written by this manager. *)
Record Manager : Type := mkManager {
  config : Config;
  reference_data : gmap string RefValue;
  metadata : gmap string Metadata;
  audit_log : list AuditEntry;
  saved_log : list AuditEntry;
}.

(** Methods read and update the manager. *)
Definition M (A : Type) : Type := State Manager A.

Definition default_audit_log_path : string := "logs/reference_data_audit.json".

(** [_save_audit_log]: rewrite the log file in full; a failed write is
    logged and changes nothing. *)
Definition _save_audit_log (w : World) : M unit :=
  let* st := get in
  let log_path := default default_audit_log_path (audit_log_path (config st)) in
  if can_write w log_path
  then put (mkManager (config st) (reference_data st) (metadata st)
              (audit_log st) (audit_log st))
  else ret tt.

(** The body of the [try] block of [load_reference_data] up to the two
    stores: [None] when the block returns [False] or an exception is
    caught, else the data and its metadata. *)
Definition read_reference (w : World) (ref_config : RefConfig) (path : string)
  : option (RefValue * Metadata) :=
  match getmtime w path with
  | None => None
  | Some last_modified =>
      let file_ext := lower (splitext_ext path) in
      let read :=
        match reader_of_ext file_ext with
        | ReadExcel => read_excel w path None
        | ReadCsv => read_csv w path
        | Unsupported => None
        end in
      match read with
      | None => None
      | Some df =>
          let data :=
            if bool_decide (rc_format ref_config = Some "dictionary")
            then
              match truthy (rc_key_column ref_config), truthy (rc_value_column ref_config) with
              | Some key_column, Some value_column =>
                  match get_column df key_column, get_column df value_column with
                  | Some ks, Some vs => Some (RefDict (dict_of_zip ks vs))
                  | _, _ => None
                  end
              | _, _ => None
              end
            else Some (RefFrame df) in
          match data with
          | None => None
          | Some data =>
              let version := default "1.0" (rc_version ref_config) in
              Some (data,
                    mkMetadata last_modified path (df_len df) (columns df) version (now w))
          end
      end
  end.

(** [load_reference_data(name, file_path)] *)
Definition load_reference_data (w : World) (name : string) (file_path : option string)
  : M bool :=
  let* st := get in
  match reference_files (config st) !! name with
  | None => ret false
  | Some ref_config =>
      match truthy (match truthy file_path with
                    | Some p => Some p
                    | None => rc_path ref_config
                    end) with
      | None => ret false
      | Some path =>
          if negb (path_exists w path) then ret false
          else
            match read_reference w ref_config path with
            | None => ret false
            | Some (data, meta) =>
                run put (mkManager (config st)
                           (<[name := data]> (reference_data st))
                           (<[name := meta]> (metadata st))
                           (audit_log st) (saved_log st)) then
                ret true
            end
      end
  end.

(** [get_reference_data(name)]: loads on first access. *)
Definition get_reference_data (w : World) (name : string) : M (option RefValue) :=
  let* st := get in
  match reference_data st !! name with
  | Some data => ret (Some data)
  | None =>
      let* ok := load_reference_data w name None in
      if ok then let* st' := get in ret (reference_data st' !! name)
      else ret None
  end.

(** [check_freshness(name, max_age_days)] *)
Definition check_freshness (w : World) (name : string) (max_age_days : option Z) : M bool :=
  let* st := get in
  match metadata st !! name with
  | None => ret false
  | Some meta =>
      let max_age_days :=
        match max_age_days with
        | Some d => d
        | None =>
            let max_age_days :=
              match reference_files (config st) !! name with
              | Some ref_config => rc_max_age_days ref_config
              | None => None
              end in
            match max_age_days with
            | Some d => d
            | None => default 30%Z (default_max_age_days (config st))
            end
        end in
      let age := (now w - last_modified meta)%Z in
      ret (timedelta_days age <=? max_age_days)%Z
  end.

(** [update_reference_data(name, file_path, user)].  Reading
    [self.metadata[name]] after a successful load would raise [KeyError]
    were the name absent. *)
Definition update_reference_data (w : World) (name file_path user : string)
  : M (outcome bool) :=
  let* st := get in
  let prev_version := metadata st !! name in
  let* ok := load_reference_data w name (Some file_path) in
  if negb ok then ret (Returned false)
  else
    let* st1 := get in
    match metadata st1 !! name with
    | None => ret Raised
    | Some new_meta =>
        let log_entry :=
          mkAuditEntry (now w) "update_reference" name user prev_version new_meta in
        run put (mkManager (config st1) (reference_data st1) (metadata st1)
                   (audit_log st1 ++ [log_entry]) (saved_log st1)) then
        run _save_audit_log w then
        ret (Returned true)
    end.

(** *** Status reports *)





End ReferenceDataManager.

(* ===================================================================== *)
(** ** data_source_manager.py *)
(* ===================================================================== *)

Module DataSourceManager.
Import Pandas Env.

(** One entry of [columns_mapping]. *)
Record ColMapping : Type := mkColMapping {
  cm_source : option string;
  cm_aliases : list string;
  cm_target : option string;
  cm_data_type : option string;
}.

(** One entry of [validation_rules]. *)
Record ValidationRule : Type := mkValidationRule {
  vr_type : option string;
  vr_threshold : option Z;
  vr_columns : option (list string);
}.

(** One entry of [data_sources] in the registry. *)
Record SourceConfig : Type := mkSourceConfig {
  file_type : option string;
  sheet_name : option string;
  columns_mapping : list ColMapping;
  validation_rules : list ValidationRule;
}.

(** The value of [self.loaded_sources[source_name]].  Its [warnings] entry
    is the very list the load goes on appending to, so it also sees the
    freshness warning added after the store. *)
Record LoadedSource : Type := mkLoadedSource {
  ls_data : DataFrame;
  ls_file_path : string;
  ls_last_modified : Z;
  ls_row_count : nat;
  ls_columns : list string;
  ls_loaded_at : Z;
  ls_warnings : list string;
}.

Record Manager : Type := mkManager {
  registry : gmap string SourceConfig;
  analytics_mapping : gmap string string;
  data_freshness_warning : option Z;
  loaded_sources : gmap string LoadedSource;
}.

(** [get_data_source_for_analytic(analytic_id)] *)
Definition get_data_source_for_analytic (st : Manager) (analytic_id : string)
  : option string :=
  analytics_mapping st !! analytic_id.

(** [[col for col in required_cols if col not in df.columns]] *)
Definition missing_columns (df : DataFrame) (required_cols : list string) : list string :=
  List.filter (fun col => negb (has_column df col)) required_cols.

Definition row_count_warning (n : nat) (threshold : Z) : string :=
  "Row count (" +:+ pretty n +:+ ") is below minimum threshold ("
    +:+ pretty threshold +:+ ")".

Definition missing_columns_warning (missing_cols : list string) : string :=
  "Missing required columns: " +:+ String.concat ", " missing_cols.

(** The body of the loop of [_validate_data] for one rule. *)
Definition validate_rule (df : DataFrame) (warnings : list string) (rule : ValidationRule)
  : list string :=
  if bool_decide (vr_type rule = Some "row_count_min") then
    let threshold := default 0%Z (vr_threshold rule) in
    if (Z.of_nat (df_len df) <? threshold)%Z
    then warnings ++ [row_count_warning (df_len df) threshold]
    else warnings
  else if bool_decide (vr_type rule = Some "required_columns") then
    let required_cols := default [] (vr_columns rule) in
    let missing_cols := missing_columns df required_cols in
    match missing_cols with
    | [] => warnings
    | _ :: _ => warnings ++ [missing_columns_warning missing_cols]
    end
  else warnings.

(** [_validate_data(df, source_config)] *)
Definition _validate_data (df : DataFrame) (source_config : SourceConfig) : list string :=
  fold_left (validate_rule df) (validation_rules source_config) [].

(** [for alias in aliases: if alias in df.columns: ...; break] *)
Fixpoint alias_loop (df : DataFrame) (aliases : list string) (target_col : string)
    (column_mapping : gmap string string) : gmap string string :=
  match aliases with
  | [] => column_mapping
  | alias :: rest =>
      if has_column df alias then <[alias := target_col]> column_mapping
      else alias_loop df rest target_col column_mapping
  end.

(** The body of the loop of [_map_columns] for one entry. *)
Definition map_entry (df : DataFrame) (column_mapping : gmap string string)
    (col_mapping : ColMapping) : gmap string string :=
  match truthy (cm_source col_mapping), truthy (cm_target col_mapping) with
  | Some source_col, Some target_col =>
      if has_column df source_col then <[source_col := target_col]> column_mapping
      else alias_loop df (cm_aliases col_mapping) target_col column_mapping
  | _, _ => column_mapping
  end.

(** The dict [column_mapping] once the loop of [_map_columns] is over. *)
Definition column_mapping_of (df : DataFrame) (source_config : SourceConfig)
  : gmap string string :=
  fold_left (map_entry df) (columns_mapping source_config) ∅.

(** [_map_columns(df, source_config)] *)
Definition _map_columns (df : DataFrame) (source_config : SourceConfig) : DataFrame :=
  let column_mapping := column_mapping_of df source_config in
  if bool_decide (column_mapping = ∅) then df else rename column_mapping df.

(** The list [date_columns] of [_convert_date_columns]. *)
Definition date_columns (df : DataFrame) (source_config : SourceConfig) : list string :=
  omap (fun col_mapping =>
          if bool_decide (cm_data_type col_mapping = Some "date") then
            match truthy (cm_target col_mapping) with
            | Some target_col =>
                if has_column df target_col then Some target_col else None
            | None => None
            end
          else None)
       (columns_mapping source_config).

(** [_convert_date_columns(df, source_config)] *)
Definition _convert_date_columns (w : World) (df : DataFrame) (source_config : SourceConfig)
  : DataFrame :=
  fold_left (coerce_datetime w) (date_columns df source_config) df.

Definition is_excel_ext (file_ext : string) : bool :=
  bool_decide (file_ext = ".xlsx") || bool_decide (file_ext = ".xls").

Definition mismatch_warning (file_ext : string) : string :=
  "File type mismatch: expected .xlsx but got " +:+ file_ext.

Definition freshness_warning (source_name : string) (data_age freshness_days : Z) : string :=
  "Data source '" +:+ source_name +:+ "' is " +:+ pretty data_age
    +:+ " days old (warning threshold: " +:+ pretty freshness_days +:+ " days)".

(** The result triple of [load_data_source]. *)
Definition LoadResult : Type := bool * option DataFrame * list string.

(** [load_data_source(source_name, file_path)] *)
Definition load_data_source (w : World) (source_name file_path : string)
  : State Manager LoadResult :=
  let* st := get in
  match registry st !! source_name with
  | None =>
      ret (false, None, ["Data source '" +:+ source_name +:+ "' not found in registry"])
  | Some source_config =>
      if negb (path_exists w file_path)
      then ret (false, None, ["Data file not found: " +:+ file_path])
      else
        let failed := (false, None, ["Error loading data source: " +:+ exn_text w file_path]) in
        let file_ext := lower (splitext_ext file_path) in
        let expected_type := lower (default "xlsx" (file_type source_config)) in
        let warnings :=
          if bool_decide (expected_type = "xlsx") && negb (is_excel_ext file_ext)
          then [mismatch_warning file_ext] else [] in
        match reader_of_ext file_ext with
        | Unsupported => ret (false, None, ["Unsupported file type: " +:+ file_ext])
        | reader =>
            let read :=
              match reader with
              | ReadExcel => read_excel w file_path (sheet_name source_config)
              | _ => read_csv w file_path
              end in
            match read with
            | None => ret failed
            | Some df =>
                if bool_decide (df_len df = 0%nat)
                then ret (false, None,
                          ["Data source '" +:+ source_name +:+ "' contains no rows"])
                else
                  let validation_warnings := _validate_data df source_config in
                  let warnings := warnings ++ validation_warnings in
                  let df := _map_columns df source_config in
                  let df := _convert_date_columns w df source_config in
                  match getmtime w file_path with
                  | None => ret failed
                  | Some last_modified =>
                      let freshness_days := default 7%Z (data_freshness_warning st) in
                      let data_age := timedelta_days (now w - last_modified) in
                      let warnings :=
                        if (freshness_days <? data_age)%Z
                        then warnings ++ [freshness_warning source_name data_age freshness_days]
                        else warnings in
                      run put (mkManager (registry st) (analytics_mapping st)
                                 (data_freshness_warning st)
                                 (<[source_name :=
                                      mkLoadedSource df file_path last_modified (df_len df)
                                        (columns df) (now w) warnings]>
                                    (loaded_sources st))) then
                      ret (true, Some df, warnings)
                  end
            end
        end
  end.

(** *** The registry file *)

(** One entry of [analytics_mapping] in the registry file. *)
Record MappingEntry : Type := mkMappingEntry {
  me_data_source : option string;
  me_analytics : list string;
}.

(** The registry file as parsed: [settings], [data_sources] and
    [analytics_mapping], each empty when absent. *)
Record RegistryData : Type := mkRegistryData {
  rd_data_freshness_warning : option Z;
  rd_data_sources : gmap string SourceConfig;
  rd_analytics_mapping : list MappingEntry;
}.

(** [for analytic_id in analytics: self.analytics_mapping[analytic_id] = data_source] *)
Definition map_analytics (data_source : string) (analytics : list string)
    (analytics_mapping : gmap string string) : gmap string string :=
  fold_left (fun m analytic_id => <[analytic_id := data_source]> m) analytics analytics_mapping.

(** The body of the loop over [analytics_mapping] for one entry. *)
Definition add_mapping (analytics_mapping : gmap string string) (mapping : MappingEntry)
  : gmap string string :=
  match truthy (me_data_source mapping), me_analytics mapping with
  | Some data_source, (_ :: _) as analytics =>
      map_analytics data_source analytics analytics_mapping
  | _, _ => analytics_mapping
  end.

(** [_load_registry()]; [registry_data] is the parsed file, [None] when
    the file is missing or cannot be read. *)
Definition _load_registry (registry_data : option RegistryData) (st : Manager) : Manager :=
  match registry_data with
  | Some data =>
      mkManager (rd_data_sources data)
        (fold_left add_mapping (rd_analytics_mapping data) (analytics_mapping st))
        (rd_data_freshness_warning data) (loaded_sources st)
  | None => mkManager ∅ ∅ None (loaded_sources st)
  end.

(** [DataSourceManager(registry_path)] *)
Definition new_manager (registry_data : option RegistryData) : Manager :=
  _load_registry registry_data (mkManager ∅ ∅ None ∅).

(** [get_data_source_config(source_name)] *)
Definition get_data_source_config (st : Manager) (source_name : string)
  : option SourceConfig :=
  registry st !! source_name.

End DataSourceManager.

(* ===================================================================== *)
(** ** enhanced_data_processor.py *)
(* ===================================================================== *)

Module EnhancedDataProcessor.
Import Pandas Env.

(** One entry of [config['source']['required_columns']]. *)
Record ColumnInfo : Type := mkColumnInfo {
  ci_name : string;
  ci_alias : list string;
}.

(** [config['data_source']] (current format). *)
Record DataSourceSection : Type := mkDataSourceSection {
  ds_name : option string;
  required_fields : list string;
}.

(** The [parameters] dict of a validation declaration. *)
Definition Params : Type := list (string * cell).

(** One entry of [config['validations']]. *)
Record Validation : Type := mkValidation {
  rule : string;
  parameters : option Params;
}.

Record Config : Type := mkConfig {
  analytic_id : option string;
  data_source : option DataSourceSection;
  source_required_columns : option (list ColumnInfo);
  validations : list Validation;
  group_by : string;
  error_percentage : float;
}.

Definition RefStore : Type := gmap string ReferenceDataManager.RefValue.

(** A validation method: given the dataset, the parameters and (for the
    one rule that takes it) the reference data, it returns a boolean
    Series or raises ([None]). *)
Definition Rule : Type := DataFrame -> Params -> option RefStore -> option (list bool).

(** The processor object.  [validation_rules] resolves a name to the
    callable attribute of that name of the [ValidationRules] object, if
    there is one. *)
Record Processor : Type := mkProcessor {
  config : Config;
  validation_rules : string -> option Rule;
  reference_data_manager : ReferenceDataManager.Manager;
  data_source_manager : DataSourceManager.Manager;
  reference_data : RefStore;
  source_data : option DataFrame;
  warnings : list string;
}.

Definition set_source_data (df : DataFrame) (st : Processor) : Processor :=
  mkProcessor (config st) (validation_rules st) (reference_data_manager st)
    (data_source_manager st) (reference_data st) (Some df) (warnings st).

(** *** Loading *)

(** [for alias in aliases: if alias in columns: ...; break] *)
Fixpoint alias_loop (df : DataFrame) (aliases : list string) (std_name : string)
    (column_mapping : gmap string string) : gmap string string :=
  match aliases with
  | [] => column_mapping
  | alias :: rest =>
      if has_column df alias then <[alias := std_name]> column_mapping
      else alias_loop df rest std_name column_mapping
  end.

(** The body of the loop of [_map_column_aliases] for one entry. *)
Definition map_entry (df : DataFrame) (column_mapping : gmap string string)
    (column_info : ColumnInfo) : gmap string string :=
  let std_name := ci_name column_info in
  if has_column df std_name then column_mapping
  else alias_loop df (ci_alias column_info) std_name column_mapping.

Definition column_mapping_of (df : DataFrame) (required_columns : list ColumnInfo)
  : gmap string string :=
  fold_left (map_entry df) required_columns ∅.

(** The effect of [_map_column_aliases] on a loaded frame. *)
Definition map_column_aliases (df : DataFrame) (required_columns : list ColumnInfo)
  : DataFrame :=
  let column_mapping := column_mapping_of df required_columns in
  if bool_decide (column_mapping = ∅) then df else rename column_mapping df.

(** [_map_column_aliases()]; a configuration without [source] raises
    [KeyError]. *)
Definition _map_column_aliases : State Processor (outcome unit) :=
  let* st := get in
  match source_data st with
  | None => ret (Returned tt)
  | Some df =>
      match source_required_columns (config st) with
      | None => ret Raised
      | Some required_columns =>
          run put (set_source_data (map_column_aliases df required_columns) st) then
          ret (Returned tt)
      end
  end.

Definition missing_columns (df : DataFrame) (required_columns : list string) : list string :=
  List.filter (fun col => negb (has_column df col)) required_columns.

(** [_check_required_columns()] *)
Definition _check_required_columns (st : Processor) : list string :=
  match source_data st with
  | None => []
  | Some df =>
      match source_required_columns (config st), data_source (config st) with
      | Some required_columns, _ => missing_columns df (map ci_name required_columns)
      | None, Some ds => missing_columns df (required_fields ds)
      | None, None => ["No source configuration found"]
      end
  end.

(** [sub in s] on strings *)
Fixpoint contains (sub s : string) : bool :=
  String.prefix sub s ||
  match s with
  | EmptyString => false
  | String _ rest => contains sub rest
  end.

(** First loop of [_clean_data]: date coercion of the columns whose
    declared name mentions [date]. *)
Definition clean_dates (w : World) (df : DataFrame) (col_info : ColumnInfo) : DataFrame :=
  let col_name := ci_name col_info in
  if contains "date" (lower col_name) && has_column df col_name
  then coerce_datetime w df col_name
  else df.

(** Second loop of [_clean_data]: strip the columns of object dtype.  On a
    label carried by several columns [df[col]] is a frame, without a
    [dtype]: the loop raises. *)
Definition strip_column (w : World) (acc : outcome DataFrame) (col : string)
  : outcome DataFrame :=
  match acc with
  | Raised => Raised
  | Returned df =>
      if bool_decide (length (List.filter (fun c => bool_decide (c = col)) (columns df)) = 1%nat)
      then
        match get_column df col with
        | Some cells =>
            if dtype_is_object w cells
            then Returned (set_column df col (str_strip w cells))
            else Returned df
        | None => Raised
        end
      else Raised
  end.

(** [_clean_data()] *)
Definition _clean_data (w : World) : State Processor (outcome unit) :=
  let* st := get in
  match source_data st with
  | None => ret (Returned tt)
  | Some df =>
      match source_required_columns (config st) with
      | None => ret Raised
      | Some required_columns =>
          let df1 := fold_left (clean_dates w) required_columns df in
          run put (set_source_data df1 st) then
          match fold_left (strip_column w) (columns df1) (Returned df1) with
          | Raised => ret Raised
          | Returned df2 =>
              run put (set_source_data df2 st) then ret (Returned tt)
          end
      end
  end.

(** The registered data source of the configured analytic, if any. *)
Definition data_source_name (st : Processor) : option string :=
  let analytic_id := default "None" (analytic_id (config st)) in
  let lookup :=
    DataSourceManager.get_data_source_for_analytic (data_source_manager st) analytic_id in
  match data_source (config st) with
  | Some ds =>
      match truthy (ds_name ds) with
      | Some name => Some name
      | None => lookup
      end
  | None => lookup
  end.

(** [load_source_data(file_path)]; every exception is caught and turned
    into [False]. *)
Definition load_source_data (w : World) (file_path : string) : State Processor bool :=
  let* st := get in
  match truthy (data_source_name st) with
  | Some name =>
      let '(result, dsm) :=
        DataSourceManager.load_data_source w name file_path (data_source_manager st) in
      let '(success, df, source_warnings) := result in
      let st1 := mkProcessor (config st) (validation_rules st) (reference_data_manager st)
                   dsm (reference_data st) (source_data st) (warnings st) in
      if negb success then run put st1 then ret false
      else
        run put (mkProcessor (config st1) (validation_rules st1)
                   (reference_data_manager st1) dsm (reference_data st1)
                   df (warnings st1 ++ source_warnings)) then
        ret true
  | None =>
      match read_excel w file_path None with
      | None => ret false
      | Some df =>
          run put (set_source_data df st) then
          let* mapped := _map_column_aliases in
          match mapped with
          | Raised => ret false
          | Returned _ =>
              let* st2 := get in
              match _check_required_columns st2 with
              | _ :: _ => ret false
              | [] =>
                  let* cleaned := _clean_data w in
                  match cleaned with
                  | Raised => ret false
                  | Returned _ => ret true
                  end
              end
          end
      end
  end.

(** *** Validation and compliance *)

(** [pd.Series(False, index=self.source_data.index)] *)
Definition all_fail (df : DataFrame) : list bool := repeat false (df_len df).

(** The vector recorded for one declaration. *)
Definition run_rule (st : Processor) (df : DataFrame) (validation : Validation)
  : list bool :=
  let rule_name := rule validation in
  let params := default [] (parameters validation) in
  match validation_rules st rule_name with
  | Some validation_method =>
      let result :=
        if bool_decide (rule_name = "title_based_approval")
        then validation_method df params (Some (reference_data st))
        else validation_method df params None in
      match result with
      | Some result => result
      | None => all_fail df
      end
  | None => all_fail df
  end.

(** One turn of the loop over the declarations:
    [validation_results[rule_name] = ...]. *)
Definition record_result (st : Processor) (df : DataFrame)
    (results : list (string * list bool)) (validation : Validation)
  : list (string * list bool) :=
  dict_set (rule validation) (run_rule st df validation) results.

(** The dict [validation_results] once the loop over the declarations is
    over. *)
Definition validation_results (st : Processor) (df : DataFrame)
  : list (string * list bool) :=
  fold_left (record_result st df) (validations (config st)) [].

(** A boolean Series placed on the index [0 .. n-1]: a label the Series
    lacks is missing. *)
Definition align (n : nat) (v : list bool) : list cell :=
  map (fun i => match v !! i with Some b => CBool b | None => CNaN end) (seq 0 n).

(** [result_df.all(axis=1)]; missing entries are skipped. *)
Definition all_valid (n : nat) (results : list (string * list bool)) : list bool :=
  map (fun i => forallb (fun kv => default true (snd kv !! i)) results) (seq 0 n).

Definition compliance_of (ok : bool) : cell := if ok then CStr "GC" else CStr "DNC".

Definition dnc_validated_of (c : cell) : cell :=
  if bool_decide (c = CStr "DNC") then CStr "TBD" else CStr "N/A".

(** The branch [if validation_results:] of [run_validations], for result
    vectors that are Series over the index of the dataset. *)
Definition aggregate (df : DataFrame) (results : list (string * list bool)) : DataFrame :=
  let df1 :=
    fold_left (fun df kv => set_column df ("Valid_" +:+ fst kv) (align (df_len df) (snd kv)))
              results df in
  let compliance := map compliance_of (all_valid (df_len df) results) in
  let df2 := set_column df1 "Compliance" compliance in
  set_column df2 "DNC_Validated"
    (map dnc_validated_of (default [] (get_column df2 "Compliance"))).

(** [run_validations()] where it returns: the dataset it leaves.  Whether
    it returns is told by [run_validations_outcome]. *)
Definition run_validations : State Processor unit :=
  let* st := get in
  match source_data st with
  | None => ret tt
  | Some df =>
      match validation_results st df with
      | [] => put (set_source_data
                     (set_column df "Compliance" (repeat (CStr "N/A") (df_len df))) st)
      | results => put (set_source_data (aggregate df results) st)
      end
  end.

(** The length of the index of [result_df], the union of the indexes of
    the recorded vectors: over positional indexes, that of the longest. *)
Definition result_index_len (results : list (string * list bool)) : nat :=
  foldr (fun kv n => Nat.max (length (snd kv)) n) 0 results.

(** The loop [self.source_data[f"Valid_{col}"] = result_df[col]]. *)
Definition valid_columns (df : DataFrame) (results : list (string * list bool)) : DataFrame :=
  fold_left (fun df kv => set_column df ("Valid_" +:+ fst kv) (align (df_len df) (snd kv)))
            results df.

(** [run_validations()] with the exception it can raise.  [all_valid] has
    the index of [result_df]; the array [np.where(all_valid, ...)] is
    assigned to the dataset as [Compliance], which raises [ValueError]
    when their lengths differ.  The [Valid_] columns are assigned by then,
    and nothing catches the exception. *)
Definition run_validations_outcome : State Processor (outcome unit) :=
  let* st := get in
  match source_data st with
  | None => ret (Returned tt)
  | Some df =>
      let results := validation_results st df in
      if bool_decide (results = []) || bool_decide (result_index_len results = df_len df)
      then run run_validations then ret (Returned tt)
      else run put (set_source_data (valid_columns df results) st) then ret Raised
  end.

(** *** Summary *)

Definition cell_rank (c : cell) : nat :=
  match c with CBool _ => 0 | CInt _ => 1 | CStr _ => 2 | CNaN => 3 end.

(** The order in which labels are sorted: by value within a type. *)
Definition cell_leb (a b : cell) : bool :=
  match a, b with
  | CStr x, CStr y => String.leb x y
  | CInt x, CInt y => (x <=? y)%Z
  | CBool x, CBool y => implb x y
  | _, _ => (cell_rank a <=? cell_rank b)%nat
  end.

Fixpoint insert_sorted (k : cell) (l : list cell) : list cell :=
  match l with
  | [] => [k]
  | x :: rest => if cell_leb k x then k :: l else x :: insert_sorted k rest
  end.

(** The distinct values of a list, sorted. *)
Fixpoint sorted_unique (l : list cell) : list cell :=
  match l with
  | [] => []
  | k :: rest =>
      let keys := sorted_unique rest in
      if bool_decide (k ∈ keys) then keys else insert_sorted k keys
  end.

(** The rows that [groupby] keeps: those with both keys present. *)
Definition grouped_rows (gs cs : list cell) : list (cell * cell) :=
  List.filter (fun r => negb (bool_decide (fst r = CNaN)) && negb (bool_decide (snd r = CNaN)))
              (zip_cells gs cs).

(** [.size()] of one (group, category) pair. *)
Definition group_size (rows : list (cell * cell)) (g c : cell) : Z :=
  Z.of_nat (length (List.filter (fun r => bool_decide (r = (g, c))) rows)).

(** A table of integer columns over the group index. *)
Definition Counts : Type := list (cell * list Z).

Fixpoint lookup_label {V : Type} (c : cell) (l : list (cell * V)) : option V :=
  match l with
  | [] => None
  | (k, v) :: rest => if bool_decide (k = c) then Some v else lookup_label c rest
  end.

(** [.unstack(fill_value=0)]: one column per category present. *)
Definition unstack (rows : list (cell * cell)) (groups : list cell) : Counts :=
  map (fun c => (c, map (fun g => group_size rows g c) groups))
      (sorted_unique (map snd rows)).

(** [if category not in summary.columns: summary[category] = 0] *)
Definition ensure_category (ngroups : nat) (summary : Counts) (category : string) : Counts :=
  match lookup_label (CStr category) summary with
  | Some _ => summary
  | None => summary ++ [(CStr category, repeat 0%Z ngroups)]
  end.

(** [summary.sum(axis=1)] *)
Definition row_sums (ngroups : nat) (summary : Counts) : list Z :=
  map (fun i => fold_right Z.add 0%Z (map (fun kv => nth i (snd kv) 0%Z) summary))
      (seq 0 ngroups).

(** [(dnc / total * 100).round(2)] in float64 *)
Definition dnc_percentage (dnc total : Z) : float :=
  round2 (PrimFloat.mul (PrimFloat.div (float_of_Z dnc) (float_of_Z total)) 100%float).

Fixpoint map2 {A B C : Type} (f : A -> B -> C) (l1 : list A) (l2 : list B) : list C :=
  match l1, l2 with
  | a :: l1', b :: l2' => f a b :: map2 f l1' l2'
  | _, _ => []
  end.

(** A value of the summary table. *)
Inductive sval : Type :=
| SKey (c : cell)
| SInt (z : Z)
| SFloat (f : float)
| SBool (b : bool).

(** The summary returned: its columns in order, over a positional index. *)
Definition Summary : Type := list (string * list sval).

Definition ordered_cols : list string :=
  ["GC"; "PC"; "DNC"; "Total"; "DNC_Percentage"; "Exceeds_Threshold"].

(** The table built by [generate_summary] from the group column and the
    [Compliance] column. *)
Definition summarize (group_by_field : string) (threshold : float) (gs cs : list cell)
  : Summary :=
  let rows := grouped_rows gs cs in
  let groups := sorted_unique (map fst rows) in
  let n := length groups in
  let summary := fold_left (ensure_category n) ["GC"; "PC"; "DNC"] (unstack rows groups) in
  let column := fun label => default [] (lookup_label (CStr label) summary) in
  let total := row_sums n summary in
  let percentage := map2 dnc_percentage (column "DNC") total in
  let exceeds := map (fun p => PrimFloat.ltb threshold p) percentage in
  [ (group_by_field, map SKey groups);
    ("GC", map SInt (column "GC"));
    ("PC", map SInt (column "PC"));
    ("DNC", map SInt (column "DNC"));
    ("Total", map SInt total);
    ("DNC_Percentage", map SFloat percentage);
    ("Exceeds_Threshold", map SBool exceeds) ].

(** [generate_summary()]: [Returned None] where the method logs an error
    and returns [None]; [Raised] where pandas raises (a group label
    carried by several columns, or one that is also a summary column). *)
Definition generate_summary (st : Processor) : outcome (option Summary) :=
  match source_data st with
  | None => Returned None
  | Some df =>
      match get_column df "Compliance" with
      | None => Returned None
      | Some cs =>
          let group_by_field := group_by (config st) in
          match get_column df group_by_field with
          | None => Returned None
          | Some gs =>
              if bool_decide (length (List.filter (fun c => bool_decide (c = group_by_field))
                                                  (columns df)) = 1%nat)
                 && negb (bool_decide (group_by_field ∈ ordered_cols))
              then Returned (Some (summarize group_by_field
                                     (error_percentage (config st)) gs cs))
              else Raised
          end
      end
  end.

(** *** Reference data of the processor *)

(** One entry of the legacy list [config['reference_files']]; a key that
    is read under the [try] may be absent. *)
Record LegacyRef : Type := mkLegacyRef {
  lr_name : string;
  lr_path : option string;
  lr_key_column : option string;
  lr_value_column : option string;
}.

(** The keys [reference_data] (the names to load) and [reference_files]
    (the legacy list) of the configuration, each possibly absent. *)
Record ReferenceSettings : Type := mkReferenceSettings {
  cfg_reference_data : option (list string);
  cfg_reference_files : option (list LegacyRef);
}.

(** The legacy loading of one name: [Some] the dictionary, [None] when
    the file is missing or anything under the [try] raises. *)
Definition load_legacy (w : World) (legacy_ref : LegacyRef)
  : option ReferenceDataManager.RefValue :=
  match lr_path legacy_ref, lr_key_column legacy_ref, lr_value_column legacy_ref with
  | Some path, Some key_col, Some value_col =>
      if negb (path_exists w path) then None
      else
        match read_excel w path None with
        | None => None
        | Some ref_df =>
            match get_column ref_df key_col, get_column ref_df value_col with
            | Some ks, Some vs => Some (ReferenceDataManager.RefDict (dict_of_zip ks vs))
            | _, _ => None
            end
        end
  | _, _, _ => None
  end.

Definition stale_warning (ref_name : string) : string :=
  "Reference data '" +:+ ref_name +:+ "' may be stale".

(** The body of the loop of [load_reference_data] for one name; the
    boolean is the variable [success]. *)
Definition load_reference (w : World) (refs : ReferenceSettings)
    (acc : bool * Processor) (ref_name : string) : bool * Processor :=
  let '(success, st) := acc in
  let '(data, rdm) :=
    ReferenceDataManager.get_reference_data w ref_name (reference_data_manager st) in
  match data with
  | None =>
      let st1 := mkProcessor (config st) (validation_rules st) rdm (data_source_manager st)
                   (reference_data st) (source_data st) (warnings st) in
      let legacy_ref :=
        match cfg_reference_files refs with
        | Some files => List.find (fun ref => bool_decide (lr_name ref = ref_name)) files
        | None => None
        end in
      match legacy_ref with
      | Some legacy_ref =>
          match load_legacy w legacy_ref with
          | Some ref_dict =>
              (success,
               mkProcessor (config st1) (validation_rules st1) rdm (data_source_manager st1)
                 (<[ref_name := ref_dict]> (reference_data st1)) (source_data st1)
                 (warnings st1))
          | None => (false, st1)
          end
      | None => (false, st1)
      end
  | Some data =>
      let '(fresh, rdm') := ReferenceDataManager.check_freshness w ref_name None rdm in
      (success,
       mkProcessor (config st) (validation_rules st) rdm' (data_source_manager st)
         (<[ref_name := data]> (reference_data st)) (source_data st)
         (if fresh then warnings st else warnings st ++ [stale_warning ref_name]))
  end.

(** [load_reference_data()].  The section looped over is
    [reference_data] when the configuration has it, else the legacy list
    [reference_files]: its elements are then dicts, and looking one up
    among the loaded names raises [TypeError] (a dict is not hashable). *)
Definition load_reference_data (w : World) (refs : ReferenceSettings)
  : State Processor (outcome bool) :=
  let* st := get in
  let reset := mkProcessor (config st) (validation_rules st) (reference_data_manager st)
                 (data_source_manager st) ∅ (source_data st) (warnings st) in
  match cfg_reference_data refs, cfg_reference_files refs with
  | Some [], _ => ret (Returned true)
  | Some names, _ =>
      let '(success, st') := fold_left (load_reference w refs) names (true, reset) in
      run put st' then ret (Returned success)
  | None, Some (_ :: _) => run put reset then ret Raised
  | None, _ => ret (Returned true)
  end.

(** *** The whole run *)

(** The value of [self.results].  [detail] is the dataset held when the
    results were stored: a run binds [self.source_data] to a new table
    before anything is assigned to it, so a later run leaves [detail]
    alone.  The entry [warnings] is not a copy: it is the list
    [self.warnings] itself, which is never rebound and only extended in
    place, so it is read from the processor (see [result_warnings]). *)
Record Results : Type := mkResults {
  detail : option DataFrame;
  summary : Summary;
}.

(** The processor with its attribute [results]. *)
Record Run : Type := mkRun {
  processor : Processor;
  results : option Results;
}.

(** [self.results['warnings']], when there are results. *)
Definition result_warnings (r : Run) : option (list string) :=
  match results r with
  | Some _ => Some (warnings (processor r))
  | None => None
  end.

Definition complete_message (warnings : list string) : string :=
  match warnings with
  | [] => "Processing complete"
  | _ :: _ => "Processing complete with " +:+ pretty (length warnings) +:+ " warnings"
  end.

(** [process_data(source_file)] *)
Definition process_data (w : World) (refs : ReferenceSettings) (source_file : string)
  : State Run (outcome (bool * string)) :=
  let* r := get in
  let '(loaded, st1) := load_source_data w source_file (processor r) in
  if negb loaded
  then run put (mkRun st1 (results r)) then
       ret (Returned (false, "Failed to load source data"))
  else
    let '(referenced, st2) := load_reference_data w refs st1 in
    match referenced with
    | Raised => run put (mkRun st2 (results r)) then ret Raised
    | Returned false =>
        run put (mkRun st2 (results r)) then
        ret (Returned (false, "Failed to load reference data"))
    | Returned true =>
        let '(validated, st3) := run_validations_outcome st2 in
        match validated with
        | Raised => run put (mkRun st3 (results r)) then ret Raised
        | Returned _ =>
            match generate_summary st3 with
            | Raised => run put (mkRun st3 (results r)) then ret Raised
            | Returned None =>
                run put (mkRun st3 (results r)) then
                ret (Returned (false, "Failed to generate summary"))
            | Returned (Some summary) =>
                run put (mkRun st3 (Some (mkResults (source_data st3) summary))) then
                ret (Returned (true, complete_message (warnings st3)))
            end
        end
    end.

End EnhancedDataProcessor.

(* ===================================================================== *)
(** ** Concrete configurations and files *)
(* ===================================================================== *)

Module Examples.
Import Pandas Env.

Definition day : Z := usec_per_day.

(** A file system holding the given tables, all last modified at [mtime]
    and readable by either reader. *)
Definition file_world (files : list (string * DataFrame)) (mtime clock : Z) : World :=
  {| path_exists := fun p => bool_decide (is_Some (assoc p files));
     getmtime := fun p => if bool_decide (is_Some (assoc p files)) then Some mtime else None;
     read_excel := fun p _ => assoc p files;
     read_csv := fun p => assoc p files;
     to_datetime := fun cells => Some cells;
     dtype_is_object := fun _ => false;
     str_strip := fun cells => cells;
     can_write := fun _ => true;
     exn_text := fun _ => "cannot read file";
     now := clock |}.

Definition country_codes : DataFrame :=
  mkFrame 2 [("code", [CStr "FR"; CStr "DE"]);
             ("country", [CStr "France"; CStr "Germany"])].

Definition reference_world (age_days : Z) : World :=
  file_world [("ref/country_codes.csv", country_codes)] 0 (age_days * day + 5).

(** [country_codes] declared with or without a threshold of its own, under
    a configuration with or without [default_max_age_days]. *)
Definition reference_manager (max_age_days default_max_age : option Z)
  : ReferenceDataManager.Manager :=
  ReferenceDataManager.mkManager
    (ReferenceDataManager.mkConfig
       {[ "country_codes" :=
            ReferenceDataManager.mkRefConfig (Some "ref/country_codes.csv")
              (Some "dictionary") (Some "code") (Some "country") (Some "2024.1")
              max_age_days ]}
       default_max_age None)
    ∅ ∅ [] [].

(** The same manager once [country_codes] has been loaded. *)
Definition loaded_manager (max_age_days default_max_age : option Z)
  : ReferenceDataManager.Manager :=
  snd (ReferenceDataManager.load_reference_data (reference_world 0) "country_codes" None
         (reference_manager max_age_days default_max_age)).

Definition country_codes_metadata : ReferenceDataManager.Metadata :=
  ReferenceDataManager.mkMetadata 0 "ref/country_codes.csv" 2 ["code"; "country"] "2024.1" 5.

(** Six vendor records in two regions. *)
Definition vendors : DataFrame :=
  mkFrame 6
    [("Region", [CStr "A"; CStr "A"; CStr "A"; CStr "B"; CStr "B"; CStr "B"]);
     ("Amount", [CInt 120; CInt 40; CInt 0; CInt 75; CInt 300; CInt (-5)]);
     ("Approver", [CStr "kim"; CStr "lee"; CStr "kim"; CStr "roy"; CStr "roy"; CNaN])].

(** [rule_a]: the amount is a positive number (fails rows 2 and 5);
    [rule_b]: an approver is recorded (fails row 5).  Either raises
    [KeyError] on a dataset without its column. *)
Definition rule_a : EnhancedDataProcessor.Rule :=
  fun df _ _ =>
    option_map (map (fun c => match c with CInt z => (0 <? z)%Z | _ => false end))
               (get_column df "Amount").

Definition rule_b : EnhancedDataProcessor.Rule :=
  fun df _ _ =>
    option_map (map (fun c => match c with CStr _ => true | _ => false end))
               (get_column df "Approver").

(** A rule that reads a column the dataset does not have. *)
Definition rule_c : EnhancedDataProcessor.Rule :=
  fun df _ _ =>
    option_map (map (fun c => negb (bool_decide (c = CNaN)))) (get_column df "Invoice Date").

Definition rules (name : string) : option EnhancedDataProcessor.Rule :=
  if bool_decide (name = "rule_a") then Some rule_a
  else if bool_decide (name = "rule_b") then Some rule_b
  else if bool_decide (name = "rule_c") then Some rule_c
  else None.

Definition declare (name : string) : EnhancedDataProcessor.Validation :=
  EnhancedDataProcessor.mkValidation name None.

Definition empty_registry : DataSourceManager.Manager :=
  DataSourceManager.mkManager ∅ ∅ None ∅.

(** An entry that looks for [Amount], else [Amt], and names it [amount]. *)
Definition amount_entry : DataSourceManager.ColMapping :=
  DataSourceManager.mkColMapping (Some "Amount") ["Amt"] (Some "amount") None.

(** An entry that renames [Amt] to [Amount]. *)
Definition amt_entry : DataSourceManager.ColMapping :=
  DataSourceManager.mkColMapping (Some "Amt") [] (Some "Amount") None.

Definition mapping_config (entries : list DataSourceManager.ColMapping)
  : DataSourceManager.SourceConfig :=
  DataSourceManager.mkSourceConfig None None entries [].

(** A file with an [Amt] column only, one with both [Amount] and [Amt]. *)
Definition amt_frame : DataFrame :=
  mkFrame 2 [("Region", [CStr "A"; CStr "B"]); ("Amt", [CInt 5; CInt 7])].


(** The source [vendor_risk], expecting the given file type: it requires
    the columns [Amount] and [Vendor ID] and at least five rows. *)
Definition vendor_risk (expected : option string) : DataSourceManager.SourceConfig :=
  DataSourceManager.mkSourceConfig expected None [amount_entry]
    [DataSourceManager.mkValidationRule (Some "required_columns") None
       (Some ["Amount"; "Vendor ID"]);
     DataSourceManager.mkValidationRule (Some "row_count_min") (Some 5%Z) None].

(** A registry that maps analytic 1001 to [vendor_risk]. *)
Definition vendor_registry (expected : option string) : DataSourceManager.Manager :=
  DataSourceManager.mkManager {[ "vendor_risk" := vendor_risk expected ]}
    {[ "1001" := "vendor_risk" ]} None ∅.

(** Four vendor records, without a [Vendor ID] column. *)
Definition four_vendors : DataFrame :=
  mkFrame 4
    [("Region", [CStr "A"; CStr "A"; CStr "B"; CStr "B"]);
     ("Amount", [CInt 120; CInt 40; CInt 75; CInt 300])].

(** The same table stored as a workbook and as a delimited text file,
    last written two days before the load. *)
Definition vendor_world : World :=
  file_world [("data/vendors.xlsx", four_vendors); ("data/vendors.csv", four_vendors)]
    0 (2 * day).

(** A processor for analytic 1001 with the given registry, legacy
    required columns and declarations, holding [source_data]. *)
Definition make_processor (registry : DataSourceManager.Manager)
    (required : list EnhancedDataProcessor.ColumnInfo)
    (validations : list EnhancedDataProcessor.Validation)
    (source_data : option DataFrame) : EnhancedDataProcessor.Processor :=
  EnhancedDataProcessor.mkProcessor
    (EnhancedDataProcessor.mkConfig (Some "1001") None (Some required)
       validations "Region" 15%float)
    rules (reference_manager None None) registry ∅ source_data [].

Definition legacy_required : list EnhancedDataProcessor.ColumnInfo :=
  [EnhancedDataProcessor.mkColumnInfo "Amount" ["Amt"];
   EnhancedDataProcessor.mkColumnInfo "Vendor ID" ["VendorID"]].

(** A processor holding [vendors], grouped by region, with a threshold
    of 15 percent. *)
Definition processor (validations : list EnhancedDataProcessor.Validation)
  : EnhancedDataProcessor.Processor :=
  make_processor empty_registry legacy_required validations (Some vendors).

(** Two rules that run. *)
Definition two_rules : EnhancedDataProcessor.Processor :=
  processor [declare "rule_a"; declare "rule_b"].


(** The reference files on a disk where the audit log cannot be written. *)
Definition readonly_world (age_days : Z) : World :=
  {| path_exists := path_exists (reference_world age_days);
     getmtime := getmtime (reference_world age_days);
     read_excel := read_excel (reference_world age_days);
     read_csv := read_csv (reference_world age_days);
     to_datetime := to_datetime (reference_world age_days);
     dtype_is_object := dtype_is_object (reference_world age_days);
     str_strip := str_strip (reference_world age_days);
     can_write := fun _ => false;
     exn_text := exn_text (reference_world age_days);
     now := now (reference_world age_days) |}.

(** A registry file: two sources, three mapping entries (the last one
    names no source). *)
Definition registry_file : DataSourceManager.RegistryData :=
  DataSourceManager.mkRegistryData (Some 7%Z)
    {[ "vendor_risk" := vendor_risk None; "payments" := mapping_config [] ]}
    [DataSourceManager.mkMappingEntry (Some "vendor_risk") ["1001"; "1002"];
     DataSourceManager.mkMappingEntry (Some "payments") ["1002"];
     DataSourceManager.mkMappingEntry None ["1003"]].



End Examples.

(* ===================================================================== *)
(** ** Vocabulary of the statements *)
(* ===================================================================== *)

Module Statements.

Section Reference.
Import Pandas Env ReferenceDataManager.

(** The maximum age in force: the argument of the call, else the
    threshold of the definition, else the configured
    [default_max_age_days], else 30 days. *)
Definition effective_max_age (override per_definition configured_default : option Z) : Z :=
  match override, per_definition, configured_default with
  | Some d, _, _ => d
  | None, Some d, _ => d
  | None, None, Some d => d
  | None, None, None => 30%Z
  end.

(** The maximum age as the specification words it: the argument, else the
    threshold of the definition, else 30 days. *)
Definition stated_max_age (override per_definition : option Z) : Z :=
  match override, per_definition with
  | Some d, _ => d
  | None, Some d => d
  | None, None => 30%Z
  end.

Definition per_definition_max_age (st : Manager) (name : string) : option Z :=
  match reference_files (config st) !! name with
  | Some ref_config => rc_max_age_days ref_config
  | None => None
  end.

(** The age of loaded reference data, in whole days. *)
Definition age_days (w : World) (meta : Metadata) : Z :=
  timedelta_days (now w - last_modified meta).

End Reference.

Section Validation.
Import Pandas Env EnhancedDataProcessor.




(** A rule result vector with the entry of one row set to false. *)
Definition flip_result (name : string) (i : nat) (results : list (string * list bool))
  : list (string * list bool) :=
  map (fun kv => if bool_decide (fst kv = name) then (fst kv, <[i := false]> (snd kv)) else kv)
      results.

End Validation.

Section Mapping.
Import Pandas.

(** The first of the names that labels a column of the frame. *)
Definition first_present (df : Pandas.DataFrame) (names : list string) : option string :=
  List.find (Pandas.has_column df) names.

(** The rename one entry of [config['source']['required_columns']] asks
    for: none when the standard name is a column, else the first alias
    present to the standard name. *)
Definition legacy_rename (df : Pandas.DataFrame) (ci : EnhancedDataProcessor.ColumnInfo)
  : option (string * string) :=
  if Pandas.has_column df (EnhancedDataProcessor.ci_name ci) then None
  else option_map (fun a => (a, EnhancedDataProcessor.ci_name ci))
         (first_present df (EnhancedDataProcessor.ci_alias ci)).

(** The names an entry of [columns_mapping] looks for, in order: its
    source, then its aliases. *)
Definition entry_names (cm : DataSourceManager.ColMapping) : list string :=
  match Pandas.truthy (DataSourceManager.cm_source cm) with
  | Some s => s :: DataSourceManager.cm_aliases cm
  | None => []
  end.

(** The rename one entry of [columns_mapping] asks for: none when its
    source or target is empty, else the first of source and aliases that
    is present, to the target. *)
Definition registry_rename (df : Pandas.DataFrame) (cm : DataSourceManager.ColMapping)
  : option (string * string) :=
  match Pandas.truthy (DataSourceManager.cm_target cm) with
  | Some t => option_map (fun k => (k, t)) (first_present df (entry_names cm))
  | None => None
  end.

(** The target of the last entry that asks to rename [k]. *)
Fixpoint last_rename {E : Type} (pick : E -> option (string * string))
    (entries : list E) (k : string) : option string :=
  match entries with
  | [] => None
  | e :: rest =>
      match last_rename pick rest k with
      | Some t => Some t
      | None =>
          match pick e with
          | Some (k', t) => if bool_decide (k' = k) then Some t else None
          | None => None
          end
      end
  end.

(** One turn of a loop that collects renames in a dict. *)
Definition collect {E : Type} (pick : E -> option (string * string))
    (m : gmap string string) (e : E) : gmap string string :=
  match pick e with
  | Some (k, t) => <[k := t]> m
  | None => m
  end.

(** The names some entry renames to. *)
Definition rename_targets (cfg : DataSourceManager.SourceConfig) : list string :=
  omap (fun cm => truthy (DataSourceManager.cm_target cm))
       (DataSourceManager.columns_mapping cfg).

(** No entry looks for a name that entries rename to, unless as its own
    source, kept under that name. *)
Definition targets_settled (cfg : DataSourceManager.SourceConfig) : Prop :=
  Forall (fun cm =>
            Forall (fun k =>
                      k ∈ rename_targets cfg ->
                      truthy (DataSourceManager.cm_source cm) = Some k /\
                      truthy (DataSourceManager.cm_target cm) = Some k)
                   (entry_names cm))
         (DataSourceManager.columns_mapping cfg).

(** The frame carries at most one of the names each entry looks for. *)
Definition one_name_present (df : DataFrame) (cfg : DataSourceManager.SourceConfig) : Prop :=
  Forall (fun cm =>
            Forall (fun k1 =>
                      Forall (fun k2 => k1 ∈ columns df -> k2 ∈ columns df -> k1 = k2)
                             (entry_names cm))
                   (entry_names cm))
         (DataSourceManager.columns_mapping cfg).

#[export] Instance targets_settled_dec cfg : Decision (targets_settled cfg).
Proof. unfold targets_settled. apply _. Defined.

#[export] Instance one_name_present_dec df cfg : Decision (one_name_present df cfg).
Proof. unfold one_name_present. apply _. Defined.

End Mapping.

Section Loading.
Import Pandas Env DataSourceManager.

(** The table the extension-selected reader gives for a source, if any. *)
Definition read_source (w : Env.World) (cfg : DataSourceManager.SourceConfig)
    (path : string) : option Pandas.DataFrame :=
  match Env.reader_of_ext (Pandas.lower (Pandas.splitext_ext path)) with
  | Env.ReadExcel => Env.read_excel w path (DataSourceManager.sheet_name cfg)
  | Env.ReadCsv => Env.read_csv w path
  | Env.Unsupported => None
  end.

(** The declared file type of a source, lower-cased, [xlsx] by default. *)
Definition expected_type (cfg : DataSourceManager.SourceConfig) : string :=
  Pandas.lower (default "xlsx" (DataSourceManager.file_type cfg)).

(** The same source definition with another declared file type. *)
Definition with_file_type (t : option string) (cfg : DataSourceManager.SourceConfig)
  : DataSourceManager.SourceConfig :=
  DataSourceManager.mkSourceConfig t (DataSourceManager.sheet_name cfg)
    (DataSourceManager.columns_mapping cfg) (DataSourceManager.validation_rules cfg).

(** The same registry with the definition of one source replaced. *)
Definition with_source (name : string) (cfg : DataSourceManager.SourceConfig)
    (st : DataSourceManager.Manager) : DataSourceManager.Manager :=
  DataSourceManager.mkManager (<[name := cfg]> (DataSourceManager.registry st))
    (DataSourceManager.analytics_mapping st) (DataSourceManager.data_freshness_warning st)
    (DataSourceManager.loaded_sources st).

(** The success flag and the frame of a load result. *)
Definition loaded (r : LoadResult) : bool * option DataFrame := fst r.
Definition succeeded (r : LoadResult) : bool := fst (fst r).
Definition returned_warnings (r : LoadResult) : list string := snd r.

End Loading.

Section Grouping.
Import Pandas Env EnhancedDataProcessor.

(** The number of grouped rows of one group. *)
Definition group_total (rows : list (Pandas.cell * Pandas.cell)) (g : Pandas.cell) : Z :=
  Z.of_nat (length (List.filter (fun r => bool_decide (fst r = g)) rows)).

(** Sums of integer lists. *)
Definition total (l : list Z) : Z := fold_right Z.add 0%Z l.

(** What holds of the table of counts from [unstack] on, through the
    additions of missing categories: a column holds the sizes of its
    category, a category without column has no row, and the rows sum to
    the totals of the groups. *)
Definition counts_table (rows : list (cell * cell)) (groups : list cell) (t : Counts)
  : Prop :=
  (forall c,
      match lookup_label c t with
      | Some v => v = map (fun g => group_size rows g c) groups
      | None => c ∉ map snd rows
      end)
  /\ row_sums (length groups) t = map (group_total rows) groups.

End Grouping.

Section ReferenceCalls.
Import Pandas Env ReferenceDataManager.

(** A call on the reference data manager. *)
Inductive call : Type :=
| CallGet (name : string)
| CallCheck (name : string) (max_age_days : option Z)
| CallUpdate (name file_path user : string)
| CallLoad (name : string) (file_path : option string).

Definition call_name (c : call) : string :=
  match c with
  | CallGet n | CallCheck n _ | CallUpdate n _ _ | CallLoad n _ => n
  end.

(** The calls other than a direct [load_reference_data]. *)
Definition audited (c : call) : bool :=
  match c with
  | CallLoad _ _ => false
  | _ => true
  end.

(** The manager after a call made in a given state of the world. *)
Definition perform (st : Manager) (wc : World * call) : Manager :=
  match wc with
  | (w, CallGet n) => snd (get_reference_data w n st)
  | (w, CallCheck n d) => snd (check_freshness w n d st)
  | (w, CallUpdate n p u) => snd (update_reference_data w n p u st)
  | (w, CallLoad n p) => snd (load_reference_data w n p st)
  end.

(** The manager after a sequence of calls, the world changing at will
    between them. *)
Definition perform_all (calls : list (World * call)) (st : Manager) : Manager :=
  fold_left perform calls st.

(** The version recorded by the last audit entry on a name. *)
Definition last_logged (log : list AuditEntry) (name : string) : option Metadata :=
  option_map new_version
    (last (List.filter (fun e => bool_decide (entry_name e = name)) log)).

(** Data and metadata are held for the same names, all of them
    configured. *)
Definition consistent (st : Manager) : Prop :=
  forall name,
    (is_Some (reference_data st !! name) <-> is_Some (metadata st !! name))
    /\ (is_Some (metadata st !! name) -> is_Some (reference_files (config st) !! name)).

(** The last audit entry on a name, if any, records the metadata in use
    for that name, which is loaded. *)
Definition in_sync (st : Manager) : Prop :=
  forall name m,
    last_logged (audit_log st) name = Some m ->
    metadata st !! name = Some m /\ is_Some (reference_data st !! name).

End ReferenceCalls.

Section RegistryStatements.
Import Pandas Env DataSourceManager.

(** The source of the last entry of [analytics_mapping] that names a
    source and lists the analytic. *)
Fixpoint last_source (entries : list MappingEntry) (analytic_id : string) : option string :=
  match entries with
  | [] => None
  | e :: rest =>
      match last_source rest analytic_id with
      | Some s => Some s
      | None =>
          match truthy (me_data_source e) with
          | Some s => if bool_decide (analytic_id ∈ me_analytics e) then Some s else None
          | None => None
          end
      end
  end.

(** A validation rule of a source holds of a table: enough rows for
    [row_count_min], no column missing for [required_columns]; a rule of
    another type holds of any table. *)
Definition rule_satisfied (df : DataFrame) (rule : ValidationRule) : Prop :=
  if bool_decide (vr_type rule = Some "row_count_min")
  then (default 0%Z (vr_threshold rule) <= Z.of_nat (df_len df))%Z
  else if bool_decide (vr_type rule = Some "required_columns")
  then Forall (fun col => col ∈ columns df) (default [] (vr_columns rule))
  else True.

(** The warnings a successful load returns, from the table as read. *)
Definition load_warnings (w : World) (st : Manager) (name path : string)
    (cfg : SourceConfig) (raw : DataFrame) (mtime : Z) : list string :=
  (if bool_decide (expected_type cfg = "xlsx")
      && negb (is_excel_ext (lower (splitext_ext path)))
   then [mismatch_warning (lower (splitext_ext path))] else [])
  ++ _validate_data raw cfg
  ++ (if (default 7%Z (data_freshness_warning st) <? timedelta_days (now w - mtime))%Z
      then [freshness_warning name (timedelta_days (now w - mtime))
              (default 7%Z (data_freshness_warning st))]
      else []).

End RegistryStatements.

Section SummaryStatements.
Import Pandas Env EnhancedDataProcessor.

(** Labels in ascending order: each is at most the next one. *)
Fixpoint ascending (l : list cell) : Prop :=
  match l with
  | a :: rest =>
      match rest with
      | b :: _ => cell_leb a b = true
      | [] => True
      end /\ ascending rest
  | [] => True
  end.

End SummaryStatements.

Section ReferenceLoading.
Import Pandas Env EnhancedDataProcessor.

(** The legacy entry that [load_reference_data] falls back on for a
    name. *)
Definition legacy_entry (refs : ReferenceSettings) (ref_name : string) : option LegacyRef :=
  match cfg_reference_files refs with
  | Some files => List.find (fun ref => bool_decide (lr_name ref = ref_name)) files
  | None => None
  end.

(** The fallback yields nothing for a name. *)
Definition legacy_fails (w : World) (refs : ReferenceSettings) (ref_name : string) : Prop :=
  match legacy_entry refs ref_name with
  | Some legacy_ref => load_legacy w legacy_ref = None
  | None => True
  end.

(** The warnings added to [before]: each tells that a name of [names]
    which is loaded may be stale. *)
Definition stale_warnings_added (names : list string) (st : Processor)
    (before : list string) : Prop :=
  exists added,
    warnings st = before ++ added /\
    Forall (fun msg => exists n, n ∈ names /\ msg = stale_warning n /\
                                 is_Some (reference_data st !! n)) added.

(** What holds along the loop of [load_reference_data], started from the
    processor [st0], once the names [done] have been gone through. *)
Definition loading_invariant (w : World) (refs : ReferenceSettings) (st0 : Processor)
    (done : list string) (acc : bool * Processor) : Prop :=
  config (snd acc) = config st0 /\
  source_data (snd acc) = source_data st0 /\
  stale_warnings_added done (snd acc) (warnings st0) /\
  (forall k, is_Some (reference_data (snd acc) !! k) -> k ∈ done) /\
  (fst acc = true -> forall n, n ∈ done -> is_Some (reference_data (snd acc) !! n)) /\
  (fst acc = false -> exists n, n ∈ done /\ reference_data (snd acc) !! n = None) /\
  (forall n, n ∈ done -> reference_data (snd acc) !! n = None ->
     fst (ReferenceDataManager.get_reference_data w n (reference_data_manager (snd acc)))
       = None /\ legacy_fails w refs n) /\
  (forall n, is_Some (reference_data (snd acc) !! n) ->
     is_Some (ReferenceDataManager.reference_data (reference_data_manager (snd acc)) !! n)
     \/ ~ legacy_fails w refs n).

End ReferenceLoading.

End Statements.

(* ===================================================================== *)
(** * Properties *)
(* ===================================================================== *)

(** ** Reference data: loading, update and audit log *)

Section ReferenceDataFacts.
Import Pandas Env ReferenceDataManager Statements.

(** A load that reports failure has touched nothing. *)
Lemma load_reference_data_false (w : World) (name : string) (fp : option string)
    (st st' : Manager) :
  load_reference_data w name fp st = (false, st') -> st' = st.
Proof.
  unfold load_reference_data, bind, get, put, ret.
  destruct (reference_files (config st) !! name) as [rc|]; [|congruence].
  destruct (truthy _) as [path|]; [|congruence].
  destruct (negb (path_exists w path)); [congruence|].
  destruct (read_reference w rc path) as [[data meta]|]; congruence.
Qed.

(** A load that reports success has stored the data and its metadata
    under the name, and nothing else. *)
Lemma load_reference_data_true (w : World) (name : string) (fp : option string)
    (st st' : Manager) :
  load_reference_data w name fp st = (true, st') ->
  exists data meta,
    st' = mkManager (config st) (<[name := data]> (reference_data st))
            (<[name := meta]> (metadata st)) (audit_log st) (saved_log st).
Proof.
  unfold load_reference_data, bind, get, put, ret.
  destruct (reference_files (config st) !! name) as [rc|]; [|congruence].
  destruct (truthy _) as [path|]; [|congruence].
  destruct (negb (path_exists w path)); [congruence|].
  destruct (read_reference w rc path) as [[data meta]|]; [|congruence].
  intros [= <-]. eauto.
Qed.

(** Saving the audit log rewrites the file at most: what the manager
    holds in memory stays. *)
Lemma save_audit_log_memory (w : World) (st : Manager) :
  metadata (snd (_save_audit_log w st)) = metadata st /\
  audit_log (snd (_save_audit_log w st)) = audit_log st.
Proof.
  unfold _save_audit_log, bind, get, put, ret. cbn.
  destruct (can_write w _); cbn; auto.
Qed.

(** C3. An update either succeeds, and then the audit log is the previous
    log followed by exactly one entry, which records the metadata held
    before the call (absent on a first load) and the metadata now stored
    under the name; or it fails, and then the manager (audit log,
    persisted log, reference data, metadata) is exactly as before.  It
    never raises, and the log never shrinks. *)
Theorem update_reference_data_all_or_nothing
    (w : World) (name file_path user : string) (st : Manager) :
  let r := fst (update_reference_data w name file_path user st) in
  let st' := snd (update_reference_data w name file_path user st) in
  ((r = Returned true /\
    exists new_meta,
      metadata st' !! name = Some new_meta /\
      audit_log st' =
        audit_log st ++
          [mkAuditEntry (now w) "update_reference" name user
             (metadata st !! name) new_meta] /\
      length (audit_log st') = S (length (audit_log st)))
   \/ (r = Returned false /\ st' = st))
  /\ (length (audit_log st) <= length (audit_log st'))%nat.
Proof.
  cbv zeta.
  destruct (update_reference_data w name file_path user st) as [r st'] eqn:Hupd.
  cbn [fst snd]. revert Hupd.
  unfold update_reference_data, bind, get.
  destruct (load_reference_data w name (Some file_path) st) as [ok st1] eqn:Hload.
  destruct ok; cbn [negb].
  - apply load_reference_data_true in Hload as (data & meta & ->).
    unfold put, ret. cbn [metadata config reference_data audit_log saved_log].
    rewrite lookup_insert_eq.
    pose proof (save_audit_log_memory w
      (mkManager (config st) (<[name:=data]> (reference_data st))
         (<[name:=meta]> (metadata st))
         (audit_log st ++
            [mkAuditEntry (now w) "update_reference" name user (metadata st !! name) meta])
         (saved_log st))) as (Hm & Hl).
    destruct (_save_audit_log w _) as [u st2]. cbn in Hm, Hl.
    intros [= <- <-].
    rewrite Hl, Hm, lookup_insert_eq, length_app. cbn. split; [|lia].
    left. split; [done|]. exists meta. repeat split; lia.
  - apply load_reference_data_false in Hload as ->.
    unfold ret. intros [= <- <-]. split; [|lia]. right. done.
Qed.

(** ** Reference data: freshness *)

Lemma check_freshness_loaded (w : World) (name : string) (override : option Z)
    (st : Manager) (meta : Metadata) :
  metadata st !! name = Some meta ->
  check_freshness w name override st =
    ((age_days w meta <=?
        effective_max_age override (per_definition_max_age st name)
          (default_max_age_days (config st)))%Z, st).
Proof.
  intros Hmeta. unfold check_freshness, bind, get, ret, per_definition_max_age, age_days.
  rewrite Hmeta. destruct override as [d|]; [done|]. cbn.
  destruct (reference_files (config st) !! name) as [rc|]; cbn.
  - destruct (rc_max_age_days rc); [done|].
    by destruct (default_max_age_days (config st)).
  - by destruct (default_max_age_days (config st)).
Qed.

(** C4 (as amended). For loaded reference data, [check_freshness] leaves
    the manager as it is and answers true exactly when the age in whole
    days is at most the maximum age in force: the argument if given, else
    the threshold of the definition, else the configured
    [default_max_age_days], else 30 days.  An age equal to the maximum is
    fresh, an age one day above it is stale. *)
Theorem check_freshness_threshold (w : World) (name : string) (override : option Z)
    (st : Manager) (meta : Metadata) :
  metadata st !! name = Some meta ->
  let max_age :=
    effective_max_age override (per_definition_max_age st name)
      (default_max_age_days (config st)) in
  snd (check_freshness w name override st) = st /\
  (fst (check_freshness w name override st) = true <-> (age_days w meta <= max_age)%Z) /\
  (age_days w meta = max_age -> fst (check_freshness w name override st) = true) /\
  (age_days w meta = (max_age + 1)%Z -> fst (check_freshness w name override st) = false).
Proof.
  intros Hmeta max_age. rewrite (check_freshness_loaded _ _ _ _ _ Hmeta). cbn [fst snd].
  fold max_age. repeat split.
  - apply Z.leb_le.
  - apply Z.leb_le.
  - intros ->. apply Z.leb_refl.
  - intros ->. apply Z.leb_gt. lia.
Qed.

(** Reference data 31 days old under a threshold of 30 days is stale; at
    30 days it is fresh. *)
Lemma check_freshness_threshold_witness :
  metadata (Examples.loaded_manager (Some 30%Z) None) !! "country_codes"
    = Some Examples.country_codes_metadata /\
  fst (check_freshness (Examples.reference_world 31) "country_codes" None
         (Examples.loaded_manager (Some 30%Z) None)) = false /\
  fst (check_freshness (Examples.reference_world 30) "country_codes" None
         (Examples.loaded_manager (Some 30%Z) None)) = true.
Proof.
  split; [reflexivity|]. split.
  - apply (check_freshness_threshold (Examples.reference_world 31) "country_codes" None
             (Examples.loaded_manager (Some 30%Z) None) Examples.country_codes_metadata);
      reflexivity.
  - apply (check_freshness_threshold (Examples.reference_world 30) "country_codes" None
             (Examples.loaded_manager (Some 30%Z) None) Examples.country_codes_metadata);
      reflexivity.
Defined.

(** C4 as stated fails where the configuration sets
    [default_max_age_days]: with a default of 10 days and no threshold on
    the definition, data 20 days old is within the stated 30 days and yet
    is reported stale. *)
Lemma check_freshness_configured_default_counterexample :
  let st := Examples.loaded_manager None (Some 10%Z) in
  let w := Examples.reference_world 20 in
  metadata st !! "country_codes" = Some Examples.country_codes_metadata /\
  age_days w Examples.country_codes_metadata = 20%Z /\
  stated_max_age None (per_definition_max_age st "country_codes") = 30%Z /\
  fst (check_freshness w "country_codes" None st) = false.
Proof. cbv zeta. repeat split; reflexivity. Qed.

(** C10. For a name without recorded metadata, [check_freshness] answers
    false whatever the maximum age passed, and leaves the manager as it
    is: nothing is loaded. *)
Theorem check_freshness_unloaded (w : World) (name : string) (override : option Z)
    (st : Manager) :
  metadata st !! name = None ->
  check_freshness w name override st = (false, st).
Proof.
  intros Hmeta. unfold check_freshness, bind, get, ret. by rewrite Hmeta.
Qed.

(** [country_codes] is configured and its file is there, but it has not
    been loaded: it is not fresh, even with a generous maximum age, and it
    stays unloaded. *)
Lemma check_freshness_unloaded_witness :
  metadata (Examples.reference_manager (Some 30%Z) None) !! "country_codes" = None /\
  check_freshness (Examples.reference_world 0) "country_codes" (Some 1000%Z)
    (Examples.reference_manager (Some 30%Z) None)
  = (false, Examples.reference_manager (Some 30%Z) None).
Proof.
  split; [reflexivity|].
  apply (check_freshness_unloaded (Examples.reference_world 0) "country_codes"
           (Some 1000%Z) (Examples.reference_manager (Some 30%Z) None)).
  reflexivity.
Defined.

End ReferenceDataFacts.

(** ** Frames and dicts *)

Section FrameFacts.
Import Pandas.

Lemma assoc_dict_set_eq {V : Type} (k : string) (v : V) (d : list (string * V)) :
  assoc k (dict_set k v d) = Some v.
Proof.
  induction d as [|[k' v'] d IH]; cbn.
  - by rewrite bool_decide_eq_true_2.
  - case_bool_decide; cbn.
    + by rewrite bool_decide_eq_true_2.
    + by rewrite bool_decide_eq_false_2.
Qed.

Lemma assoc_dict_set_ne {V : Type} (k k' : string) (v : V) (d : list (string * V)) :
  k <> k' -> assoc k' (dict_set k v d) = assoc k' d.
Proof.
  intros Hne. induction d as [|[k0 v0] d IH]; cbn.
  - by rewrite bool_decide_eq_false_2.
  - case_bool_decide; cbn.
    + subst k0. by rewrite !bool_decide_eq_false_2.
    + by rewrite IH.
Qed.


Lemma assoc_None {V : Type} (k : string) (d : list (string * V)) :
  assoc k d = None <-> k ∉ map fst d.
Proof.
  induction d as [|[k0 v0] d IH]; cbn.
  - split; [intros _; apply not_elem_of_nil | done].
  - rewrite not_elem_of_cons. case_bool_decide; subst.
    + split; [done | intros [? _]; done].
    + rewrite IH. split; [auto | intros [_ ?]; done].
Qed.

Lemma assoc_replace {V : Type} (c : string) (v : V) (d : list (string * V)) :
  c ∈ map fst d ->
  assoc c (map (fun kv => if bool_decide (fst kv = c) then (c, v) else kv) d) = Some v.
Proof.
  induction d as [|[k0 v0] d IH]; cbn.
  - intros H. by apply elem_of_nil in H.
  - intros H. case_bool_decide; cbn.
    + by rewrite bool_decide_eq_true_2.
    + rewrite bool_decide_eq_false_2 by done.
      apply IH. apply elem_of_cons in H as [->|H]; done.
Qed.

Lemma assoc_replace_ne {V : Type} (c c' : string) (v : V) (d : list (string * V)) :
  c <> c' ->
  assoc c' (map (fun kv => if bool_decide (fst kv = c) then (c, v) else kv) d) = assoc c' d.
Proof.
  intros Hne. induction d as [|[k0 v0] d IH]; cbn; [done|].
  case_bool_decide; cbn.
  - subst k0. rewrite !bool_decide_eq_false_2 by done. apply IH.
  - by rewrite IH.
Qed.

Lemma assoc_app {V : Type} (c : string) (d1 d2 : list (string * V)) :
  assoc c (d1 ++ d2) = match assoc c d1 with Some v => Some v | None => assoc c d2 end.
Proof.
  induction d1 as [|[k0 v0] d1 IH]; cbn; [done|]. by case_bool_decide.
Qed.

(** Reading back the column just assigned. *)
Lemma get_set_column (df : DataFrame) (c : string) (v : list cell) :
  get_column (set_column df c v) c = Some v.
Proof.
  unfold get_column, set_column, has_column. case_bool_decide as Hin; cbn.
  - by apply assoc_replace.
  - rewrite assoc_app. apply assoc_None in Hin. rewrite Hin. cbn.
    by rewrite bool_decide_eq_true_2.
Qed.

(** Assigning a column leaves the columns of other labels as they are. *)
Lemma get_set_column_ne (df : DataFrame) (c c' : string) (v : list cell) :
  c <> c' -> get_column (set_column df c v) c' = get_column df c'.
Proof.
  intros Hne. unfold get_column, set_column, has_column. case_bool_decide as Hin; cbn.
  - by apply assoc_replace_ne.
  - rewrite assoc_app. destruct (assoc c' (df_data df)); [done|]. cbn.
    by rewrite bool_decide_eq_false_2.
Qed.


(** The extension is what follows the last dot of the last component,
    unless the component starts with it. *)
Example splitext_ext_cases :
  splitext_ext "data/vendors.CSV" = ".CSV" /\
  lower (splitext_ext "data/vendors.CSV") = ".csv" /\
  splitext_ext "archive.tar.gz" = ".gz" /\
  splitext_ext "reports.2024/summary" = "" /\
  splitext_ext "config/.hidden" = "" /\
  splitext_ext "config/..hidden.xls" = ".xls".
Proof. repeat split; reflexivity. Qed.

(** Whole days round towards minus infinity, as [timedelta.days] does. *)
Example timedelta_days_cases :
  Env.timedelta_days (30 * Env.usec_per_day + 86399999999) = 30%Z /\
  Env.timedelta_days (31 * Env.usec_per_day) = 31%Z /\
  Env.timedelta_days (-1) = (-1)%Z.
Proof. repeat split; reflexivity. Qed.

End FrameFacts.

(** ** Validation run and compliance *)

Section ValidationFacts.
Import Pandas Env EnhancedDataProcessor Statements.


(** Later declarations for other rules leave a recorded vector in place. *)
Lemma fold_record_other (st : Processor) (df : DataFrame) (post : list Validation)
    (results : list (string * list bool)) (name : string) :
  Forall (fun validation => rule validation <> name) post ->
  assoc name (fold_left (record_result st df) post results) = assoc name results.
Proof.
  revert results. induction post as [|d post IH]; intros results Hpost; cbn; [done|].
  apply Forall_cons in Hpost as [Hd Hpost].
  rewrite IH by done. unfold record_result. by apply assoc_dict_set_ne.
Qed.



Lemma run_validations_aggregate (st : Processor) (df : DataFrame) :
  source_data st = Some df ->
  validation_results st df <> [] ->
  source_data (snd (run_validations st)) = Some (aggregate df (validation_results st df)).
Proof.
  intros Hdf Hne. unfold run_validations, bind, get, put. rewrite Hdf.
  by destruct (validation_results st df).
Qed.

Lemma aggregate_compliance (df : DataFrame) (results : list (string * list bool)) :
  get_column (aggregate df results) "Compliance"
    = Some (map compliance_of (all_valid (df_len df) results)).
Proof.
  unfold aggregate. rewrite get_set_column_ne by done. apply get_set_column.
Qed.

Lemma all_valid_lookup (n i : nat) (results : list (string * list bool)) :
  i < n ->
  all_valid n results !! i
    = Some (forallb (fun kv => default true (snd kv !! i)) results).
Proof.
  intros Hi. unfold all_valid. rewrite list_lookup_fmap, lookup_seq_lt by done. done.
Qed.

Lemma forallb_all_true (i : nat) (results : list (string * list bool)) :
  Forall (fun kv => i < length (snd kv)) results ->
  forallb (fun kv => default true (snd kv !! i)) results = true
  <-> Forall (fun kv => snd kv !! i = Some true) results.
Proof.
  induction 1 as [|kv results Hkv _ IH]; cbn.
  - split; [constructor | done].
  - rewrite andb_true_iff, Forall_cons, IH.
    destruct (lookup_lt_is_Some_2 _ _ Hkv) as [b Hb]. rewrite Hb. cbn.
    split; intros [? ?]; split; congruence.
Qed.

Lemma forallb_flipped (name : string) (i : nat) (results : list (string * list bool)) :
  name ∈ map fst results ->
  Forall (fun kv => i < length (snd kv)) results ->
  forallb (fun kv => default true (snd kv !! i)) (flip_result name i results) = false.
Proof.
  unfold flip_result. induction results as [|kv results IH]; cbn.
  - intros Hin. by apply elem_of_nil in Hin.
  - intros Hin Hlen. apply Forall_cons in Hlen as [Hkv Hlen].
    case_bool_decide as Hname; cbn.
    + by rewrite list_lookup_insert_eq.
    + apply elem_of_cons in Hin as [->|Hin]; [done|].
      rewrite IH by done. apply andb_false_r.
Qed.

(** C1. When at least one rule vector was recorded and the vectors have
    one entry per row, the dataset left by the run carries a [Compliance]
    column with one outcome per row: GC exactly where every rule vector is
    true, DNC exactly where some vector is not, and never PC; setting the
    entry of any one recorded rule to false at a row makes that row DNC. *)
Theorem compliance_aggregation (st : Processor) (df : DataFrame)
    (results : list (string * list bool)) :
  source_data st = Some df ->
  validation_results st df = results ->
  results <> [] ->
  Forall (fun kv => length (snd kv) = df_len df) results ->
  source_data (snd (run_validations st)) = Some (aggregate df results) /\
  exists compliance,
    get_column (aggregate df results) "Compliance" = Some compliance /\
    length compliance = df_len df /\
    forall i, i < df_len df ->
      (compliance !! i = Some (CStr "GC")
         <-> Forall (fun kv => snd kv !! i = Some true) results) /\
      (compliance !! i = Some (CStr "DNC")
         <-> ~ Forall (fun kv => snd kv !! i = Some true) results) /\
      compliance !! i <> Some (CStr "PC") /\
      (forall name, name ∈ map fst results ->
         get_column (aggregate df (flip_result name i results)) "Compliance"
           ≫= (fun flipped => flipped !! i) = Some (CStr "DNC")).
Proof.
  intros Hdf Hres Hne Hlen. split.
  { subst results. by apply run_validations_aggregate. }
  exists (map compliance_of (all_valid (df_len df) results)).
  split; [apply aggregate_compliance|].
  split; [unfold all_valid; by rewrite !length_map, length_seq|].
  intros i Hi.
  assert (Hlen_i : Forall (fun kv => i < length (snd kv)) results).
  { eapply Forall_impl; [exact Hlen|]. cbn. intros kv ->. done. }
  rewrite list_lookup_fmap, all_valid_lookup by done. cbn.
  pose proof (forallb_all_true i results Hlen_i) as Hall.
  destruct (forallb _ results) eqn:Hfb; cbn.
  - split; [|split; [|split]].
    + split; [intros _; by apply Hall | done].
    + split; [done | intros Hn; destruct Hn; by apply Hall].
    + done.
    + intros name Hin. rewrite aggregate_compliance. cbn.
      rewrite list_lookup_fmap, all_valid_lookup by done.
      by rewrite forallb_flipped.
  - split; [|split; [|split]].
    + split; [done | intros Hf; apply Hall in Hf; done].
    + split; [intros _ Hf; apply Hall in Hf; done | done].
    + done.
    + intros name Hin. rewrite aggregate_compliance. cbn.
      rewrite list_lookup_fmap, all_valid_lookup by done.
      by rewrite forallb_flipped.
Qed.

(** The rows of [vendors] under [rule_a] (fails rows 2 and 5) and
    [rule_b] (fails row 5): rows 2 and 5 do not conform, the others do. *)
Lemma compliance_aggregation_witness :
  let results :=
    [("rule_a", [true; true; false; true; true; false]);
     ("rule_b", [true; true; true; true; true; false])] in
  validation_results Examples.two_rules Examples.vendors = results /\
  source_data (snd (run_validations Examples.two_rules))
    = Some (aggregate Examples.vendors results) /\
  get_column (aggregate Examples.vendors results) "Compliance"
    = Some [CStr "GC"; CStr "GC"; CStr "DNC"; CStr "GC"; CStr "GC"; CStr "DNC"].
Proof.
  cbv zeta. split; [reflexivity|]. split; [|reflexivity].
  apply (compliance_aggregation Examples.two_rules Examples.vendors).
  - reflexivity.
  - reflexivity.
  - discriminate.
  - repeat constructor.
Defined.

End ValidationFacts.

(** ** Column mapping *)

Section BatchFacts.
Import Statements.
Context {E : Type} (pick : E -> option (string * string)).

Lemma collect_lookup (entries : list E) (m : gmap string string) (k : string) :
  fold_left (collect pick) entries m !! k =
    match last_rename pick entries k with
    | Some t => Some t
    | None => m !! k
    end.
Proof.
  revert m. induction entries as [|e entries IH]; intros m; cbn; [done|].
  rewrite IH. destruct (last_rename pick entries k); [done|].
  unfold collect. destruct (pick e) as [[k' t]|]; [|done].
  case_bool_decide; subst.
  - apply lookup_insert_eq.
  - by apply lookup_insert_ne.
Qed.



End BatchFacts.

Section ColumnMappingFacts.
Import Pandas Statements.

Lemma registry_alias_loop (df : DataFrame) (aliases : list string) (t : string)
    (m : gmap string string) :
  DataSourceManager.alias_loop df aliases t m =
    collect (fun names => option_map (fun k => (k, t)) (first_present df names)) m aliases.
Proof.
  unfold collect, first_present. induction aliases as [|a aliases IH]; cbn; [done|].
  destruct (has_column df a); [done|]. exact IH.
Qed.

Lemma legacy_alias_loop (df : DataFrame) (aliases : list string) (t : string)
    (m : gmap string string) :
  EnhancedDataProcessor.alias_loop df aliases t m =
    collect (fun names => option_map (fun k => (k, t)) (first_present df names)) m aliases.
Proof.
  unfold collect, first_present. induction aliases as [|a aliases IH]; cbn; [done|].
  destruct (has_column df a); [done|]. exact IH.
Qed.

(** The loop body of [_map_columns] adds the rename of its entry. *)
Lemma registry_map_entry (df : DataFrame) (m : gmap string string)
    (cm : DataSourceManager.ColMapping) :
  DataSourceManager.map_entry df m cm = collect (registry_rename df) m cm.
Proof.
  unfold DataSourceManager.map_entry, collect, registry_rename, entry_names.
  destruct (truthy (DataSourceManager.cm_source cm)) as [s|];
    destruct (truthy (DataSourceManager.cm_target cm)) as [t|]; try done.
  unfold first_present. cbn. destruct (has_column df s); [done|].
  rewrite registry_alias_loop. unfold collect, first_present.
  by destruct (List.find _ _).
Qed.

(** The loop body of [_map_column_aliases] adds the rename of its entry. *)
Lemma legacy_map_entry (df : DataFrame) (m : gmap string string)
    (ci : EnhancedDataProcessor.ColumnInfo) :
  EnhancedDataProcessor.map_entry df m ci = collect (legacy_rename df) m ci.
Proof.
  unfold EnhancedDataProcessor.map_entry, collect, legacy_rename.
  destruct (has_column df _); [done|].
  rewrite legacy_alias_loop. unfold collect. by destruct (first_present _ _).
Qed.

Lemma fold_left_ext {A B : Type} (f g : A -> B -> A) (l : list B) (a : A) :
  (forall x y, f x y = g x y) -> fold_left f l a = fold_left g l a.
Proof.
  intros Hfg. revert a. induction l as [|y l IH]; intros a; cbn; [done|].
  by rewrite Hfg, IH.
Qed.

Lemma registry_mapping_lookup (df : DataFrame) (cfg : DataSourceManager.SourceConfig)
    (k : string) :
  DataSourceManager.column_mapping_of df cfg !! k
    = last_rename (registry_rename df) (DataSourceManager.columns_mapping cfg) k.
Proof.
  unfold DataSourceManager.column_mapping_of.
  rewrite (fold_left_ext _ (collect (registry_rename df)))
    by (intros; apply registry_map_entry).
  rewrite collect_lookup. by destruct (last_rename _ _ _).
Qed.

Lemma legacy_mapping_lookup (df : DataFrame)
    (required : list EnhancedDataProcessor.ColumnInfo) (k : string) :
  EnhancedDataProcessor.column_mapping_of df required !! k
    = last_rename (legacy_rename df) required k.
Proof.
  unfold EnhancedDataProcessor.column_mapping_of.
  rewrite (fold_left_ext _ (collect (legacy_rename df)))
    by (intros; apply legacy_map_entry).
  rewrite collect_lookup. by destruct (last_rename _ _ _).
Qed.

(** A rename (also by the empty mapping) relabels and does nothing else. *)
Lemma rename_columns (m : gmap string string) (df : DataFrame) :
  columns (rename m df) = map (rename_label m) (columns df)
  /\ map snd (df_data (rename m df)) = map snd (df_data df)
  /\ df_len (rename m df) = df_len df.
Proof.
  unfold rename, columns. cbn. rewrite !map_map. done.
Qed.

Lemma rename_empty (df : DataFrame) : rename ∅ df = df.
Proof.
  unfold rename, rename_label. destruct df as [n data]. cbn. f_equal.
  induction data as [|[k v] data IH]; cbn; [done|].
  rewrite lookup_empty. cbn. by rewrite IH.
Qed.

Lemma registry_map_columns_rename (df : DataFrame) (cfg : DataSourceManager.SourceConfig) :
  DataSourceManager._map_columns df cfg
    = rename (DataSourceManager.column_mapping_of df cfg) df.
Proof.
  unfold DataSourceManager._map_columns. case_bool_decide as Hm; [|done].
  by rewrite Hm, rename_empty.
Qed.

Lemma legacy_map_columns_rename (df : DataFrame)
    (required : list EnhancedDataProcessor.ColumnInfo) :
  EnhancedDataProcessor.map_column_aliases df required
    = rename (EnhancedDataProcessor.column_mapping_of df required) df.
Proof.
  unfold EnhancedDataProcessor.map_column_aliases. case_bool_decide as Hm; [|done].
  by rewrite Hm, rename_empty.
Qed.

Lemma first_present_Some (df : DataFrame) (names : list string) (k : string) :
  first_present df names = Some k <->
  exists pre post,
    names = pre ++ k :: post /\ k ∈ columns df /\ Forall (fun x => x ∉ columns df) pre.
Proof.
  unfold first_present, has_column. induction names as [|a names IH]; cbn.
  - split; [done|]. intros (pre & post & Heq & _). by destruct pre.
  - case_bool_decide as Ha.
    + split.
      * intros [= ->]. exists [], names. repeat split; [done|constructor].
      * intros (pre & post & Heq & Hk & Hpre). destruct pre as [|x pre]; cbn in Heq.
        -- congruence.
        -- injection Heq as <- _. apply Forall_cons in Hpre as [Hx _]. done.
    + rewrite IH. split.
      * intros (pre & post & -> & Hk & Hpre). exists (a :: pre), post.
        repeat split; [done|]. by constructor.
      * intros (pre & post & Heq & Hk & Hpre). destruct pre as [|x pre]; cbn in Heq.
        -- injection Heq as -> _. done.
        -- injection Heq as <- ->. apply Forall_cons in Hpre as [_ Hpre]. eauto.
Qed.

Lemma first_present_None (df : DataFrame) (names : list string) :
  first_present df names = None <-> Forall (fun x => x ∉ columns df) names.
Proof.
  unfold first_present, has_column. induction names as [|a names IH]; cbn.
  - split; [constructor | done].
  - rewrite Forall_cons. case_bool_decide as Ha.
    + split; [done | intros [? _]; done].
    + rewrite IH. split; [auto | intros [_ ?]; done].
Qed.

(** C7 (as amended). Each entry asks for at most one rename, found by
    scanning its names in declared order and stopping at the first one
    that labels a column.  On the direct path
    ([_map_column_aliases]) an entry whose standard name is a column asks
    for nothing, else it asks to rename its first alias present to the
    standard name.  On the registry path ([_map_columns]) an entry
    without source or target asks for nothing, else it asks to rename its
    source when present, else its first alias present, to the target,
    whether or not the target is a column.  An entry none of whose names
    is present asks for nothing.  On both paths the renames are collected
    against the columns as loaded and applied in one pass: each label
    asked to be renamed becomes the target of the last entry asking, the
    other labels and all cells stay. *)
Theorem column_resolution_batch (df : DataFrame) :
  (forall names k,
      first_present df names = Some k <->
      exists pre post,
        names = pre ++ k :: post /\ k ∈ columns df /\ Forall (fun x => x ∉ columns df) pre)
  /\ (forall names, first_present df names = None <-> Forall (fun x => x ∉ columns df) names)
  /\ (forall m ci,
         EnhancedDataProcessor.map_entry df m ci =
           match legacy_rename df ci with Some (k, t) => <[k := t]> m | None => m end)
  /\ (forall m cm,
         DataSourceManager.map_entry df m cm =
           match registry_rename df cm with Some (k, t) => <[k := t]> m | None => m end)
  /\ (forall required,
         columns (EnhancedDataProcessor.map_column_aliases df required)
           = map (fun c => default c (last_rename (legacy_rename df) required c)) (columns df)
         /\ map snd (df_data (EnhancedDataProcessor.map_column_aliases df required))
             = map snd (df_data df)
         /\ df_len (EnhancedDataProcessor.map_column_aliases df required) = df_len df)
  /\ (forall cfg,
         columns (DataSourceManager._map_columns df cfg)
           = map (fun c => default c (last_rename (registry_rename df)
                                        (DataSourceManager.columns_mapping cfg) c))
                 (columns df)
         /\ map snd (df_data (DataSourceManager._map_columns df cfg)) = map snd (df_data df)
         /\ df_len (DataSourceManager._map_columns df cfg) = df_len df).
Proof.
  split; [apply first_present_Some|]. split; [apply first_present_None|].
  split; [apply legacy_map_entry|]. split; [apply registry_map_entry|]. split.
  - intros required. rewrite legacy_map_columns_rename.
    destruct (rename_columns (EnhancedDataProcessor.column_mapping_of df required) df)
      as (Hc & Hd & Hl).
    rewrite Hc, Hd, Hl. repeat split. apply map_ext. intros c.
    unfold rename_label. by rewrite legacy_mapping_lookup.
  - intros cfg. rewrite registry_map_columns_rename.
    destruct (rename_columns (DataSourceManager.column_mapping_of df cfg) df)
      as (Hc & Hd & Hl).
    rewrite Hc, Hd, Hl. repeat split. apply map_ext. intros c.
    unfold rename_label. by rewrite registry_mapping_lookup.
Qed.

(** C7 as stated fails on the registry path: the entry renaming [Amt] to
    [Amount] renames it although [Amount] is already a column. *)
Lemma map_columns_target_present_counterexample :
  let df := mkFrame 1 [("Amt", [CInt 5]); ("Amount", [CInt 7])] in
  let cfg := Examples.mapping_config [Examples.amt_entry] in
  has_column df "Amount" = true /\
  columns df = ["Amt"; "Amount"] /\
  columns (DataSourceManager._map_columns df cfg) = ["Amount"; "Amount"].
Proof. cbv zeta. repeat split; reflexivity. Qed.

(** *** Applying the registry mapping twice *)








End ColumnMappingFacts.

(** ** Loading a data source *)

Section LoadFacts.
Import Pandas Env DataSourceManager Statements.

Lemma fold_validate_keeps (df : DataFrame) (rules : list ValidationRule)
    (acc : list string) (x : string) :
  x ∈ acc -> x ∈ fold_left (validate_rule df) rules acc.
Proof.
  revert acc. induction rules as [|r rules IH]; intros acc Hin; cbn; [done|].
  apply IH. unfold validate_rule.
  repeat case_bool_decide; try done.
  - destruct (_ <? _)%Z; [|done]. apply elem_of_app. by left.
  - destruct (missing_columns df _); [done|]. apply elem_of_app. by left.
Qed.

(** A rule of type [required_columns] with columns missing leaves its
    warning in the list. *)
Lemma validate_data_missing (df : DataFrame) (cfg : SourceConfig) (r : ValidationRule) :
  r ∈ validation_rules cfg ->
  vr_type r = Some "required_columns" ->
  missing_columns df (default [] (vr_columns r)) <> [] ->
  missing_columns_warning (missing_columns df (default [] (vr_columns r)))
    ∈ _validate_data df cfg.
Proof.
  intros Hin Hty Hmiss. unfold _validate_data.
  apply list_elem_of_split in Hin as (pre & post & ->).
  rewrite fold_left_app. cbn. apply fold_validate_keeps.
  unfold validate_rule at 1. rewrite Hty.
  rewrite bool_decide_eq_false_2 by done. rewrite bool_decide_eq_true_2 by done.
  destruct (missing_columns df _); [done|]. apply elem_of_app. right. left.
Qed.

(** A registered source whose file is there, readable by the reader of
    its extension, not empty and with a modification time, loads; the
    warnings returned are the mismatch warning if any, then those of the
    validation rules, then the freshness warning if any. *)
Lemma load_data_source_loads (w : World) (name path : string) (st : Manager)
    (cfg : SourceConfig) (df : DataFrame) (t : Z) :
  registry st !! name = Some cfg ->
  path_exists w path = true ->
  read_source w cfg path = Some df ->
  df_len df <> 0 ->
  getmtime w path = Some t ->
  exists df' fresh,
    fst (load_data_source w name path st) =
      (true, Some df',
       (if bool_decide (expected_type cfg = "xlsx")
           && negb (is_excel_ext (lower (splitext_ext path)))
        then [mismatch_warning (lower (splitext_ext path))] else [])
       ++ _validate_data df cfg ++ fresh).
Proof.
  intros Hreg Hex Hread Hlen Ht.
  unfold load_data_source, bind, get, put, ret. rewrite Hreg, Hex. cbn [negb].
  unfold read_source in Hread. fold (expected_type cfg).
  destruct (reader_of_ext (lower (splitext_ext path))); [| |done].
  - rewrite Hread, bool_decide_eq_false_2, Ht by done.
    destruct (_ <? _)%Z; cbn.
    + eexists _, [_]. by rewrite <- app_assoc.
    + eexists _, []. by rewrite app_nil_r.
  - rewrite Hread, bool_decide_eq_false_2, Ht by done.
    destruct (_ <? _)%Z; cbn.
    + eexists _, [_]. by rewrite <- app_assoc.
    + eexists _, []. by rewrite app_nil_r.
Qed.

(** Whether a load succeeds, and the frame it returns, do not depend on
    the declared file type. *)
Lemma load_data_source_any_type (w : World) (name path : string) (st : Manager)
    (cfg : SourceConfig) (t : option string) :
  registry st !! name = Some cfg ->
  loaded (fst (load_data_source w name path (with_source name (with_file_type t cfg) st)))
    = loaded (fst (load_data_source w name path st)).
Proof.
  intros Hreg. unfold load_data_source, bind, get, put, ret, with_source.
  cbn [registry]. rewrite lookup_insert_eq, Hreg.
  destruct (negb (path_exists w path)); [done|].
  cbn [sheet_name with_file_type].
  destruct (reader_of_ext (lower (splitext_ext path))); [| |done].
  - destruct (read_excel w path (sheet_name cfg)) as [df|]; [|done].
    case_bool_decide; [done|].
    destruct (getmtime w path); done.
  - destruct (read_csv w path) as [df|]; [|done].
    case_bool_decide; [done|].
    destruct (getmtime w path); done.
Qed.

(** C9 (as amended). On a registry-driven load whose definition expects
    [xlsx] (also by default) and whose file extension is neither [.xlsx]
    nor [.xls], a successful load returns the mismatch warning first in
    its warnings, and a [.csv] file that is there, readable, not empty
    and dated does load.  Whether a load succeeds, and the frame it
    returns, are the same whatever file type the definition declares. *)
Theorem file_type_mismatch_nonfatal (w : World) (name path : string) (st : Manager)
    (cfg : SourceConfig) :
  registry st !! name = Some cfg ->
  (expected_type cfg = "xlsx" ->
   is_excel_ext (lower (splitext_ext path)) = false ->
   (succeeded (fst (load_data_source w name path st)) = true ->
    exists rest,
      returned_warnings (fst (load_data_source w name path st))
        = mismatch_warning (lower (splitext_ext path)) :: rest)
   /\ (forall df t,
         lower (splitext_ext path) = ".csv" ->
         path_exists w path = true ->
         read_csv w path = Some df ->
         df_len df <> 0 ->
         getmtime w path = Some t ->
         succeeded (fst (load_data_source w name path st)) = true))
  /\ (forall declared,
         loaded (fst (load_data_source w name path
                        (with_source name (with_file_type declared cfg) st)))
           = loaded (fst (load_data_source w name path st))).
Proof.
  intros Hreg. split; [|intros declared; by apply load_data_source_any_type].
  intros Hexp Hext. split.
  - unfold load_data_source, bind, get, put, ret, succeeded, returned_warnings.
    rewrite Hreg. fold (expected_type cfg). rewrite Hexp, Hext.
    destruct (negb (path_exists w path)); [done|].
    destruct (reader_of_ext (lower (splitext_ext path))); [| |done].
    + destruct (read_excel w path (sheet_name cfg)) as [df|]; [|done].
      case_bool_decide; [done|]. destruct (getmtime w path); [|done].
      cbn. destruct (_ <? _)%Z; eauto.
    + destruct (read_csv w path) as [df|]; [|done].
      case_bool_decide; [done|]. destruct (getmtime w path); [|done].
      cbn. destruct (_ <? _)%Z; eauto.
  - intros df t Hcsv Hex Hread Hlen Ht.
    destruct (load_data_source_loads w name path st cfg df t) as (df' & fresh & Hload);
      try done.
    + unfold read_source. by rewrite Hcsv.
    + unfold succeeded. by rewrite Hload.
Qed.

(** [vendor_risk] expects a workbook by default; the delimited text file
    loads, with the mismatch warning first. *)
Lemma file_type_mismatch_nonfatal_witness :
  registry (Examples.vendor_registry None) !! "vendor_risk"
    = Some (Examples.vendor_risk None) /\
  expected_type (Examples.vendor_risk None) = "xlsx" /\
  is_excel_ext (lower (splitext_ext "data/vendors.csv")) = false /\
  succeeded (fst (load_data_source Examples.vendor_world "vendor_risk" "data/vendors.csv"
                    (Examples.vendor_registry None))) = true /\
  exists rest,
    returned_warnings
      (fst (load_data_source Examples.vendor_world "vendor_risk" "data/vendors.csv"
              (Examples.vendor_registry None)))
    = "File type mismatch: expected .xlsx but got .csv" :: rest.
Proof.
  destruct (file_type_mismatch_nonfatal Examples.vendor_world "vendor_risk"
              "data/vendors.csv" (Examples.vendor_registry None)
              (Examples.vendor_risk None) eq_refl) as [Hxlsx _].
  destruct (Hxlsx eq_refl eq_refl) as [Hwarn Hloads].
  assert (Hok : succeeded
                  (fst (load_data_source Examples.vendor_world "vendor_risk"
                          "data/vendors.csv" (Examples.vendor_registry None))) = true).
  { apply (Hloads Examples.four_vendors 0%Z); [reflexivity .. | discriminate | reflexivity]. }
  split; [reflexivity|]. split; [reflexivity|]. split; [reflexivity|].
  split; [exact Hok|]. exact (Hwarn Hok).
Defined.

(** C9 as stated fails for a definition that expects [csv]: a workbook
    loads and no warning is returned, although the type inferred from
    the extension differs from the expected one. *)
Lemma file_type_mismatch_counterexample :
  expected_type (Examples.vendor_risk (Some "csv")) = "csv" /\
  lower (splitext_ext "data/vendors.xlsx") = ".xlsx" /\
  exists df,
    fst (load_data_source Examples.vendor_world "vendor_risk" "data/vendors.xlsx"
           (Examples.vendor_registry (Some "csv")))
    = (true, Some df,
       ["Missing required columns: Vendor ID";
        "Row count (4) is below minimum threshold (5)"]).
Proof. split; [reflexivity|]. split; [reflexivity|]. eexists. reflexivity. Qed.

End LoadFacts.

(** ** Loading through the processor: the two policies on missing columns *)

Section SourceLoadFacts.
Import Pandas Env EnhancedDataProcessor Statements.

(** C8. A load that goes through the registry succeeds whenever the
    source is registered and its file is there, readable, not empty and
    dated, whatever columns are missing: each [required_columns] rule
    with columns missing only leaves its warning among the warnings of
    the processor.  A load that goes the direct way, for an analytic
    without registered source, fails as soon as a required column is
    missing once the aliases are mapped. *)
Theorem missing_columns_asymmetry (w : World) (path : string) (st : Processor) :
  (forall name cfg df t,
      truthy (data_source_name st) = Some name ->
      DataSourceManager.registry (data_source_manager st) !! name = Some cfg ->
      path_exists w path = true ->
      read_source w cfg path = Some df ->
      df_len df <> 0 ->
      getmtime w path = Some t ->
      fst (load_source_data w path st) = true /\
      forall r,
        r ∈ DataSourceManager.validation_rules cfg ->
        DataSourceManager.vr_type r = Some "required_columns" ->
        DataSourceManager.missing_columns df (default [] (DataSourceManager.vr_columns r))
          <> [] ->
        DataSourceManager.missing_columns_warning
          (DataSourceManager.missing_columns df (default [] (DataSourceManager.vr_columns r)))
          ∈ warnings (snd (load_source_data w path st)))
  /\ (forall df required,
         truthy (data_source_name st) = None ->
         read_excel w path None = Some df ->
         source_required_columns (config st) = Some required ->
         missing_columns (map_column_aliases df required) (map ci_name required) <> [] ->
         fst (load_source_data w path st) = false).
Proof.
  split.
  - intros name cfg df t Hname Hreg Hex Hread Hlen Ht.
    destruct (load_data_source_loads w name path (data_source_manager st) cfg df t)
      as (df' & fresh & Hload); try done.
    unfold load_source_data, bind, get, put, ret. rewrite Hname.
    destruct (DataSourceManager.load_data_source w name path (data_source_manager st))
      as [[[success frame] source_warnings] dsm].
    cbn in Hload. injection Hload as -> -> ->. cbn. split; [done|].
    intros r Hr Hty Hmiss. apply elem_of_app. right.
    apply elem_of_app. right. apply elem_of_app. left.
    by apply validate_data_missing.
  - intros df required Hname Hread Hreq Hmiss.
    unfold load_source_data, bind, get, put, ret. rewrite Hname, Hread.
    unfold _map_column_aliases, bind, get, put, ret. cbn. rewrite Hreq. cbn.
    unfold _check_required_columns. cbn. rewrite Hreq.
    by destruct (missing_columns _ _).
Qed.

(** The workbook of four vendors has no [Vendor ID] column.  Loaded for
    analytic 1001 through the registry, it is accepted with a warning;
    loaded directly, with the same column required, it is refused. *)
Lemma missing_columns_asymmetry_witness :
  let registered :=
    Examples.make_processor (Examples.vendor_registry None) Examples.legacy_required [] None in
  let direct :=
    Examples.make_processor Examples.empty_registry Examples.legacy_required [] None in
  (fst (load_source_data Examples.vendor_world "data/vendors.xlsx" registered) = true /\
   "Missing required columns: Vendor ID"
     ∈ warnings (snd (load_source_data Examples.vendor_world "data/vendors.xlsx" registered)))
  /\ fst (load_source_data Examples.vendor_world "data/vendors.xlsx" direct) = false.
Proof.
  cbv zeta. split.
  - destruct (missing_columns_asymmetry Examples.vendor_world "data/vendors.xlsx"
                (Examples.make_processor (Examples.vendor_registry None)
                   Examples.legacy_required [] None)) as [Hregistry _].
    destruct (Hregistry "vendor_risk" (Examples.vendor_risk None) Examples.four_vendors 0%Z)
      as [Hok Hwarn]; [reflexivity .. | discriminate | reflexivity |].
    split; [exact Hok|].
    apply (Hwarn (DataSourceManager.mkValidationRule (Some "required_columns") None
                    (Some ["Amount"; "Vendor ID"]))).
    + cbn. left.
    + reflexivity.
    + discriminate.
  - destruct (missing_columns_asymmetry Examples.vendor_world "data/vendors.xlsx"
                (Examples.make_processor Examples.empty_registry
                   Examples.legacy_required [] None)) as [_ Hdirect].
    apply (Hdirect Examples.four_vendors Examples.legacy_required);
      [reflexivity .. | discriminate].
Defined.

End SourceLoadFacts.

(** ** Summary by group *)

Section SummaryFacts.
Import Pandas Env EnhancedDataProcessor Statements.

Lemma insert_sorted_elem (k x : cell) (l : list cell) :
  x ∈ insert_sorted k l <-> x = k \/ x ∈ l.
Proof.
  induction l as [|y l IH]; cbn.
  - rewrite list_elem_of_singleton. split; [auto | intros [?|H]; [done|]].
    by apply elem_of_nil in H.
  - destruct (cell_leb k y).
    + by rewrite elem_of_cons.
    + rewrite !elem_of_cons, IH. tauto.
Qed.

Lemma insert_sorted_NoDup (k : cell) (l : list cell) :
  k ∉ l -> NoDup l -> NoDup (insert_sorted k l).
Proof.
  induction l as [|y l IH]; cbn; intros Hk Hl.
  - apply NoDup_singleton.
  - destruct (cell_leb k y).
    + by apply NoDup_cons.
    + apply NoDup_cons in Hl as [Hy Hl]. apply not_elem_of_cons in Hk as [Hky Hk].
      apply NoDup_cons. split; [|by apply IH].
      rewrite insert_sorted_elem. intros [->|?]; done.
Qed.

Lemma sorted_unique_elem (x : cell) (l : list cell) :
  x ∈ sorted_unique l <-> x ∈ l.
Proof.
  induction l as [|k l IH]; cbn; [done|].
  rewrite elem_of_cons. case_bool_decide as Hk.
  - rewrite IH. split; [auto | intros [->|?]; [by apply IH | done]].
  - rewrite insert_sorted_elem, IH. done.
Qed.

Lemma sorted_unique_NoDup (l : list cell) : NoDup (sorted_unique l).
Proof.
  induction l as [|k l IH]; cbn; [apply NoDup_nil_2|].
  case_bool_decide; [done|]. by apply insert_sorted_NoDup.
Qed.

Lemma total_add {A : Type} (f g : A -> Z) (l : list A) :
  total (map (fun x => (f x + g x)%Z) l) = (total (map f l) + total (map g l))%Z.
Proof. unfold total. induction l as [|x l IH]; cbn; lia. Qed.

Lemma total_zero {A : Type} (f : A -> Z) (l : list A) :
  (forall x, x ∈ l -> f x = 0%Z) -> total (map f l) = 0%Z.
Proof.
  unfold total. induction l as [|x l IH]; cbn; intros Hf; [done|].
  rewrite Hf by left. rewrite IH; [done|]. intros y Hy. apply Hf. by right.
Qed.

Lemma total_indicator (cats : list cell) (c : cell) :
  NoDup cats -> c ∈ cats ->
  total (map (fun c' => if bool_decide (c = c') then 1%Z else 0%Z) cats) = 1%Z.
Proof.
  induction cats as [|c0 cats IH]; intros Hnd Hin.
  - by apply elem_of_nil in Hin.
  - apply NoDup_cons in Hnd as [Hc0 Hnd]. cbn. case_bool_decide as Heq.
    + subst c0. change (fold_right Z.add 0%Z ?l) with (total l).
      rewrite total_zero; [done|]. intros x Hx. rewrite bool_decide_eq_false_2; [done|].
      intros ->. done.
    + apply elem_of_cons in Hin as [->|Hin]; [done|].
      change (fold_right Z.add 0%Z ?l) with (total l). by rewrite IH.
Qed.

Lemma group_size_cons (r : cell * cell) (rows : list (cell * cell)) (g c : cell) :
  group_size (r :: rows) g c
    = ((if bool_decide (r = (g, c)) then 1 else 0) + group_size rows g c)%Z.
Proof. unfold group_size. cbn. case_bool_decide; cbn; lia. Qed.

Lemma group_total_cons (r : cell * cell) (rows : list (cell * cell)) (g : cell) :
  group_total (r :: rows) g
    = ((if bool_decide (fst r = g) then 1 else 0) + group_total rows g)%Z.
Proof. unfold group_total. cbn. case_bool_decide; cbn; lia. Qed.

(** Over distinct categories that cover the rows, the sizes of a group
    add up to its number of rows. *)
Lemma group_sizes_total (rows : list (cell * cell)) (cats : list cell) (g : cell) :
  NoDup cats ->
  Forall (fun r => snd r ∈ cats) rows ->
  total (map (group_size rows g) cats) = group_total rows g.
Proof.
  intros Hnd. induction 1 as [|r rows Hr _ IH].
  - apply total_zero. done.
  - rewrite (map_ext _ (fun c => ((if bool_decide (r = (g, c)) then 1 else 0)
                                   + group_size rows g c)%Z))
      by (intros; apply group_size_cons).
    rewrite total_add, IH, group_total_cons. f_equal.
    destruct r as [g' c']. cbn. case_bool_decide as Hg.
    + subst g'.
      rewrite (map_ext _ (fun c => if bool_decide (c' = c) then 1%Z else 0%Z)).
      * by apply total_indicator.
      * intros c. repeat case_bool_decide; congruence.
    + apply total_zero. intros c _. rewrite bool_decide_eq_false_2; [done|]. congruence.
Qed.

(** No row of a category: the sizes are zero. *)
Lemma group_size_absent (rows : list (cell * cell)) (g c : cell) :
  c ∉ map snd rows -> group_size rows g c = 0%Z.
Proof.
  unfold group_size. induction rows as [|r rows IH]; cbn; [done|].
  intros Hc. apply not_elem_of_cons in Hc as [Hne Hc].
  rewrite bool_decide_eq_false_2; [by apply IH|]. intros ->. done.
Qed.

Lemma lookup_label_app {V : Type} (c : cell) (l1 l2 : list (cell * V)) :
  lookup_label c (l1 ++ l2)
    = match lookup_label c l1 with Some v => Some v | None => lookup_label c l2 end.
Proof.
  induction l1 as [|[k v] l1 IH]; cbn; [done|]. by case_bool_decide.
Qed.

Lemma lookup_label_tabulate {V : Type} (f : cell -> V) (c : cell) (cats : list cell) :
  lookup_label c (map (fun c' => (c', f c')) cats)
    = if bool_decide (c ∈ cats) then Some (f c) else None.
Proof.
  induction cats as [|c0 cats IH]; cbn; [done|].
  destruct (decide (c0 = c)) as [->|Hne].
  - rewrite bool_decide_eq_true_2 by done.
    rewrite (bool_decide_eq_true_2 (c ∈ c :: cats)); [done | left].
  - rewrite bool_decide_eq_false_2 by done. rewrite IH.
    destruct (decide (c ∈ cats)) as [Hin|Hout].
    + rewrite !bool_decide_eq_true_2; [done | by right | done].
    + rewrite !bool_decide_eq_false_2; [done | | done].
      intros Hc. apply elem_of_cons in Hc as [?|?]; done.
Qed.

Lemma map_seq_lookup {A B : Type} (f : nat -> B) (g : A -> B) (l : list A) :
  (forall i x, l !! i = Some x -> f i = g x) ->
  map f (seq 0 (length l)) = map g l.
Proof.
  intros Hfg. apply list_eq. intros i. rewrite !list_lookup_fmap.
  destruct (l !! i) as [x|] eqn:Hi; cbn.
  - rewrite lookup_seq_lt by (by eapply lookup_lt_Some). cbn. f_equal. by apply Hfg.
  - rewrite lookup_seq_ge; [done|]. by apply lookup_ge_None.
Qed.

Lemma repeat_as_map {A B : Type} (b : B) (l : list A) :
  repeat b (length l) = map (fun _ => b) l.
Proof. induction l as [|x l IH]; cbn; [done|]. by rewrite IH. Qed.

Lemma map2_map {A B C D : Type} (f : B -> C -> D) (a : A -> B) (b : A -> C) (l : list A) :
  map2 f (map a l) (map b l) = map (fun x => f (a x) (b x)) l.
Proof. induction l as [|x l IH]; cbn; [done|]. by rewrite IH. Qed.

Lemma unstack_counts_table (rows : list (cell * cell)) (groups : list cell) :
  counts_table rows groups (unstack rows groups).
Proof.
  split.
  - intros c. unfold unstack. rewrite lookup_label_tabulate.
    case_bool_decide as Hc; [done|]. by rewrite sorted_unique_elem in Hc.
  - unfold row_sums. apply map_seq_lookup. intros i g Hi.
    unfold unstack. rewrite map_map. cbn.
    rewrite (map_ext _ (fun c => group_size rows g c)).
    + apply group_sizes_total; [apply sorted_unique_NoDup|].
      apply Forall_forall. intros r Hr. apply sorted_unique_elem.
      apply list_elem_of_fmap. eauto.
    + intros c. apply nth_lookup_Some. by rewrite list_lookup_fmap, Hi.
Qed.

Lemma ensure_counts_table (rows : list (cell * cell)) (groups : list cell) (t : Counts)
    (category : string) :
  counts_table rows groups t ->
  counts_table rows groups (ensure_category (length groups) t category)
  /\ is_Some (lookup_label (CStr category) (ensure_category (length groups) t category))
  /\ (forall c, is_Some (lookup_label c t) ->
         is_Some (lookup_label c (ensure_category (length groups) t category))).
Proof.
  intros [Hcols Hsums]. unfold ensure_category.
  destruct (lookup_label (CStr category) t) as [v|] eqn:Hlook.
  - repeat split; [done | done | eauto | done].
  - pose proof (Hcols (CStr category)) as Habsent. rewrite Hlook in Habsent.
    repeat split.
    + intros c. rewrite lookup_label_app. specialize (Hcols c).
      destruct (lookup_label c t); [done|]. cbn. case_bool_decide as Hc; [|done].
      subst c. rewrite repeat_as_map. apply map_ext. intros g.
      by rewrite group_size_absent.
    + rewrite <- Hsums. unfold row_sums. apply map_ext_in. intros i Hi.
      apply in_seq in Hi. rewrite map_app, fold_right_app. cbn.
      rewrite nth_repeat_lt by lia. done.
    + rewrite lookup_label_app, Hlook. cbn. rewrite bool_decide_eq_true_2 by done. eauto.
    + intros c [v Hv]. rewrite lookup_label_app, Hv. eauto.
Qed.

(** The summary table, column by column. *)
Lemma summarize_columns (group_by_field : string) (threshold : float) (gs cs : list cell) :
  let rows := grouped_rows gs cs in
  let groups := sorted_unique (map fst rows) in
  let percentage := fun g =>
    dnc_percentage (group_size rows g (CStr "DNC")) (group_total rows g) in
  summarize group_by_field threshold gs cs =
    [ (group_by_field, map SKey groups);
      ("GC", map (fun g => SInt (group_size rows g (CStr "GC"))) groups);
      ("PC", map (fun g => SInt (group_size rows g (CStr "PC"))) groups);
      ("DNC", map (fun g => SInt (group_size rows g (CStr "DNC"))) groups);
      ("Total", map (fun g => SInt (group_total rows g)) groups);
      ("DNC_Percentage", map (fun g => SFloat (percentage g)) groups);
      ("Exceeds_Threshold",
       map (fun g => SBool (PrimFloat.ltb threshold (percentage g))) groups) ].
Proof.
  intros rows groups percentage. unfold summarize. fold rows. fold groups. cbn [fold_left].
  destruct (ensure_counts_table rows groups _ "GC" (unstack_counts_table rows groups))
    as (H1 & Hgc & _).
  destruct (ensure_counts_table rows groups _ "PC" H1) as (H2 & Hpc & Hkeep2).
  destruct (ensure_counts_table rows groups _ "DNC" H2) as (H3 & Hdnc & Hkeep3).
  apply Hkeep2, Hkeep3 in Hgc. apply Hkeep3 in Hpc.
  destruct H3 as [Hcols Hsums].
  pose proof (Hcols (CStr "GC")) as Cgc. pose proof (Hcols (CStr "PC")) as Cpc.
  pose proof (Hcols (CStr "DNC")) as Cdnc.
  destruct Hgc as [vgc Hgc], Hpc as [vpc Hpc], Hdnc as [vdnc Hdnc].
  rewrite Hgc in Cgc. rewrite Hpc in Cpc. rewrite Hdnc in Cdnc.
  rewrite Hgc, Hpc, Hdnc, Hsums. cbn [default]. subst vgc vpc vdnc.
  unfold id. rewrite map2_map, !map_map. done.
Qed.

Lemma grouped_rows_snd (P : cell -> Prop) (gs cs : list cell) :
  Forall P cs -> Forall (fun r => P (snd r)) (grouped_rows gs cs).
Proof.
  intros Hcs. unfold grouped_rows. apply Forall_forall. intros r Hr.
  apply list_elem_of_In, filter_In in Hr as [Hr _]. apply list_elem_of_In in Hr.
  revert gs r Hr. induction Hcs as [|c cs Hc _ IH]; intros [|g gs] r Hr; cbn in Hr.
  - by apply elem_of_nil in Hr.
  - by apply elem_of_nil in Hr.
  - by apply elem_of_nil in Hr.
  - apply elem_of_cons in Hr as [->|Hr]; [done | by eapply IH].
Qed.

(** With outcomes GC and DNC only, the rows of a group split in two and
    none is PC. *)
Lemma two_outcomes (rows : list (cell * cell)) (g : cell) :
  Forall (fun r => snd r = CStr "GC" \/ snd r = CStr "DNC") rows ->
  group_total rows g = (group_size rows g (CStr "GC") + group_size rows g (CStr "DNC"))%Z
  /\ group_size rows g (CStr "PC") = 0%Z.
Proof.
  induction 1 as [|[g' c'] rows Hr _ [IHt IHp]].
  - done.
  - rewrite group_total_cons, !group_size_cons, IHt, IHp. cbn in *.
    destruct Hr as [-> | ->]; repeat case_bool_decide; try congruence; split; lia.
Qed.

(** The summary of any dataset with a [Compliance] column and a single
    column of the grouping label that is not a summary label. *)
Lemma generate_summary_columns (st : Processor) (s : Summary) :
  generate_summary st = Returned (Some s) ->
  exists df gs cs,
    source_data st = Some df /\
    get_column df (group_by (config st)) = Some gs /\
    get_column df "Compliance" = Some cs /\
    s = summarize (group_by (config st)) (error_percentage (config st)) gs cs.
Proof.
  unfold generate_summary. destruct (source_data st) as [df|]; [|done].
  destruct (get_column df "Compliance") as [cs|] eqn:Hcs; [|done].
  destruct (get_column df (group_by (config st))) as [gs|] eqn:Hgs; [|done].
  destruct (_ && _); [|done]. intros [= <-]. by exists df, gs, cs.
Qed.

(** C2 (as amended). For a dataset aggregated from at least one rule
    declaration, a summary that is produced has the columns: group, GC,
    PC, DNC, Total, DNC_Percentage, Exceeds_Threshold, in this order,
    with one row per distinct group; in the row of a group, GC and DNC
    count its rows of that outcome, PC is 0, Total is GC + DNC and counts
    its rows, DNC_Percentage is DNC / Total * 100 in float64 rounded to
    two decimals, and Exceeds_Threshold tells whether DNC_Percentage is
    strictly above the configured threshold. *)
Theorem summary_totals (st : Processor) (df : DataFrame) (s : Summary) :
  source_data st = Some df ->
  validation_results st df <> [] ->
  generate_summary (snd (run_validations st)) = Returned (Some s) ->
  exists gs cs,
    get_column (aggregate df (validation_results st df)) (group_by (config st)) = Some gs /\
    get_column (aggregate df (validation_results st df)) "Compliance" = Some cs /\
    let rows := grouped_rows gs cs in
    let groups := sorted_unique (map fst rows) in
    let gc := fun g => group_size rows g (CStr "GC") in
    let dnc := fun g => group_size rows g (CStr "DNC") in
    let percentage := fun g =>
      round2 (PrimFloat.mul
                (PrimFloat.div (float_of_Z (dnc g)) (float_of_Z (gc g + dnc g)))
                100%float) in
    NoDup groups /\
    (forall g, g ∈ groups <-> g ∈ map fst rows) /\
    (forall g, (gc g + dnc g)%Z = group_total rows g) /\
    s = [ (group_by (config st), map SKey groups);
          ("GC", map (fun g => SInt (gc g)) groups);
          ("PC", map (fun g => SInt 0) groups);
          ("DNC", map (fun g => SInt (dnc g)) groups);
          ("Total", map (fun g => SInt (gc g + dnc g)) groups);
          ("DNC_Percentage", map (fun g => SFloat (percentage g)) groups);
          ("Exceeds_Threshold",
           map (fun g => SBool (PrimFloat.ltb (error_percentage (config st)) (percentage g)))
               groups) ].
Proof.
  intros Hdf Hne Hsum.
  apply generate_summary_columns in Hsum as (df' & gs & cs & Hdf' & Hgs & Hcs & ->).
  rewrite (run_validations_aggregate st df Hdf Hne) in Hdf'. injection Hdf' as <-.
  assert (Hcfg : config (snd (run_validations st)) = config st).
  { unfold run_validations, bind, get, put, ret. rewrite Hdf.
    by destruct (validation_results st df). }
  rewrite Hcfg in *. exists gs, cs. split; [done|]. split; [done|].
  intros rows groups gc dnc percentage.
  assert (Hout : forall g,
             group_total rows g = (gc g + dnc g)%Z /\ group_size rows g (CStr "PC") = 0%Z).
  { intros g. apply two_outcomes.
    apply (grouped_rows_snd (fun c => c = CStr "GC" \/ c = CStr "DNC")).
    rewrite aggregate_compliance in Hcs. injection Hcs as <-.
    apply Forall_forall. intros c Hc. apply list_elem_of_fmap in Hc as (b & -> & _).
    destruct b; cbn; auto. }
  split; [apply sorted_unique_NoDup|].
  split; [intros g; apply sorted_unique_elem|].
  split; [intros g; by destruct (Hout g)|].
  rewrite summarize_columns. cbv zeta. fold rows. fold groups.
  repeat (apply (f_equal2 cons); [apply (f_equal2 pair); [reflexivity|] |]);
    try reflexivity;
    apply map_ext; intros g; unfold percentage, dnc_percentage, gc, dnc in *;
    destruct (Hout g) as [Ht Hp]; rewrite ?Ht, ?Hp; reflexivity.
Qed.

(** [vendors] under [rule_a] and [rule_b]: each region has two conforming
    rows and one that does not, a third of its rows (33.33 percent, the
    float [0x1.0aa3d70a3d70ap+5]), above 15 percent. *)
Lemma summary_totals_witness :
  source_data Examples.two_rules = Some Examples.vendors /\
  validation_results Examples.two_rules Examples.vendors <> [] /\
  generate_summary (snd (run_validations Examples.two_rules))
    = Returned (Some
        [ ("Region", [SKey (CStr "A"); SKey (CStr "B")]);
          ("GC", [SInt 2; SInt 2]);
          ("PC", [SInt 0; SInt 0]);
          ("DNC", [SInt 1; SInt 1]);
          ("Total", [SInt 3; SInt 3]);
          ("DNC_Percentage", [SFloat 0x1.0aa3d70a3d70ap+5%float; SFloat 0x1.0aa3d70a3d70ap+5%float]);
          ("Exceeds_Threshold", [SBool true; SBool true]) ]) /\
  exists gs cs,
    get_column (aggregate Examples.vendors
                  (validation_results Examples.two_rules Examples.vendors)) "Region"
      = Some gs /\
    get_column (aggregate Examples.vendors
                  (validation_results Examples.two_rules Examples.vendors)) "Compliance"
      = Some cs /\
    forall g,
      (group_size (grouped_rows gs cs) g (CStr "GC")
       + group_size (grouped_rows gs cs) g (CStr "DNC"))%Z
      = group_total (grouped_rows gs cs) g.
Proof.
  split; [reflexivity|]. split; [discriminate|]. split; [reflexivity|].
  destruct (summary_totals Examples.two_rules Examples.vendors _ eq_refl
              ltac:(discriminate) eq_refl)
    as (gs & cs & Hgs & Hcs & _ & _ & Htotal & _).
  exists gs, cs. split; [exact Hgs|]. split; [exact Hcs|]. exact Htotal.
Defined.

(** C2 as stated fails for a dataset aggregated from no rule declaration:
    every row is marked N/A, so in each region GC and DNC are 0 while
    Total counts the three rows. *)
Lemma summary_without_rules_counterexample :
  validations (config (Examples.processor [])) = [] /\
  generate_summary (snd (run_validations (Examples.processor [])))
    = Returned (Some
        [ ("Region", [SKey (CStr "A"); SKey (CStr "B")]);
          ("GC", [SInt 0; SInt 0]);
          ("PC", [SInt 0; SInt 0]);
          ("DNC", [SInt 0; SInt 0]);
          ("Total", [SInt 3; SInt 3]);
          ("DNC_Percentage", [SFloat 0%float; SFloat 0%float]);
          ("Exceeds_Threshold", [SBool false; SBool false]) ]) /\
  (0 + 0 <> 3)%Z.
Proof. split; [reflexivity|]. split; [reflexivity | discriminate]. Qed.

(** Regions A (8 conforming rows, 2 not) and B (10 conforming rows)
    against a threshold of 15 percent. *)
Example summarize_regions :
  summarize "Region" 15%float
    (repeat (CStr "A") 10 ++ repeat (CStr "B") 10)
    (repeat (CStr "GC") 8 ++ repeat (CStr "DNC") 2 ++ repeat (CStr "GC") 10)
  = [ ("Region", [SKey (CStr "A"); SKey (CStr "B")]);
      ("GC", [SInt 8; SInt 10]);
      ("PC", [SInt 0; SInt 0]);
      ("DNC", [SInt 2; SInt 0]);
      ("Total", [SInt 10; SInt 10]);
      ("DNC_Percentage", [SFloat 20%float; SFloat 0%float]);
      ("Exceeds_Threshold", [SBool true; SBool false]) ].
Proof. reflexivity. Qed.

End SummaryFacts.

(* ===================================================================== *)
(** * Further properties *)
(* ===================================================================== *)

(** ** The reference data manager over sequences of calls *)

Section ReferenceCallFacts.
Import Pandas Env ReferenceDataManager Statements.

Lemma load_reference_data_configured (w : World) (name : string) (fp : option string)
    (st st' : Manager) :
  load_reference_data w name fp st = (true, st') ->
  is_Some (reference_files (config st) !! name).
Proof.
  unfold load_reference_data, bind, get, put, ret.
  destruct (reference_files (config st) !! name) as [rc|]; [eauto | congruence].
Qed.

Lemma manager_eta (st : Manager) :
  st = mkManager (config st) (reference_data st) (metadata st) (audit_log st) (saved_log st).
Proof. by destruct st. Qed.

(** What [get_reference_data] does: it serves loaded data as it is, and
    otherwise loads, or fails without a trace. *)
Lemma get_reference_data_cases (w : World) (name : string) (st : Manager) :
  match reference_data st !! name with
  | Some d => get_reference_data w name st = (Some d, st)
  | None =>
      get_reference_data w name st = (None, st)
      \/ exists data meta,
           is_Some (reference_files (config st) !! name) /\
           get_reference_data w name st =
             (Some data,
              mkManager (config st) (<[name := data]> (reference_data st))
                (<[name := meta]> (metadata st)) (audit_log st) (saved_log st))
  end.
Proof.
  unfold get_reference_data, bind, get, ret.
  destruct (reference_data st !! name) as [d|] eqn:Hd; [done|].
  destruct (load_reference_data w name None st) as [ok st'] eqn:Hload.
  destruct ok.
  - right. pose proof (load_reference_data_configured _ _ _ _ _ Hload) as Hcfg.
    apply load_reference_data_true in Hload as (data & meta & ->).
    exists data, meta. split; [done|]. cbn. by rewrite lookup_insert_eq.
  - left. by apply load_reference_data_false in Hload as ->.
Qed.

(** What [update_reference_data] does. *)
Lemma update_reference_data_cases (w : World) (name file_path user : string) (st : Manager) :
  update_reference_data w name file_path user st = (Returned false, st)
  \/ exists data meta,
       is_Some (reference_files (config st) !! name) /\
       update_reference_data w name file_path user st =
         (Returned true,
          mkManager (config st) (<[name := data]> (reference_data st))
            (<[name := meta]> (metadata st))
            (audit_log st ++
               [mkAuditEntry (now w) "update_reference" name user (metadata st !! name) meta])
            (if can_write w (default default_audit_log_path (audit_log_path (config st)))
             then audit_log st ++
                    [mkAuditEntry (now w) "update_reference" name user
                       (metadata st !! name) meta]
             else saved_log st)).
Proof.
  unfold update_reference_data, bind, get.
  destruct (load_reference_data w name (Some file_path) st) as [ok st1] eqn:Hload.
  destruct ok; cbn [negb].
  - right. pose proof (load_reference_data_configured _ _ _ _ _ Hload) as Hcfg.
    apply load_reference_data_true in Hload as (data & meta & ->).
    exists data, meta. split; [done|].
    unfold put, ret, _save_audit_log, bind, get, put, ret.
    cbn [metadata config reference_data audit_log saved_log].
    rewrite lookup_insert_eq. by destruct (can_write w _).
  - left. apply load_reference_data_false in Hload as ->. done.
Qed.

(** The effect of any call: nothing, or data and metadata stored under the
    name of the call, which is configured, and for an update one entry
    appended to the log. *)
Lemma perform_effect (w : World) (c : call) (st : Manager) :
  perform st (w, c) = st
  \/ exists data meta entries saved,
       perform st (w, c) =
         mkManager (config st) (<[call_name c := data]> (reference_data st))
           (<[call_name c := meta]> (metadata st)) (audit_log st ++ entries) saved
       /\ is_Some (reference_files (config st) !! call_name c)
       /\ match c with
          | CallGet n => entries = [] /\ reference_data st !! n = None
          | CallCheck _ _ => False
          | CallUpdate n p u =>
              entries = [mkAuditEntry (now w) "update_reference" n u (metadata st !! n) meta]
          | CallLoad _ _ => entries = []
          end.
Proof.
  destruct c as [n|n d|n p u|n p]; cbn [perform call_name].
  - pose proof (get_reference_data_cases w n st) as H.
    destruct (reference_data st !! n) as [d|] eqn:Hd.
    + left. by rewrite H.
    + destruct H as [->|(data & meta & Hcfg & ->)]; [by left|]. right.
      exists data, meta, [], (saved_log st). cbn. by rewrite app_nil_r.
  - left. unfold check_freshness, bind, get, ret. by destruct (metadata st !! n).
  - destruct (update_reference_data_cases w n p u st) as [->|(data & meta & Hcfg & ->)];
      [by left|]. right. eexists data, meta, _, _. cbn. eauto.
  - destruct (load_reference_data w n p st) as [ok st'] eqn:Hload. destruct ok.
    + right. pose proof (load_reference_data_configured _ _ _ _ _ Hload) as Hcfg.
      apply load_reference_data_true in Hload as (data & meta & ->).
      exists data, meta, [], (saved_log st). cbn. by rewrite app_nil_r.
    + left. by apply load_reference_data_false in Hload as ->.
Qed.

(** X1. Whatever calls are made on the manager, in whatever states of the
    world, the audit log only grows at its end: the log before is a prefix
    of the log after, and the configuration stays the same. *)
Theorem audit_log_append_only (calls : list (World * call)) (st : Manager) :
  audit_log st `prefix_of` audit_log (perform_all calls st)
  /\ config (perform_all calls st) = config st.
Proof.
  unfold perform_all. revert st.
  induction calls as [|[w c] calls IH]; intros st; cbn [fold_left].
  - done.
  - destruct (IH (perform st (w, c))) as [Hpre Hcfg]. rewrite Hcfg.
    destruct (perform_effect w c st) as [Heq|(data & meta & entries & saved & Heq & _)].
    + rewrite Heq in Hpre |- *. done.
    + rewrite Heq in Hpre |- *. cbn [audit_log config] in *.
      split; [|done]. etrans; [|exact Hpre]. by apply prefix_app_r.
Qed.

(** X2. Calls keep the manager consistent: data and metadata are held
    for the same names, and only for configured names. *)
Theorem calls_keep_consistent (calls : list (World * call)) (st : Manager) :
  consistent st -> consistent (perform_all calls st).
Proof.
  unfold perform_all. revert st.
  induction calls as [|[w c] calls IH]; intros st Hst; cbn [fold_left].
  - done.
  - apply IH.
    destruct (perform_effect w c st) as [->|(data & meta & entries & saved & -> & Hcfg & _)];
      [done|].
    intros name. destruct (Hst name) as [Hdm Hmc]. cbn.
    destruct (decide (call_name c = name)) as [<-|Hne].
    + rewrite !lookup_insert_eq. split; [split; eauto | done].
    + by rewrite !lookup_insert_ne.
Qed.

(** A manager just created, a first access that loads, a check, and an
    update from the same file. *)
Lemma calls_keep_consistent_witness :
  consistent (Examples.reference_manager (Some 30%Z) None) /\
  consistent
    (perform_all
       [(Examples.reference_world 0, CallGet "country_codes");
        (Examples.reference_world 3, CallCheck "country_codes" None);
        (Examples.reference_world 40,
         CallUpdate "country_codes" "ref/country_codes.csv" "kim")]
       (Examples.reference_manager (Some 30%Z) None)).
Proof.
  assert (H0 : consistent (Examples.reference_manager (Some 30%Z) None)).
  { intros name. cbn. rewrite !lookup_empty. split; [split|]; by intros [? ?]. }
  split; [exact H0|]. by apply calls_keep_consistent.
Defined.

Lemma last_logged_snoc (log : list AuditEntry) (e : AuditEntry) (name : string) :
  last_logged (log ++ [e]) name =
    if bool_decide (entry_name e = name) then Some (new_version e)
    else last_logged log name.
Proof.
  unfold last_logged. rewrite List.filter_app. cbn.
  case_bool_decide; [by rewrite last_snoc | by rewrite app_nil_r].
Qed.

Lemma perform_keeps_in_sync (w : World) (c : call) (st : Manager) :
  audited c = true -> in_sync st -> in_sync (perform st (w, c)).
Proof.
  intros Hc Hst.
  destruct (perform_effect w c st)
    as [->|(data & meta & entries & saved & -> & _ & Hkind)]; [done|].
  intros name m. cbn [audit_log metadata reference_data].
  destruct c as [n|n d|n p u|n p]; cbn [call_name] in *; try done.
  - destruct Hkind as [-> Hnone]. rewrite app_nil_r. intros Hlast.
    destruct (Hst name m Hlast) as [Hm Hd].
    destruct (decide (n = name)) as [->|Hne].
    + rewrite Hnone in Hd. by destruct Hd.
    + by rewrite !lookup_insert_ne.
  - subst entries. rewrite last_logged_snoc. cbn [entry_name new_version].
    case_bool_decide as Hn.
    + subst name. intros [= <-]. rewrite !lookup_insert_eq. eauto.
    + intros Hlast. destruct (Hst name m Hlast) as [Hm Hd].
      by rewrite !lookup_insert_ne.
Qed.

(** X3. Under accesses, freshness checks and updates (no direct call of
    [load_reference_data]), the audit log stays in step with the data in
    use: for every name with an audit entry, the last one records the
    metadata now held for that name. *)
Theorem calls_keep_in_sync (calls : list (World * call)) (st : Manager) :
  Forall (fun wc => audited (snd wc) = true) calls ->
  in_sync st ->
  in_sync (perform_all calls st).
Proof.
  unfold perform_all. revert st.
  induction calls as [|[w c] calls IH]; intros st Hcalls Hst; cbn [fold_left].
  - done.
  - apply Forall_cons in Hcalls as [Hc Hcalls].
    apply IH; [done|]. by apply perform_keeps_in_sync.
Qed.

(** A first access, then two updates: the last entry on [country_codes]
    is the one of the second update. *)
Lemma calls_keep_in_sync_witness :
  in_sync (Examples.reference_manager (Some 30%Z) None) /\
  in_sync
    (perform_all
       [(Examples.reference_world 0, CallGet "country_codes");
        (Examples.reference_world 40,
         CallUpdate "country_codes" "ref/country_codes.csv" "kim");
        (Examples.reference_world 45,
         CallUpdate "country_codes" "ref/country_codes.csv" "lee")]
       (Examples.reference_manager (Some 30%Z) None)).
Proof.
  assert (H0 : in_sync (Examples.reference_manager (Some 30%Z) None)).
  { intros name m. cbn. done. }
  split; [exact H0|]. apply calls_keep_in_sync; [|exact H0].
  repeat constructor.
Defined.

(** X4. Reference data that has been served once is served again as it
    is, whatever has become of its file and without any change to the
    manager; an access that fails leaves the manager as it was. *)
Theorem get_reference_data_cached (w : World) (name : string) (st : Manager) :
  (forall d,
      fst (get_reference_data w name st) = Some d ->
      forall w',
        get_reference_data w' name (snd (get_reference_data w name st))
          = (Some d, snd (get_reference_data w name st)))
  /\ (fst (get_reference_data w name st) = None ->
      snd (get_reference_data w name st) = st).
Proof.
  pose proof (get_reference_data_cases w name st) as H.
  destruct (reference_data st !! name) as [d0|] eqn:Hd.
  - rewrite H. cbn. split; [|done]. intros d [= <-] w'.
    pose proof (get_reference_data_cases w' name st) as H'. by rewrite Hd in H'.
  - destruct H as [->|(data & meta & _ & ->)]; cbn [fst snd].
    + split; [done | done].
    + split; [|done]. intros d [= <-] w'.
      pose proof (get_reference_data_cases w' name
                    (mkManager (config st) (<[name := data]> (reference_data st))
                       (<[name := meta]> (metadata st)) (audit_log st) (saved_log st)))
        as H'.
      cbn [reference_data] in H'. by rewrite lookup_insert_eq in H'.
Qed.

(** X5. A call about one name changes neither the data nor the metadata
    held for another name. *)
Theorem calls_touch_one_name (w : World) (c : call) (st : Manager) (name : string) :
  name <> call_name c ->
  reference_data (perform st (w, c)) !! name = reference_data st !! name
  /\ metadata (perform st (w, c)) !! name = metadata st !! name.
Proof.
  intros Hne.
  destruct (perform_effect w c st) as [->|(data & meta & entries & saved & -> & _)];
    [done|].
  cbn. by rewrite !lookup_insert_ne.
Qed.

Lemma calls_touch_one_name_witness :
  "currency_codes" <> call_name (CallUpdate "country_codes" "ref/country_codes.csv" "kim") /\
  metadata
    (perform (Examples.loaded_manager (Some 30%Z) None)
       (Examples.reference_world 40,
        CallUpdate "country_codes" "ref/country_codes.csv" "kim")) !! "currency_codes"
  = metadata (Examples.loaded_manager (Some 30%Z) None) !! "currency_codes".
Proof.
  split; [discriminate|].
  apply (calls_touch_one_name (Examples.reference_world 40)
           (CallUpdate "country_codes" "ref/country_codes.csv" "kim")
           (Examples.loaded_manager (Some 30%Z) None) "currency_codes").
  discriminate.
Defined.

(** X6. A successful update rewrites the audit log file with the whole
    log when the file can be written.  When it cannot, the update still
    succeeds: the data is replaced and the entry is in the log in memory,
    while the file keeps its previous content. *)
Theorem update_persists_log (w : World) (name file_path user : string) (st : Manager) :
  fst (update_reference_data w name file_path user st) = Returned true ->
  (can_write w (default default_audit_log_path (audit_log_path (config st))) = true ->
   saved_log (snd (update_reference_data w name file_path user st))
     = audit_log (snd (update_reference_data w name file_path user st)))
  /\ (can_write w (default default_audit_log_path (audit_log_path (config st))) = false ->
      saved_log (snd (update_reference_data w name file_path user st)) = saved_log st
      /\ length (audit_log (snd (update_reference_data w name file_path user st)))
         = S (length (audit_log st))
      /\ is_Some (reference_data (snd (update_reference_data w name file_path user st))
                    !! name)).
Proof.
  destruct (update_reference_data_cases w name file_path user st)
    as [->|(data & meta & _ & ->)]; [done|].
  intros _. cbn. split; intros ->.
  - done.
  - rewrite length_app, lookup_insert_eq. cbn. repeat split; [lia | eauto].
Qed.

(** [country_codes] updated while the log file is read-only. *)
Lemma update_persists_log_witness :
  fst (update_reference_data (Examples.readonly_world 40) "country_codes"
         "ref/country_codes.csv" "kim" (Examples.loaded_manager (Some 30%Z) None))
    = Returned true /\
  saved_log
    (snd (update_reference_data (Examples.readonly_world 40) "country_codes"
            "ref/country_codes.csv" "kim" (Examples.loaded_manager (Some 30%Z) None)))
    = [] /\
  length
    (audit_log
       (snd (update_reference_data (Examples.readonly_world 40) "country_codes"
               "ref/country_codes.csv" "kim" (Examples.loaded_manager (Some 30%Z) None))))
    = 1.
Proof.
  split; [reflexivity|].
  destruct (update_persists_log (Examples.readonly_world 40) "country_codes"
              "ref/country_codes.csv" "kim" (Examples.loaded_manager (Some 30%Z) None)
              eq_refl) as [_ Hro].
  destruct (Hro eq_refl) as (Hsaved & Hlen & _). split; [exact Hsaved | exact Hlen].
Defined.

(** X7. Freshness only wears off: reference data found fresh at some time
    under some maximum age was fresh at any earlier time, and is fresh
    under any larger maximum age; under the configured thresholds as
    well. *)
Theorem check_freshness_monotone (w w' : World) (name : string) (st : Manager) :
  (now w' <= now w)%Z ->
  (forall d d',
      (d <= d')%Z ->
      fst (check_freshness w name (Some d) st) = true ->
      fst (check_freshness w' name (Some d') st) = true)
  /\ (fst (check_freshness w name None st) = true ->
      fst (check_freshness w' name None st) = true).
Proof.
  intros Hnow.
  assert (Hage : forall meta, (age_days w' meta <= age_days w meta)%Z).
  { intros meta. unfold age_days, timedelta_days, usec_per_day.
    apply Z.div_le_mono; lia. }
  destruct (metadata st !! name) as [meta|] eqn:Hmeta.
  - specialize (Hage meta). split.
    + intros d d' Hd. rewrite !(check_freshness_loaded _ _ _ _ _ Hmeta).
      cbn [fst effective_max_age]. intros H. apply Z.leb_le in H.
      apply Z.leb_le. lia.
    + rewrite !(check_freshness_loaded _ _ _ _ _ Hmeta). cbn [fst].
      intros H. apply Z.leb_le in H. apply Z.leb_le. lia.
  - unfold check_freshness, bind, get, ret. rewrite Hmeta. cbn. done.
Qed.

(** Fresh after 31 days under a maximum of 45 days, so also after 10 days
    under a maximum of 60. *)
Lemma check_freshness_monotone_witness :
  (now (Examples.reference_world 10) <= now (Examples.reference_world 31))%Z /\
  fst (check_freshness (Examples.reference_world 10) "country_codes" (Some 60%Z)
         (Examples.loaded_manager (Some 30%Z) None)) = true.
Proof.
  split; [vm_compute; discriminate|].
  destruct (check_freshness_monotone (Examples.reference_world 31)
              (Examples.reference_world 10) "country_codes"
              (Examples.loaded_manager (Some 30%Z) None)) as [Hmax _].
  - vm_compute. discriminate.
  - apply (Hmax 45%Z 60%Z); [lia | reflexivity].
Defined.

(** A load that succeeds has found the name configured and its file in
    place, and records the modification time of the file it read, its
    path, the configured version and the time of the load. *)
Lemma load_reference_data_metadata (w : World) (name : string) (fp : option string)
    (st st' : Manager) :
  load_reference_data w name fp st = (true, st') ->
  exists rc path t meta,
    reference_files (config st) !! name = Some rc /\
    truthy (match truthy fp with Some p => Some p | None => rc_path rc end) = Some path /\
    path_exists w path = true /\
    getmtime w path = Some t /\
    metadata st' !! name = Some meta /\
    last_modified meta = t /\ file_path meta = path /\
    version meta = default "1.0" (rc_version rc) /\ loaded_at meta = now w.
Proof.
  unfold load_reference_data, bind, get, put, ret.
  destruct (reference_files (config st) !! name) as [rc|]; [|congruence].
  destruct (truthy _) as [path|] eqn:Hpath; [|congruence].
  destruct (path_exists w path) eqn:Hex; cbn [negb]; [|congruence].
  destruct (read_reference w rc path) as [[data meta]|] eqn:Hread; [|congruence].
  intros [= <-]. exists rc, path. unfold read_reference in Hread.
  destruct (getmtime w path) as [t|]; [|done].
  exists t, meta. cbn [metadata]. rewrite lookup_insert_eq.
  destruct (match reader_of_ext _ with ReadExcel => _ | ReadCsv => _ | Unsupported => _ end)
    as [df|]; [|done].
  destruct (if bool_decide (rc_format rc = Some "dictionary") then _ else _) as [data'|];
    [|done].
  injection Hread as <- <-. done.
Qed.

(** X8. After a successful update from a file, freshness is judged on
    the modification time of that file (not of the configured one), at
    any later check and under the thresholds as configured. *)
Theorem update_then_freshness (w : World) (name file_path user : string) (st : Manager) :
  file_path <> EmptyString ->
  fst (update_reference_data w name file_path user st) = Returned true ->
  exists t,
    getmtime w file_path = Some t /\
    forall w' override,
      fst (check_freshness w' name override
             (snd (update_reference_data w name file_path user st)))
      = (timedelta_days (now w' - t) <=?
           effective_max_age override (per_definition_max_age st name)
             (default_max_age_days (config st)))%Z.
Proof.
  intros Hpath. unfold update_reference_data, bind, get.
  destruct (load_reference_data w name (Some file_path) st) as [ok st1] eqn:Hload.
  destruct ok; cbn [negb]; [|done].
  pose proof (load_reference_data_metadata _ _ _ _ _ Hload)
    as (rc & path & t & meta & Hrc & Hp & _ & Ht & Hmeta & Hlm & _).
  assert (path = file_path) as ->.
  { destruct file_path; [done|]. cbn in Hp. congruence. }
  apply load_reference_data_true in Hload as (data & meta' & ->).
  cbn [metadata] in Hmeta. rewrite lookup_insert_eq in Hmeta. injection Hmeta as ->.
  unfold put, ret, _save_audit_log, bind, get, put, ret.
  cbn [metadata config reference_data audit_log saved_log].
  rewrite lookup_insert_eq. intros _. exists t. split; [done|]. intros w' override.
  destruct (can_write w _); cbn [fst snd].
  - match goal with |- context [check_freshness w' name override ?s] =>
      rewrite (check_freshness_loaded w' name override s meta) end.
    + cbn [fst]. unfold age_days, per_definition_max_age. cbn [config]. by rewrite Hlm.
    + cbn [metadata]. apply lookup_insert_eq.
  - match goal with |- context [check_freshness w' name override ?s] =>
      rewrite (check_freshness_loaded w' name override s meta) end.
    + cbn [fst]. unfold age_days, per_definition_max_age. cbn [config]. by rewrite Hlm.
    + cbn [metadata]. apply lookup_insert_eq.
Qed.

(** [country_codes] updated from its file, written at time 0. *)
Lemma update_then_freshness_witness :
  "ref/country_codes.csv" <> EmptyString /\
  fst (update_reference_data (Examples.reference_world 40) "country_codes"
         "ref/country_codes.csv" "kim" (Examples.loaded_manager (Some 30%Z) None))
    = Returned true /\
  exists t,
    getmtime (Examples.reference_world 40) "ref/country_codes.csv" = Some t /\
    forall w' override,
      fst (check_freshness w' "country_codes" override
             (snd (update_reference_data (Examples.reference_world 40) "country_codes"
                     "ref/country_codes.csv" "kim"
                     (Examples.loaded_manager (Some 30%Z) None))))
      = (timedelta_days (now w' - t) <=?
           effective_max_age override
             (per_definition_max_age (Examples.loaded_manager (Some 30%Z) None)
                "country_codes")
             (default_max_age_days (config (Examples.loaded_manager (Some 30%Z) None))))%Z.
Proof.
  split; [discriminate|]. split; [reflexivity|].
  apply (update_then_freshness (Examples.reference_world 40) "country_codes"
           "ref/country_codes.csv" "kim" (Examples.loaded_manager (Some 30%Z) None));
    [discriminate | reflexivity].
Defined.

(** A code listed twice keeps its second label. *)
Example dict_of_zip_duplicate :
  dict_of_zip [CStr "FR"; CStr "DE"; CStr "FR"]
              [CStr "France"; CStr "Germany"; CStr "French Republic"]
  = [(CStr "FR", CStr "French Republic"); (CStr "DE", CStr "Germany")].
Proof. reflexivity. Qed.




End ReferenceCallFacts.

(** ** The data source registry *)

Section RegistryFacts.
Import Pandas Env DataSourceManager Statements.

Lemma map_analytics_lookup (data_source : string) (analytics : list string)
    (m : gmap string string) (analytic_id : string) :
  map_analytics data_source analytics m !! analytic_id =
    if bool_decide (analytic_id ∈ analytics) then Some data_source else m !! analytic_id.
Proof.
  unfold map_analytics. revert m. induction analytics as [|a analytics IH]; intros m; cbn.
  - rewrite bool_decide_eq_false_2; [done | apply not_elem_of_nil].
  - rewrite IH. destruct (decide (analytic_id ∈ analytics)) as [Hin|Hout].
    + rewrite !bool_decide_eq_true_2; [done | by right | done].
    + rewrite (bool_decide_eq_false_2 (analytic_id ∈ analytics)) by done.
      destruct (decide (a = analytic_id)) as [->|Hne].
      * rewrite bool_decide_eq_true_2 by left. apply lookup_insert_eq.
      * rewrite bool_decide_eq_false_2.
        -- by apply lookup_insert_ne.
        -- intros Hc. apply elem_of_cons in Hc as [?|?]; congruence.
Qed.

Lemma add_mapping_lookup (m : gmap string string) (e : MappingEntry) (analytic_id : string) :
  add_mapping m e !! analytic_id =
    match truthy (me_data_source e) with
    | Some s => if bool_decide (analytic_id ∈ me_analytics e) then Some s else m !! analytic_id
    | None => m !! analytic_id
    end.
Proof.
  unfold add_mapping. destruct (truthy (me_data_source e)) as [s|]; [|done].
  destruct (me_analytics e) as [|a analytics] eqn:Ha.
  - rewrite bool_decide_eq_false_2; [done | apply not_elem_of_nil].
  - apply map_analytics_lookup.
Qed.

Lemma fold_add_mapping_lookup (entries : list MappingEntry) (m : gmap string string)
    (analytic_id : string) :
  fold_left add_mapping entries m !! analytic_id =
    match last_source entries analytic_id with
    | Some s => Some s
    | None => m !! analytic_id
    end.
Proof.
  revert m. induction entries as [|e entries IH]; intros m; cbn; [done|].
  rewrite IH. destruct (last_source entries analytic_id); [done|].
  rewrite add_mapping_lookup. destruct (truthy (me_data_source e)); [|done].
  by case_bool_decide.
Qed.

Lemma last_source_unlisted (entries : list MappingEntry) (analytic_id : string) :
  Forall (fun e => analytic_id ∉ me_analytics e) entries ->
  last_source entries analytic_id = None.
Proof.
  induction 1 as [|e entries He _ IH]; cbn; [done|].
  rewrite IH. destruct (truthy (me_data_source e)); [|done].
  by rewrite bool_decide_eq_false_2.
Qed.

(** X11. A manager created from a registry file resolves an analytic to
    the source of the last mapping entry that names a source and lists
    it, and to nothing when no such entry lists it; without a readable
    file it has no source and resolves nothing.  Loading a registry again
    into the same manager keeps the earlier resolution of the analytics
    that the new file no longer lists. *)
Theorem analytics_resolution (data : RegistryData) (analytic_id : string) :
  get_data_source_for_analytic (new_manager (Some data)) analytic_id
    = last_source (rd_analytics_mapping data) analytic_id
  /\ (Forall (fun e => analytic_id ∉ me_analytics e) (rd_analytics_mapping data) ->
      get_data_source_for_analytic (new_manager (Some data)) analytic_id = None)
  /\ get_data_source_for_analytic (new_manager None) analytic_id = None
  /\ registry (new_manager None) = ∅
  /\ (forall st,
         get_data_source_for_analytic (_load_registry (Some data) st) analytic_id =
           match last_source (rd_analytics_mapping data) analytic_id with
           | Some s => Some s
           | None => get_data_source_for_analytic st analytic_id
           end).
Proof.
  assert (Hgen : forall st,
             get_data_source_for_analytic (_load_registry (Some data) st) analytic_id =
               match last_source (rd_analytics_mapping data) analytic_id with
               | Some s => Some s
               | None => get_data_source_for_analytic st analytic_id
               end).
  { intros st. unfold get_data_source_for_analytic, _load_registry. cbn.
    apply fold_add_mapping_lookup. }
  assert (Hnew : get_data_source_for_analytic (new_manager (Some data)) analytic_id
                 = last_source (rd_analytics_mapping data) analytic_id).
  { unfold new_manager. rewrite Hgen. unfold get_data_source_for_analytic. cbn.
    rewrite lookup_empty. by destruct (last_source _ _). }
  split; [exact Hnew|]. split; [|split; [|split; [done | exact Hgen]]].
  - intros Hnone. rewrite Hnew. by apply last_source_unlisted.
  - unfold get_data_source_for_analytic, new_manager. cbn. apply lookup_empty.
Qed.

Lemma validate_rule_nil (df : DataFrame) (r : ValidationRule) (acc : list string) :
  (validate_rule df acc r = acc /\ rule_satisfied df r)
  \/ (exists warning, validate_rule df acc r = acc ++ [warning] /\ ~ rule_satisfied df r).
Proof.
  unfold validate_rule, rule_satisfied, missing_columns.
  case_bool_decide as Hmin.
  - destruct (_ <? _)%Z eqn:Hlt.
    + right. eexists. split; [done|]. apply Z.ltb_lt in Hlt. lia.
    + left. split; [done|]. apply Z.ltb_ge in Hlt. lia.
  - case_bool_decide as Hreq; [|by left].
    destruct (List.filter _ _) as [|c missing] eqn:Hmiss.
    + left. split; [done|]. apply Forall_forall. intros col Hcol.
      destruct (decide (col ∈ columns df)) as [|Hout]; [done|]. exfalso.
      assert (Hin : In col (List.filter (fun col => negb (has_column df col))
                              (default [] (vr_columns r)))).
      { apply filter_In. split; [by apply list_elem_of_In|].
        unfold has_column. by rewrite bool_decide_eq_false_2. }
      by rewrite Hmiss in Hin.
    + right. eexists. split; [done|]. intros Hall.
      assert (Hin : In c (List.filter (fun col => negb (has_column df col))
                            (default [] (vr_columns r)))) by (rewrite Hmiss; by left).
      apply filter_In in Hin as [Hin Hneg]. rewrite Forall_forall in Hall.
      apply list_elem_of_In, Hall in Hin. unfold has_column in Hneg.
      by rewrite bool_decide_eq_true_2 in Hneg.
Qed.

Lemma fold_validate (df : DataFrame) (rules : list ValidationRule) (acc : list string) :
  exists added,
    fold_left (validate_rule df) rules acc = acc ++ added
    /\ length added <= length rules
    /\ (added = [] <-> Forall (rule_satisfied df) rules).
Proof.
  revert acc. induction rules as [|r rules IH]; intros acc; cbn [fold_left].
  - exists []. rewrite app_nil_r. repeat split; [done | constructor].
  - destruct (validate_rule_nil df r acc) as [[-> Hsat]|(warning & -> & Hunsat)].
    + destruct (IH acc) as (added & -> & Hlen & Hiff). exists added.
      split; [done|]. split; [cbn; lia|]. rewrite Hiff. split.
      * by constructor.
      * intros H. by apply Forall_cons in H as [_ H].
    + destruct (IH (acc ++ [warning])) as (added & -> & Hlen & _).
      exists (warning :: added). rewrite <- app_assoc. split; [done|].
      split; [cbn; lia|]. split; [done|].
      intros H. apply Forall_cons in H as [H _]. done.
Qed.

(** X12. The validation rules of a source yield no warning exactly when
    they all hold of the table (enough rows, no required column missing;
    rules of other types are ignored), and never more warnings than
    there are rules. *)
Theorem validate_data_warnings (df : DataFrame) (cfg : SourceConfig) :
  (_validate_data df cfg = [] <-> Forall (rule_satisfied df) (validation_rules cfg))
  /\ length (_validate_data df cfg) <= length (validation_rules cfg).
Proof.
  unfold _validate_data.
  destruct (fold_validate df (validation_rules cfg) []) as (added & -> & Hlen & Hiff).
  cbn. done.
Qed.

(** Analytic 1002 is listed twice and goes to the source listed last;
    1003 is listed by an entry without source, 1004 by none. *)
Lemma analytics_resolution_witness :
  get_data_source_for_analytic (new_manager (Some Examples.registry_file)) "1002"
    = Some "payments" /\
  Forall (fun e => "1004" ∉ me_analytics e) (rd_analytics_mapping Examples.registry_file) /\
  get_data_source_for_analytic (new_manager (Some Examples.registry_file)) "1004" = None /\
  get_data_source_for_analytic (new_manager (Some Examples.registry_file)) "1003" = None.
Proof.
  assert (Hun : Forall (fun e => "1004" ∉ me_analytics e)
                  (rd_analytics_mapping Examples.registry_file)).
  { repeat constructor; apply (bool_decide_unpack _); vm_compute; exact I. }
  destruct (analytics_resolution Examples.registry_file "1004") as (_ & Hnone & _).
  split; [reflexivity|]. split; [exact Hun|]. split; [exact (Hnone Hun) | reflexivity].
Defined.

(** *** What a load returns and records *)

Lemma assoc_Some_has_column (df : DataFrame) (c : string) (v : list cell) :
  get_column df c = Some v -> has_column df c = true.
Proof.
  intros Hget. unfold has_column. apply bool_decide_eq_true_2.
  destruct (decide (c ∈ columns df)) as [|Hout]; [done|].
  apply assoc_None in Hout. unfold get_column in Hget. congruence.
Qed.

Lemma set_column_present (df : DataFrame) (c : string) (v : list cell) :
  has_column df c = true ->
  columns (set_column df c v) = columns df /\ df_len (set_column df c v) = df_len df.
Proof.
  intros Hc. unfold set_column. rewrite Hc. unfold columns. cbn. split; [|done].
  rewrite map_map. apply map_ext. intros [k x]. cbn. by case_bool_decide.
Qed.

(** Date coercion of a column changes its cells at most. *)
Lemma coerce_datetime_shape (w : World) (df : DataFrame) (c : string) :
  columns (coerce_datetime w df c) = columns df
  /\ df_len (coerce_datetime w df c) = df_len df
  /\ (forall c', c' <> c -> get_column (coerce_datetime w df c) c' = get_column df c').
Proof.
  unfold coerce_datetime. case_bool_decide; [|done].
  destruct (get_column df c) as [cells|] eqn:Hget; [|done].
  destruct (to_datetime w cells) as [parsed|]; [|done].
  destruct (set_column_present df c parsed (assoc_Some_has_column _ _ _ Hget)) as [Hc Hl].
  repeat split; [done | done |]. intros c' Hne. by apply get_set_column_ne.
Qed.

Lemma fold_coerce_datetime_shape (w : World) (cols : list string) (df : DataFrame) :
  columns (fold_left (coerce_datetime w) cols df) = columns df
  /\ df_len (fold_left (coerce_datetime w) cols df) = df_len df
  /\ (forall c', c' ∉ cols ->
        get_column (fold_left (coerce_datetime w) cols df) c' = get_column df c').
Proof.
  revert df. induction cols as [|c cols IH]; intros df; cbn [fold_left]; [done|].
  destruct (IH (coerce_datetime w df c)) as (Hc & Hl & Hg).
  destruct (coerce_datetime_shape w df c) as (Hc' & Hl' & Hg').
  rewrite Hc, Hl, Hc', Hl'. repeat split. intros c' Hout.
  apply not_elem_of_cons in Hout as [Hne Hout]. rewrite Hg by done. by apply Hg'.
Qed.

(** What a load that fails, and a load that succeeds, return and leave
    behind. *)
Lemma load_data_source_inv (w : World) (name path : string) (st : Manager) :
  (succeeded (fst (load_data_source w name path st)) = false /\
   snd (load_data_source w name path st) = st /\
   snd (fst (fst (load_data_source w name path st))) = None /\
   length (returned_warnings (fst (load_data_source w name path st))) = 1)
  \/ (exists cfg raw t,
        registry st !! name = Some cfg /\
        path_exists w path = true /\
        read_source w cfg path = Some raw /\
        df_len raw <> 0 /\
        getmtime w path = Some t /\
        load_data_source w name path st =
          ((true, Some (_convert_date_columns w (_map_columns raw cfg) cfg),
            load_warnings w st name path cfg raw t),
           mkManager (registry st) (analytics_mapping st) (data_freshness_warning st)
             (<[name :=
                  mkLoadedSource (_convert_date_columns w (_map_columns raw cfg) cfg)
                    path t
                    (df_len (_convert_date_columns w (_map_columns raw cfg) cfg))
                    (columns (_convert_date_columns w (_map_columns raw cfg) cfg))
                    (now w) (load_warnings w st name path cfg raw t)]>
                (loaded_sources st)))).
Proof.
  unfold load_data_source, bind, get, put, ret, succeeded, returned_warnings.
  destruct (registry st !! name) as [cfg|] eqn:Hreg; [|by left].
  destruct (path_exists w path) eqn:Hex; cbn [negb]; [|by left].
  unfold load_warnings, read_source. fold (expected_type cfg).
  destruct (reader_of_ext (lower (splitext_ext path))) eqn:Hreader; [| |by left].
  - destruct (read_excel w path (sheet_name cfg)) as [raw|] eqn:Hread; [|by left].
    case_bool_decide as Hlen; [by left|].
    destruct (getmtime w path) as [t|] eqn:Ht; [|by left].
    right. exists cfg, raw, t.
    repeat split; try done. cbn. rewrite <- !app_assoc.
    by destruct (_ <? _)%Z; rewrite ?app_nil_r.
  - destruct (read_csv w path) as [raw|] eqn:Hread; [|by left].
    case_bool_decide as Hlen; [by left|].
    destruct (getmtime w path) as [t|] eqn:Ht; [|by left].
    right. exists cfg, raw, t.
    repeat split; try done. cbn. rewrite <- !app_assoc.
    by destruct (_ <? _)%Z; rewrite ?app_nil_r.
Qed.

(** X13. A load of a data source is all or nothing for the manager.  A
    load that fails returns no table and exactly one message, and leaves
    the manager as it was.  A load that succeeds returns a table with at
    least one row and records it under the source name together with its
    path, row count, columns and the very warnings it returns; the
    registry, the analytics mapping and the records of the other sources
    stay as they were. *)
Theorem load_data_source_outcome (w : World) (name path : string) (st : Manager) :
  (succeeded (fst (load_data_source w name path st)) = false ->
   snd (load_data_source w name path st) = st /\
   snd (fst (fst (load_data_source w name path st))) = None /\
   length (returned_warnings (fst (load_data_source w name path st))) = 1)
  /\ (succeeded (fst (load_data_source w name path st)) = true ->
      exists df record,
        snd (fst (fst (load_data_source w name path st))) = Some df /\
        df_len df <> 0 /\
        loaded_sources (snd (load_data_source w name path st)) !! name = Some record /\
        ls_data record = df /\ ls_file_path record = path /\
        ls_row_count record = df_len df /\ ls_columns record = columns df /\
        ls_warnings record = returned_warnings (fst (load_data_source w name path st)) /\
        registry (snd (load_data_source w name path st)) = registry st /\
        analytics_mapping (snd (load_data_source w name path st)) = analytics_mapping st /\
        forall other,
          other <> name ->
          loaded_sources (snd (load_data_source w name path st)) !! other
            = loaded_sources st !! other).
Proof.
  destruct (load_data_source_inv w name path st)
    as [(Hf & Hst & Hnone & Hone)|(cfg & raw & t & _ & _ & _ & Hlen & _ & Heq)].
  - split; [done|]. rewrite Hf. done.
  - rewrite Heq. unfold succeeded, returned_warnings. cbn. split; [done|]. intros _.
    eexists _, _. rewrite lookup_insert_eq. split; [done|]. split.
    { unfold _convert_date_columns.
      destruct (fold_coerce_datetime_shape w
                  (date_columns (_map_columns raw cfg) cfg) (_map_columns raw cfg))
        as (_ & -> & _).
      rewrite registry_map_columns_rename.
      by destruct (rename_columns (column_mapping_of raw cfg) raw) as (_ & _ & ->). }
    split; [done|]. cbn. repeat split. intros other Hne. by apply lookup_insert_ne.
Qed.

Lemma load_data_source_outcome_witness :
  succeeded (fst (load_data_source Examples.vendor_world "vendor_risk" "data/missing.xlsx"
                    (Examples.vendor_registry None))) = false /\
  snd (load_data_source Examples.vendor_world "vendor_risk" "data/missing.xlsx"
         (Examples.vendor_registry None)) = Examples.vendor_registry None /\
  returned_warnings
    (fst (load_data_source Examples.vendor_world "vendor_risk" "data/missing.xlsx"
            (Examples.vendor_registry None)))
    = ["Data file not found: data/missing.xlsx"].
Proof.
  split; [reflexivity|]. split; [|reflexivity].
  apply (load_data_source_outcome Examples.vendor_world "vendor_risk" "data/missing.xlsx"
           (Examples.vendor_registry None)).
  reflexivity.
Defined.

(** X14. A successful load keeps the shape of the table it read: the
    same number of rows, the same number of columns, the labels of the
    file renamed by the column mapping, and outside the columns declared
    as dates the cells that the mapped table has. *)
Theorem load_data_source_shape (w : World) (name path : string) (st : Manager) :
  succeeded (fst (load_data_source w name path st)) = true ->
  exists cfg raw df,
    registry st !! name = Some cfg /\
    read_source w cfg path = Some raw /\
    snd (fst (fst (load_data_source w name path st))) = Some df /\
    df_len df = df_len raw /\
    length (columns df) = length (columns raw) /\
    columns df = map (rename_label (column_mapping_of raw cfg)) (columns raw) /\
    forall c,
      c ∉ date_columns (_map_columns raw cfg) cfg ->
      get_column df c = get_column (_map_columns raw cfg) c.
Proof.
  destruct (load_data_source_inv w name path st)
    as [(Hf & _)|(cfg & raw & t & Hreg & _ & Hread & _ & _ & Heq)].
  - rewrite Hf. done.
  - intros _. rewrite Heq. cbn. exists cfg, raw. eexists. split; [done|].
    split; [done|]. split; [done|]. unfold _convert_date_columns.
    destruct (fold_coerce_datetime_shape w
                (date_columns (_map_columns raw cfg) cfg) (_map_columns raw cfg))
      as (Hc & Hl & Hg).
    rewrite Hc, Hl. rewrite registry_map_columns_rename in *.
    destruct (rename_columns (column_mapping_of raw cfg) raw) as (Hrc & _ & Hrl).
    rewrite !Hrc, Hrl, length_map. repeat split. exact Hg.
Qed.

(** The file with an [Amt] column, loaded for a source that maps [Amt]
    to [amount]. *)
Lemma load_data_source_shape_witness :
  let w := Examples.file_world [("data/amounts.csv", Examples.amt_frame)] 0 Examples.day in
  let st := DataSourceManager.mkManager
              {[ "amounts" := Examples.mapping_config [Examples.amount_entry] ]} ∅ None ∅ in
  succeeded (fst (load_data_source w "amounts" "data/amounts.csv" st)) = true /\
  exists cfg raw df,
    registry st !! "amounts" = Some cfg /\
    read_source w cfg "data/amounts.csv" = Some raw /\
    snd (fst (fst (load_data_source w "amounts" "data/amounts.csv" st))) = Some df /\
    df_len df = df_len raw /\
    length (columns df) = length (columns raw) /\
    columns df = map (rename_label (column_mapping_of raw cfg)) (columns raw) /\
    forall c,
      c ∉ date_columns (_map_columns raw cfg) cfg ->
      get_column df c = get_column (_map_columns raw cfg) c.
Proof.
  cbv zeta. split; [reflexivity|].
  apply (load_data_source_shape
           (Examples.file_world [("data/amounts.csv", Examples.amt_frame)] 0 Examples.day)
           "amounts" "data/amounts.csv").
  reflexivity.
Defined.

Lemma validate_warnings_initial (df : DataFrame) (rules : list ValidationRule)
    (acc : list string) :
  Forall (fun x => exists rest, x = String "R" rest \/ x = String "M" rest) acc ->
  Forall (fun x => exists rest, x = String "R" rest \/ x = String "M" rest)
         (fold_left (validate_rule df) rules acc).
Proof.
  revert acc. induction rules as [|r rules IH]; intros acc Hacc; cbn [fold_left]; [done|].
  apply IH. unfold validate_rule. case_bool_decide.
  - destruct (_ <? _)%Z; [|done]. apply Forall_app. split; [done|].
    repeat constructor. eexists. left. reflexivity.
  - case_bool_decide; [|done]. destruct (missing_columns df _); [done|].
    apply Forall_app. split; [done|]. repeat constructor. eexists. right. reflexivity.
Qed.

(** X15. The warnings of a successful load are, in this order: the file
    type mismatch if any, the warnings of the validation rules evaluated
    on the table as read (before any column is renamed), and the
    freshness warning, which is there exactly when the file is older in
    whole days than the configured threshold (7 days by default). *)
Theorem load_data_source_warnings (w : World) (name path : string) (st : Manager) :
  succeeded (fst (load_data_source w name path st)) = true ->
  exists cfg raw t,
    registry st !! name = Some cfg /\
    read_source w cfg path = Some raw /\
    getmtime w path = Some t /\
    returned_warnings (fst (load_data_source w name path st))
      = load_warnings w st name path cfg raw t /\
    (freshness_warning name (timedelta_days (now w - t))
       (default 7%Z (data_freshness_warning st))
       ∈ returned_warnings (fst (load_data_source w name path st))
     <-> (default 7%Z (data_freshness_warning st) < timedelta_days (now w - t))%Z).
Proof.
  destruct (load_data_source_inv w name path st)
    as [(Hf & _)|(cfg & raw & t & Hreg & _ & Hread & _ & Ht & Heq)].
  - rewrite Hf. done.
  - intros _. rewrite Heq. unfold returned_warnings. cbn [fst snd].
    exists cfg, raw, t. repeat split; try done.
    + unfold load_warnings. intros Hin.
      apply elem_of_app in Hin as [Hin|Hin].
      { destruct (_ && _); [|by apply elem_of_nil in Hin].
        apply list_elem_of_singleton in Hin. discriminate Hin. }
      apply elem_of_app in Hin as [Hin|Hin].
      { pose proof (validate_warnings_initial raw (validation_rules cfg) []
                      (Forall_nil_2 _)) as Hall.
        rewrite Forall_forall in Hall. destruct (Hall _ Hin) as (rest & [Hx|Hx]);
          discriminate Hx. }
      destruct (_ <? _)%Z eqn:Hlt; [by apply Z.ltb_lt in Hlt|].
      by apply elem_of_nil in Hin.
    + intros Hlt. unfold load_warnings. apply Z.ltb_lt in Hlt. rewrite Hlt.
      apply elem_of_app. right. apply elem_of_app. right. left.
Qed.

(** The four-row workbook, written two days before the load: no
    freshness warning, and [Vendor ID] reported missing. *)
Lemma load_data_source_warnings_witness :
  succeeded (fst (load_data_source Examples.vendor_world "vendor_risk" "data/vendors.xlsx"
                    (Examples.vendor_registry None))) = true /\
  returned_warnings
    (fst (load_data_source Examples.vendor_world "vendor_risk" "data/vendors.xlsx"
            (Examples.vendor_registry None)))
    = ["Missing required columns: Vendor ID";
       "Row count (4) is below minimum threshold (5)"] /\
  exists cfg raw t,
    registry (Examples.vendor_registry None) !! "vendor_risk" = Some cfg /\
    read_source Examples.vendor_world cfg "data/vendors.xlsx" = Some raw /\
    getmtime Examples.vendor_world "data/vendors.xlsx" = Some t /\
    returned_warnings
      (fst (load_data_source Examples.vendor_world "vendor_risk" "data/vendors.xlsx"
              (Examples.vendor_registry None)))
      = load_warnings Examples.vendor_world (Examples.vendor_registry None) "vendor_risk"
          "data/vendors.xlsx" cfg raw t /\
    (freshness_warning "vendor_risk" (timedelta_days (now Examples.vendor_world - t))
       (default 7%Z (data_freshness_warning (Examples.vendor_registry None)))
       ∈ returned_warnings
           (fst (load_data_source Examples.vendor_world "vendor_risk" "data/vendors.xlsx"
                   (Examples.vendor_registry None)))
     <-> (default 7%Z (data_freshness_warning (Examples.vendor_registry None))
          < timedelta_days (now Examples.vendor_world - t))%Z).
Proof.
  split; [reflexivity|]. split; [reflexivity|].
  apply (load_data_source_warnings Examples.vendor_world "vendor_risk" "data/vendors.xlsx"
           (Examples.vendor_registry None)).
  reflexivity.
Defined.

End RegistryFacts.

(** ** The columns a validation run adds *)

Section ValidationColumnFacts.
Import Pandas Env EnhancedDataProcessor Statements.

Lemma dict_set_keys {V : Type} (k : string) (v : V) (d : list (string * V)) :
  map fst (dict_set k v d) =
    if bool_decide (k ∈ map fst d) then map fst d else map fst d ++ [k].
Proof.
  induction d as [|[k0 v0] d IH]; cbn.
  - rewrite bool_decide_eq_false_2; [done | apply not_elem_of_nil].
  - destruct (decide (k0 = k)) as [->|Hne].
    + rewrite bool_decide_eq_true_2 by done. cbn.
      rewrite bool_decide_eq_true_2; [done | left].
    + rewrite bool_decide_eq_false_2 by done. cbn. rewrite IH.
      destruct (decide (k ∈ map fst d)) as [Hin|Hout].
      * rewrite !bool_decide_eq_true_2; [done | by right | done].
      * rewrite !bool_decide_eq_false_2; [done | | done].
        intros Hc. apply elem_of_cons in Hc as [?|?]; congruence.
Qed.

Lemma fold_record_keys (st : Processor) (df : DataFrame) (decls : list Validation)
    (results : list (string * list bool)) :
  NoDup (map fst results) ->
  NoDup (map fst (fold_left (record_result st df) decls results))
  /\ (forall k, k ∈ map fst (fold_left (record_result st df) decls results)
                <-> k ∈ map fst results \/ k ∈ map rule decls)
  /\ length (fold_left (record_result st df) decls results)
     <= length results + length decls.
Proof.
  revert results. induction decls as [|d decls IH]; intros results Hnd; cbn [fold_left].
  - split; [done|]. split; [|lia]. intros k. cbn. rewrite elem_of_nil. tauto.
  - assert (Hnd' : NoDup (map fst (record_result st df results d))).
    { unfold record_result. rewrite dict_set_keys. case_bool_decide as Hin; [done|].
      apply NoDup_app. repeat split; [done | | apply NoDup_singleton].
      intros x Hx Hx'. apply list_elem_of_singleton in Hx' as ->. done. }
    destruct (IH _ Hnd') as (Hn & Hk & Hl). split; [done|]. split.
    + intros k. rewrite Hk. unfold record_result. rewrite dict_set_keys. cbn.
      rewrite elem_of_cons. case_bool_decide as Hin.
      * split; [tauto|]. intros [?|[->|?]]; auto.
      * rewrite elem_of_app, list_elem_of_singleton. tauto.
    + etrans; [exact Hl|]. unfold record_result.
      assert (length (dict_set (rule d) (run_rule st df d) results) <= S (length results)).
      { rewrite <- !(length_map fst), dict_set_keys. case_bool_decide; [lia|].
        rewrite length_app. cbn. lia. }
      cbn. lia.
Qed.


(** X16. The results of a validation run hold one vector per distinct
    rule name declared, and no other; when a rule is declared several
    times, the vector kept is the one of its last declaration. *)
Theorem validation_results_keys (st : Processor) (df : DataFrame) :
  NoDup (map fst (validation_results st df))
  /\ (forall k, k ∈ map fst (validation_results st df)
                <-> k ∈ map rule (validations (config st)))
  /\ length (validation_results st df) <= length (validations (config st))
  /\ (forall pre validation post,
         validations (config st) = pre ++ validation :: post ->
         Forall (fun later => rule later <> rule validation) post ->
         assoc (rule validation) (validation_results st df)
           = Some (run_rule st df validation)).
Proof.
  unfold validation_results.
  destruct (fold_record_keys st df (validations (config st)) [] (NoDup_nil_2 : NoDup (map fst [])))
    as (Hn & Hk & Hl).
  split; [done|]. split; [|split; [cbn in Hl; lia|]].
  - intros k. rewrite Hk. cbn. rewrite elem_of_nil. tauto.
  - intros pre validation post -> Hpost.
    rewrite fold_left_app. cbn [fold_left]. rewrite fold_record_other by done.
    unfold record_result at 1. apply assoc_dict_set_eq.
Qed.

(** [rule_a] declared twice and [rule_b] once: two vectors, in the order
    of first declaration. *)
Lemma validation_results_keys_witness :
  map fst (validation_results
             (Examples.processor
                [Examples.declare "rule_a"; Examples.declare "rule_b";
                 Examples.declare "rule_a"]) Examples.vendors)
    = ["rule_a"; "rule_b"] /\
  assoc "rule_b"
    (validation_results
       (Examples.processor
          [Examples.declare "rule_a"; Examples.declare "rule_b";
           Examples.declare "rule_a"]) Examples.vendors)
  = Some (run_rule
            (Examples.processor
               [Examples.declare "rule_a"; Examples.declare "rule_b";
                Examples.declare "rule_a"]) Examples.vendors (Examples.declare "rule_b")).
Proof.
  split; [reflexivity|].
  destruct (validation_results_keys
              (Examples.processor
                 [Examples.declare "rule_a"; Examples.declare "rule_b";
                  Examples.declare "rule_a"]) Examples.vendors) as (_ & _ & _ & Hlast).
  apply (Hlast [Examples.declare "rule_a"] (Examples.declare "rule_b")
           [Examples.declare "rule_a"]); [reflexivity | by repeat constructor].
Defined.
























End ValidationColumnFacts.

(* ===================================================================== *)
(** ** The rows behind a summary *)
(* ===================================================================== *)

Section SummaryRowFacts.
Import Pandas Env EnhancedDataProcessor Statements.

Lemma cell_leb_total (a b : cell) : cell_leb a b = false -> cell_leb b a = true.
Proof.
  destruct a as [x|x|x|], b as [y|y|y|]; cbn; try done.
  - intros H. destruct (String.leb_total x y) as [H'|H']; congruence.
  - intros H. apply Z.leb_gt in H. apply Z.leb_le. lia.
  - by destruct x, y.
Qed.

Lemma insert_sorted_ascending (k : cell) (l : list cell) :
  ascending l -> ascending (insert_sorted k l).
Proof.
  induction l as [|x l IH]; [done|]. intros [Hx Hl]. cbn [insert_sorted].
  destruct (cell_leb k x) eqn:Hk; [done|].
  split; [|by apply IH]. apply cell_leb_total in Hk.
  destruct l as [|y l]; [done|]. cbn [insert_sorted]. by destruct (cell_leb k y).
Qed.

Lemma sorted_unique_ascending (l : list cell) : ascending (sorted_unique l).
Proof.
  induction l as [|k l IH]; [done|]. cbn [sorted_unique].
  case_bool_decide; [done|]. by apply insert_sorted_ascending.
Qed.

(** Over distinct groups that cover the rows, the totals of the groups
    add up to the number of rows. *)
Lemma group_totals_total (rows : list (cell * cell)) (groups : list cell) :
  NoDup groups ->
  Forall (fun r => fst r ∈ groups) rows ->
  total (map (group_total rows) groups) = Z.of_nat (length rows).
Proof.
  intros Hnd. induction 1 as [|r rows Hr _ IH].
  - apply total_zero. done.
  - rewrite (map_ext _ (fun g => ((if bool_decide (fst r = g) then 1 else 0)
                                   + group_total rows g)%Z))
      by (intros; apply group_total_cons).
    rewrite total_add, IH, total_indicator by done. cbn [length]. lia.
Qed.

Lemma group_total_present (rows : list (cell * cell)) (g : cell) :
  g ∈ map fst rows -> (1 <= group_total rows g)%Z.
Proof.
  induction rows as [|r rows IH]; intros Hg.
  - by apply elem_of_nil in Hg.
  - rewrite group_total_cons. cbn in Hg. apply elem_of_cons in Hg as [->|Hg].
    + rewrite bool_decide_eq_true_2 by done. unfold group_total. lia.
    + specialize (IH Hg). case_bool_decide; lia.
Qed.

(** X19. Every summary that is produced, whatever the outcomes in the
    [Compliance] column, has one row per distinct group of the rows kept
    (those with a group and an outcome), in ascending order of the groups;
    every column has one entry per group; every [Total] is at least 1 (so
    the percentage never divides by zero); and the totals add up to the
    number of rows kept. *)
Theorem summary_accounts_for_rows (st : Processor) (s : Summary) :
  generate_summary st = Returned (Some s) ->
  exists df gs cs groups totals,
    source_data st = Some df /\
    get_column df (group_by (config st)) = Some gs /\
    get_column df "Compliance" = Some cs /\
    assoc (group_by (config st)) s = Some (map SKey groups) /\
    assoc "Total" s = Some (map SInt totals) /\
    Forall (fun kv => length (snd kv) = length groups) s /\
    NoDup groups /\
    ascending groups /\
    (forall g, g ∈ groups <-> g ∈ map fst (grouped_rows gs cs)) /\
    Forall (fun t => (1 <= t)%Z) totals /\
    total totals = Z.of_nat (length (grouped_rows gs cs)).
Proof.
  unfold generate_summary. destruct (source_data st) as [df|]; [|done].
  destruct (get_column df "Compliance") as [cs|] eqn:Hcs; [|done].
  destruct (get_column df (group_by (config st))) as [gs|] eqn:Hgs; [|done].
  destruct (bool_decide _ && _) eqn:Hcond; [|done]. intros [= <-].
  apply andb_prop in Hcond as [_ Hlabel]. apply negb_true_iff in Hlabel.
  apply bool_decide_eq_false_1 in Hlabel.
  assert (Hne : "Total" <> group_by (config st)).
  { intros Heq. apply Hlabel. rewrite <- Heq. unfold ordered_cols.
    do 3 right. left. }
  exists df, gs, cs, (sorted_unique (map fst (grouped_rows gs cs))),
    (map (group_total (grouped_rows gs cs)) (sorted_unique (map fst (grouped_rows gs cs)))).
  rewrite summarize_columns. cbv zeta.
  split; [done|]. split; [done|]. split; [done|]. split.
  { cbn [assoc]. by rewrite bool_decide_eq_true_2. }
  split.
  { cbn [assoc]. rewrite bool_decide_eq_false_2 by done.
    cbn. by rewrite map_map. }
  split.
  { repeat constructor; cbn [snd]; by rewrite length_map. }
  split; [apply sorted_unique_NoDup|].
  split; [apply sorted_unique_ascending|].
  split; [intros g; apply sorted_unique_elem|].
  split.
  - apply Forall_forall. intros t Ht. apply list_elem_of_fmap in Ht as (g & -> & Hg).
    apply group_total_present. by apply sorted_unique_elem.
  - apply group_totals_total; [apply sorted_unique_NoDup|].
    apply Forall_forall. intros r Hr. apply sorted_unique_elem.
    apply list_elem_of_fmap. eauto.
Qed.

(** [vendors] with no rule declared: every row is N/A, and each region
    accounts for its three rows. *)
Lemma summary_accounts_for_rows_witness :
  generate_summary (snd (run_validations (Examples.processor [])))
    = Returned (Some
        [ ("Region", [SKey (CStr "A"); SKey (CStr "B")]);
          ("GC", [SInt 0; SInt 0]);
          ("PC", [SInt 0; SInt 0]);
          ("DNC", [SInt 0; SInt 0]);
          ("Total", [SInt 3; SInt 3]);
          ("DNC_Percentage", [SFloat 0%float; SFloat 0%float]);
          ("Exceeds_Threshold", [SBool false; SBool false]) ]) /\
  exists df gs cs groups totals,
    source_data (snd (run_validations (Examples.processor []))) = Some df /\
    get_column df "Region" = Some gs /\
    get_column df "Compliance" = Some cs /\
    groups = [CStr "A"; CStr "B"] /\
    totals = [3; 3]%Z /\
    NoDup groups /\
    ascending groups /\
    Forall (fun t => (1 <= t)%Z) totals /\
    total totals = Z.of_nat (length (grouped_rows gs cs)).
Proof.
  split; [reflexivity|].
  destruct (summary_accounts_for_rows (snd (run_validations (Examples.processor [])))
              [ ("Region", [SKey (CStr "A"); SKey (CStr "B")]);
                ("GC", [SInt 0; SInt 0]);
                ("PC", [SInt 0; SInt 0]);
                ("DNC", [SInt 0; SInt 0]);
                ("Total", [SInt 3; SInt 3]);
                ("DNC_Percentage", [SFloat 0%float; SFloat 0%float]);
                ("Exceeds_Threshold", [SBool false; SBool false]) ]
              eq_refl)
    as (df & gs & cs & groups & totals & Hdf & Hgs & Hcs & Hg & Ht & _ & Hnd & Hasc
        & _ & Hpos & Htotal).
  exists df, gs, cs, groups, totals.
  cbn in Hg, Ht. injection Hg as Hg. injection Ht as Ht.
  assert (Hgroups : groups = [CStr "A"; CStr "B"]).
  { destruct groups as [|a [|b [|]]]; try discriminate. by injection Hg as -> ->. }
  assert (Htotals : totals = [3; 3]%Z).
  { destruct totals as [|a [|b [|]]]; try discriminate. by injection Ht as -> ->. }
  done.
Defined.

End SummaryRowFacts.

(* ===================================================================== *)
(** ** Direct loads *)
(* ===================================================================== *)

Section DirectLoadFacts.
Import Pandas Env EnhancedDataProcessor Statements.

Lemma fold_clean_dates_shape (w : World) (required : list ColumnInfo) (df : DataFrame) :
  columns (fold_left (clean_dates w) required df) = columns df
  /\ df_len (fold_left (clean_dates w) required df) = df_len df.
Proof.
  revert df. induction required as [|c required IH]; intros df; [done|].
  cbn [fold_left]. destruct (IH (clean_dates w df c)) as [-> ->].
  unfold clean_dates. destruct (_ && _); [|done].
  by destruct (coerce_datetime_shape w df (ci_name c)) as (-> & -> & _).
Qed.

Lemma fold_strip_raised (w : World) (cols : list string) :
  fold_left (strip_column w) cols Raised = Raised.
Proof. induction cols as [|c cols IH]; [done | apply IH]. Qed.

(** The second loop of [_clean_data] goes through only when each label
    it visits is carried by one column; it keeps the labels and the
    number of rows. *)
Lemma fold_strip_shape (w : World) (cols : list string) (df df' : DataFrame) :
  fold_left (strip_column w) cols (Returned df) = Returned df' ->
  columns df' = columns df
  /\ df_len df' = df_len df
  /\ Forall (fun c => length (List.filter (fun c' => bool_decide (c' = c)) (columns df))
                      = 1%nat) cols.
Proof.
  revert df. induction cols as [|c cols IH]; intros df; cbn [fold_left].
  - intros [= ->]. done.
  - unfold strip_column at 2. case_bool_decide as Hone;
      [|by rewrite fold_strip_raised].
    destruct (get_column df c) as [cells|] eqn:Hc; [|by rewrite fold_strip_raised].
    destruct (dtype_is_object w cells).
    + intros Hfold. apply IH in Hfold as (Hcols & Hlen & Hall).
      destruct (set_column_present df c (str_strip w cells)) as [Hc1 Hc2];
        [by eapply assoc_Some_has_column|].
      rewrite Hc1 in Hcols, Hall. rewrite Hc2 in Hlen.
      split; [done|]. split; [done|]. by constructor.
    + intros Hfold. apply IH in Hfold as (Hcols & Hlen & Hall).
      split; [done|]. split; [done|]. by constructor.
Qed.

Lemma single_occurrences_NoDup (l : list string) :
  Forall (fun c => length (List.filter (fun c' => bool_decide (c' = c)) l) = 1%nat) l ->
  NoDup l.
Proof.
  induction l as [|a l IH]; intros Hall; [apply NoDup_nil_2|].
  apply Forall_cons in Hall as [Ha Hall]. cbn in Ha.
  rewrite bool_decide_eq_true_2 in Ha by done. cbn in Ha.
  assert (Hout : a ∉ l).
  { intros Hin. apply list_elem_of_In in Hin.
    assert (Hf : In a (List.filter (fun c' => bool_decide (c' = a)) l)).
    { apply filter_In. split; [done|]. by apply bool_decide_eq_true_2. }
    destruct (List.filter _ l); [done | discriminate]. }
  apply NoDup_cons. split; [done|]. apply IH.
  apply Forall_forall. intros c Hc. rewrite Forall_forall in Hall.
  specialize (Hall c Hc). cbn in Hall.
  rewrite bool_decide_eq_false_2 in Hall; [done|]. intros ->. done.
Qed.

Lemma missing_columns_nil (df : DataFrame) (required : list string) :
  missing_columns df required = [] ->
  Forall (fun c => has_column df c = true) required.
Proof.
  unfold missing_columns. induction required as [|c required IH]; cbn; [done|].
  destruct (has_column df c) eqn:Hc; cbn; [|done]. intros H. constructor; auto.
Qed.

(** X20. A load that goes the direct way (no registered source) and
    succeeds stores a table that has the rows of the workbook, the labels
    of the workbook once the aliases are mapped, pairwise distinct, and
    among them every required column; it adds no warning and leaves the
    reference data alone.  When the workbook cannot be read the
    processor stays as it was. *)
Theorem load_source_data_direct (w : World) (path : string) (st : Processor) :
  truthy (data_source_name st) = None ->
  (fst (load_source_data w path st) = true ->
   exists raw required df,
     read_excel w path None = Some raw /\
     source_required_columns (config st) = Some required /\
     source_data (snd (load_source_data w path st)) = Some df /\
     df_len df = df_len raw /\
     columns df = columns (map_column_aliases raw required) /\
     NoDup (columns df) /\
     Forall (fun c => has_column df (ci_name c) = true) required /\
     warnings (snd (load_source_data w path st)) = warnings st /\
     reference_data (snd (load_source_data w path st)) = reference_data st)
  /\ (read_excel w path None = None -> load_source_data w path st = (false, st)).
Proof.
  intros Hname. unfold load_source_data, bind, get, put, ret. rewrite Hname.
  split; [|by intros ->].
  destruct (read_excel w path None) as [raw|]; [|done].
  unfold _map_column_aliases, bind, get, put, ret. cbn [source_data set_source_data config].
  destruct (source_required_columns (config st)) as [required|] eqn:Hreq; [|done].
  unfold _check_required_columns. cbn [source_data set_source_data config]. rewrite Hreq.
  destruct (missing_columns _ _) eqn:Hmiss; [|done].
  unfold _clean_data, bind, get, put, ret. cbn [source_data set_source_data config].
  rewrite Hreq.
  destruct (fold_left (strip_column w) _ _) as [df|] eqn:Hstrip; [|done].
  intros _. apply fold_strip_shape in Hstrip as (Hcols & Hlen & Hall).
  destruct (fold_clean_dates_shape w required (map_column_aliases raw required))
    as [Hcols1 Hlen1].
  rewrite Hcols1 in Hcols, Hall. rewrite Hlen1 in Hlen.
  exists raw, required, df. cbn [source_data set_source_data warnings reference_data snd].
  split; [done|]. split; [done|]. split; [done|]. split.
  { rewrite Hlen. unfold map_column_aliases. by case_bool_decide. }
  split; [done|]. split.
  { rewrite Hcols. by apply single_occurrences_NoDup. }
  split; [|done].
  apply missing_columns_nil in Hmiss. apply Forall_fmap in Hmiss.
  eapply Forall_impl; [exact Hmiss|]. intros c Hc. cbn in Hc.
  unfold has_column in *. by rewrite Hcols.
Qed.

(** The workbook of four vendors loaded directly with [Amount] (alias
    [Amt]) required. *)
Lemma load_source_data_direct_witness :
  let st := Examples.make_processor Examples.empty_registry
              [mkColumnInfo "Amount" ["Amt"]] [] None in
  truthy (data_source_name st) = None /\
  fst (load_source_data Examples.vendor_world "data/vendors.xlsx" st) = true /\
  exists raw required df,
    read_excel Examples.vendor_world "data/vendors.xlsx" None = Some raw /\
    source_required_columns (config st) = Some required /\
    source_data (snd (load_source_data Examples.vendor_world "data/vendors.xlsx" st))
      = Some df /\
    df_len df = df_len raw /\
    columns df = columns (map_column_aliases raw required) /\
    NoDup (columns df) /\
    Forall (fun c => has_column df (ci_name c) = true) required /\
    warnings (snd (load_source_data Examples.vendor_world "data/vendors.xlsx" st))
      = warnings st /\
    reference_data (snd (load_source_data Examples.vendor_world "data/vendors.xlsx" st))
      = reference_data st.
Proof.
  cbv zeta. split; [reflexivity|]. split; [reflexivity|].
  apply (load_source_data_direct Examples.vendor_world "data/vendors.xlsx"
           (Examples.make_processor Examples.empty_registry
              [mkColumnInfo "Amount" ["Amt"]] [] None)).
  - reflexivity.
  - reflexivity.
Defined.

End DirectLoadFacts.

(* ===================================================================== *)
(** ** Registered loads *)
(* ===================================================================== *)

Section RegisteredLoadFacts.
Import Pandas Env EnhancedDataProcessor Statements.

Lemma processor_eta (st : Processor) :
  st = mkProcessor (config st) (validation_rules st) (reference_data_manager st)
         (data_source_manager st) (reference_data st) (source_data st) (warnings st).
Proof. by destruct st. Qed.

(** X21. A load that goes through the registry succeeds exactly when the
    load of the source by the manager does.  When it fails the processor
    stays as it was, with the table of an earlier load if there was one.
    When it succeeds the processor holds the very table that the manager
    recorded under the source, with at least one row, and the warnings of
    the source come after the warnings it already had. *)
Theorem load_source_data_registered (w : World) (path name : string) (st : Processor) :
  truthy (data_source_name st) = Some name ->
  fst (load_source_data w path st)
    = succeeded (fst (DataSourceManager.load_data_source w name path (data_source_manager st)))
  /\ (fst (load_source_data w path st) = false -> snd (load_source_data w path st) = st)
  /\ (fst (load_source_data w path st) = true ->
      exists df record,
        source_data (snd (load_source_data w path st)) = Some df /\
        df_len df <> 0 /\
        DataSourceManager.loaded_sources
          (data_source_manager (snd (load_source_data w path st))) !! name = Some record /\
        DataSourceManager.ls_data record = df /\
        DataSourceManager.ls_file_path record = path /\
        warnings (snd (load_source_data w path st))
          = warnings st ++ DataSourceManager.ls_warnings record /\
        reference_data (snd (load_source_data w path st)) = reference_data st /\
        config (snd (load_source_data w path st)) = config st).
Proof.
  intros Hname. unfold load_source_data, bind, get, put, ret. rewrite Hname.
  destruct (load_data_source_inv w name path (data_source_manager st))
    as [(Hfail & Hst & _) | (cfg & raw & t & _ & _ & _ & Hlen & _ & Hload)].
  - destruct (DataSourceManager.load_data_source w name path (data_source_manager st))
      as [[[success frame] source_warnings] dsm].
    cbn in Hfail, Hst. subst success dsm. cbn.
    split; [done|]. split; [|done]. intros _. symmetry. apply processor_eta.
  - rewrite Hload. cbn. split; [done|]. split; [done|]. intros _.
    eexists _, _. split; [done|]. split.
    { unfold DataSourceManager._convert_date_columns.
      destruct (fold_coerce_datetime_shape w
                  (DataSourceManager.date_columns (DataSourceManager._map_columns raw cfg) cfg)
                  (DataSourceManager._map_columns raw cfg)) as (_ & -> & _).
      unfold DataSourceManager._map_columns. by case_bool_decide. }
    split; [apply lookup_insert_eq|]. done.
Qed.

(** The workbook of four vendors loaded for analytic 1001 through the
    registry: the two warnings of the source follow. *)
Lemma load_source_data_registered_witness :
  let st := Examples.make_processor (Examples.vendor_registry None)
              Examples.legacy_required [] None in
  truthy (data_source_name st) = Some "vendor_risk" /\
  warnings (snd (load_source_data Examples.vendor_world "data/vendors.xlsx" st))
    = ["Missing required columns: Vendor ID";
       "Row count (4) is below minimum threshold (5)"] /\
  (fst (load_source_data Examples.vendor_world "data/vendors.xlsx" st) = true ->
   exists df record,
     source_data (snd (load_source_data Examples.vendor_world "data/vendors.xlsx" st))
       = Some df /\
     df_len df <> 0 /\
     DataSourceManager.loaded_sources
       (data_source_manager
          (snd (load_source_data Examples.vendor_world "data/vendors.xlsx" st)))
       !! "vendor_risk" = Some record /\
     DataSourceManager.ls_data record = df /\
     DataSourceManager.ls_file_path record = "data/vendors.xlsx" /\
     warnings (snd (load_source_data Examples.vendor_world "data/vendors.xlsx" st))
       = warnings st ++ DataSourceManager.ls_warnings record /\
     reference_data (snd (load_source_data Examples.vendor_world "data/vendors.xlsx" st))
       = reference_data st /\
     config (snd (load_source_data Examples.vendor_world "data/vendors.xlsx" st))
       = config st).
Proof.
  cbv zeta. split; [reflexivity|]. split; [reflexivity|].
  apply (load_source_data_registered Examples.vendor_world "data/vendors.xlsx" "vendor_risk"
           (Examples.make_processor (Examples.vendor_registry None)
              Examples.legacy_required [] None)).
  reflexivity.
Defined.

End RegisteredLoadFacts.

(* ===================================================================== *)
(** ** Reference data of a run *)
(* ===================================================================== *)

Section ReferenceLoadingFacts.
Import Pandas Env EnhancedDataProcessor Statements.

(** Whether a load by the manager succeeds depends on its configuration
    only, not on what it holds. *)
Lemma load_reference_data_config_only (w : World) (name : string) (fp : option string)
    (m m' : ReferenceDataManager.Manager) :
  ReferenceDataManager.config m = ReferenceDataManager.config m' ->
  fst (ReferenceDataManager.load_reference_data w name fp m)
    = fst (ReferenceDataManager.load_reference_data w name fp m').
Proof.
  intros Hcfg. unfold ReferenceDataManager.load_reference_data, bind, get, put, ret.
  rewrite Hcfg.
  destruct (ReferenceDataManager.reference_files (ReferenceDataManager.config m') !! name)
    as [rc|]; [|done].
  destruct (truthy _) as [path|]; [|done].
  destruct (negb (path_exists w path)); [done|].
  by destruct (ReferenceDataManager.read_reference w rc path) as [[data meta]|].
Qed.

Lemma get_reference_data_fails (w : World) (name : string)
    (m : ReferenceDataManager.Manager) :
  fst (ReferenceDataManager.get_reference_data w name m) = None <->
  ReferenceDataManager.reference_data m !! name = None /\
  fst (ReferenceDataManager.load_reference_data w name None m) = false.
Proof.
  unfold ReferenceDataManager.get_reference_data, bind, get, ret.
  destruct (ReferenceDataManager.reference_data m !! name) as [d|] eqn:Hd.
  - cbn. split; [done | by intros [? _]].
  - destruct (ReferenceDataManager.load_reference_data w name None m) as [[|] m'] eqn:Hl.
    + apply load_reference_data_true in Hl as (data & meta & ->). cbn.
      rewrite lookup_insert_eq. split; [done | by intros [_ ?]].
    + done.
Qed.

Lemma check_freshness_state (w : World) (name : string) (override : option Z)
    (m : ReferenceDataManager.Manager) :
  snd (ReferenceDataManager.check_freshness w name override m) = m.
Proof.
  unfold ReferenceDataManager.check_freshness, bind, get, ret.
  by destruct (ReferenceDataManager.metadata m !! name).
Qed.

Lemma store_insert_eq (store : RefStore) (x : string) (v : ReferenceDataManager.RefValue) :
  <[x := v]> store !! x = Some v.
Proof. apply lookup_insert_eq. Qed.

Lemma store_insert_ne (store : RefStore) (x n : string) (v : ReferenceDataManager.RefValue) :
  x <> n -> <[x := v]> store !! n = store !! n.
Proof. apply lookup_insert_ne. Qed.

Lemma store_empty (n : string) : (∅ : RefStore) !! n = None.
Proof. apply lookup_empty. Qed.

Lemma stale_warnings_added_more (names names' : list string) (st st' : Processor)
    (before extra : list string) :
  stale_warnings_added names st before ->
  (forall n, n ∈ names -> n ∈ names') ->
  (forall n, is_Some (reference_data st !! n) -> is_Some (reference_data st' !! n)) ->
  warnings st' = warnings st ++ extra ->
  Forall (fun msg => exists n, n ∈ names' /\ msg = stale_warning n /\
                               is_Some (reference_data st' !! n)) extra ->
  stale_warnings_added names' st' before.
Proof.
  intros (added & Hw & Hadded) Hnames Hdata Hw' Hextra.
  exists (added ++ extra). split; [by rewrite Hw', Hw, app_assoc|].
  apply Forall_app. split; [|done].
  eapply Forall_impl; [exact Hadded|]. intros msg (n & Hn & -> & Hsome).
  exists n. split; [by apply Hnames|]. split; [done | by apply Hdata].
Qed.

(** One name stored, by the manager or by the fallback. *)
Lemma stored_invariant (w : World) (refs : ReferenceSettings) (st0 st : Processor)
    (done : list string) (success : bool) (x : string)
    (v : ReferenceDataManager.RefValue) (m' : ReferenceDataManager.Manager)
    (extra : list string) :
  loading_invariant w refs st0 done (success, st) ->
  (forall n, n ∈ done -> reference_data st !! n = None -> n <> x) ->
  (is_Some (ReferenceDataManager.reference_data m' !! x) \/ ~ legacy_fails w refs x) ->
  (forall n, n <> x ->
     fst (ReferenceDataManager.get_reference_data w n (reference_data_manager st)) = None ->
     fst (ReferenceDataManager.get_reference_data w n m') = None) ->
  (forall n, is_Some (ReferenceDataManager.reference_data (reference_data_manager st) !! n) ->
     is_Some (ReferenceDataManager.reference_data m' !! n)) ->
  (extra = [] \/ extra = [stale_warning x]) ->
  loading_invariant w refs st0 (done ++ [x])
    (success,
     mkProcessor (config st) (validation_rules st) m' (data_source_manager st)
       (<[x := v]> (reference_data st)) (source_data st) (warnings st ++ extra)).
Proof.
  intros (Hcfg & Hsrc & Hwarn & Hkeys & Htrue & Hfalse & Hfail & Hvia) Hx Hhow Hkeep Hgrow
    Hextra.
  cbn [fst snd] in *. unfold loading_invariant.
  cbn [fst snd config source_data reference_data reference_data_manager warnings].
  split; [done|]. split; [done|]. split.
  { eapply stale_warnings_added_more; [exact Hwarn | | | reflexivity |].
    - intros n Hn. apply elem_of_app. by left.
    - intros n Hn. cbn [reference_data]. apply lookup_insert_is_Some.
      destruct (decide (x = n)); [by left | by right].
    - cbn [reference_data]. destruct Hextra as [-> | ->]; [done|]. constructor; [|done].
      exists x. split; [apply elem_of_app; right; left|]. split; [done|].
      apply lookup_insert_is_Some. by left. }
  split.
  { intros k Hk. apply lookup_insert_is_Some in Hk as [<- | [_ Hk]].
    - apply elem_of_app. right. left.
    - apply elem_of_app. left. by apply Hkeys. }
  split.
  { intros Hs n Hn. apply lookup_insert_is_Some.
    destruct (decide (x = n)) as [|Hne]; [by left | right]. split; [done|].
    apply elem_of_app in Hn as [Hn | Hn]; [by apply Htrue|].
    apply list_elem_of_singleton in Hn. congruence. }
  split.
  { intros Hs. destruct (Hfalse Hs) as (n & Hn & Hnone). exists n.
    split; [apply elem_of_app; by left|].
    rewrite store_insert_ne; [done|]. intros <-. by eapply Hx. }
  split.
  { intros n Hn Hnone.
    destruct (decide (x = n)) as [<-|Hne]; [by rewrite store_insert_eq in Hnone|].
    rewrite store_insert_ne in Hnone by done.
    apply elem_of_app in Hn as [Hn | Hn];
      [|apply list_elem_of_singleton in Hn; congruence].
    destruct (Hfail n Hn Hnone) as [Hget Hleg]. split; [|done]. apply Hkeep; [congruence|done]. }
  intros n Hn. apply lookup_insert_is_Some in Hn as [<- | [Hne Hn]]; [done|].
  destruct (Hvia n Hn) as [Hm | Hl]; [left; by apply Hgrow | by right].
Qed.

(** One name that neither the manager nor the fallback yields. *)
Lemma failed_invariant (w : World) (refs : ReferenceSettings) (st0 st : Processor)
    (done : list string) (success : bool) (x : string) :
  loading_invariant w refs st0 done (success, st) ->
  fst (ReferenceDataManager.get_reference_data w x (reference_data_manager st)) = None ->
  legacy_fails w refs x ->
  loading_invariant w refs st0 (done ++ [x])
    (false,
     mkProcessor (config st) (validation_rules st) (reference_data_manager st)
       (data_source_manager st) (reference_data st) (source_data st) (warnings st)).
Proof.
  intros (Hcfg & Hsrc & Hwarn & Hkeys & Htrue & Hfalse & Hfail & Hvia) Hget Hleg.
  cbn [fst snd] in *. unfold loading_invariant.
  cbn [fst snd config source_data reference_data reference_data_manager warnings].
  split; [done|]. split; [done|]. split.
  { eapply stale_warnings_added_more; [exact Hwarn | | | symmetry; apply app_nil_r | done].
    - intros n Hn. apply elem_of_app. by left.
    - done. }
  split; [intros k Hk; apply elem_of_app; left; by apply Hkeys|].
  split; [done|]. split.
  { intros _. exists x. split; [apply elem_of_app; right; left|].
    destruct (reference_data st !! x) as [d|] eqn:Hd; [|done]. exfalso.
    destruct (Hvia x) as [Hm | Hl]; [by rewrite Hd | | done].
    apply get_reference_data_fails in Hget as [Hnone _]. rewrite Hnone in Hm.
    by destruct Hm. }
  split; [|done].
  intros n Hn Hnone. apply elem_of_app in Hn as [Hn | Hn]; [by apply Hfail|].
  apply list_elem_of_singleton in Hn. by subst n.
Qed.

Lemma load_reference_invariant (w : World) (refs : ReferenceSettings) (st0 : Processor)
    (done : list string) (acc : bool * Processor) (x : string) :
  loading_invariant w refs st0 done acc ->
  loading_invariant w refs st0 (done ++ [x]) (load_reference w refs acc x).
Proof.
  destruct acc as [success st]. intros Hinv.
  pose proof Hinv as (_ & _ & _ & _ & _ & _ & Hfail & _). cbn [fst snd] in Hfail.
  unfold load_reference.
  pose proof (get_reference_data_cases w x (reference_data_manager st)) as Hget.
  destruct (ReferenceDataManager.reference_data (reference_data_manager st) !! x)
    as [d|] eqn:Hx; [|destruct Hget as [Hget | (data & meta & Hconf & Hget)]].
  - (* held by the manager *)
    rewrite Hget.
    pose proof (check_freshness_state w x None (reference_data_manager st)) as Hcf.
    destruct (ReferenceDataManager.check_freshness w x None (reference_data_manager st))
      as [fresh m']. cbn in Hcf. subst m'.
    assert (Hne : forall n, n ∈ done -> reference_data st !! n = None -> n <> x).
    { intros n Hn Hnone ->. destruct (Hfail x Hn Hnone) as [Hf _].
      by rewrite Hget in Hf. }
    destruct fresh.
    + rewrite <- (app_nil_r (warnings st)).
      apply stored_invariant; try done; [left; by rewrite Hx | by left].
    + apply stored_invariant; try done; [left; by rewrite Hx | by right].
  - (* not yielded by the manager *)
    rewrite Hget.
    cbn [config validation_rules reference_data_manager data_source_manager reference_data
           source_data warnings].
    pose proof (eq_refl : legacy_fails w refs x = legacy_fails w refs x) as Hleg.
    unfold legacy_fails at 2, legacy_entry in Hleg.
    destruct (match cfg_reference_files refs with
              | Some files => List.find (fun ref => bool_decide (lr_name ref = x)) files
              | None => None
              end) as [legacy_ref|].
    + destruct (load_legacy w legacy_ref) as [ref_dict|] eqn:Hload.
      * rewrite <- (app_nil_r (warnings st)).
        apply stored_invariant; try done; [|right; by rewrite Hleg | by left].
        intros n Hn Hnone ->. destruct (Hfail x Hn Hnone) as [_ Hl].
        by rewrite Hleg in Hl.
      * apply (failed_invariant w refs st0 st done success x);
          [done | by rewrite Hget | by rewrite Hleg].
    + apply (failed_invariant w refs st0 st done success x);
          [done | by rewrite Hget | by rewrite Hleg].
  - (* loaded by the manager *)
    rewrite Hget.
    set (m' := ReferenceDataManager.mkManager _ _ _ _ _) in *.
    pose proof (check_freshness_state w x None m') as Hcf.
    destruct (ReferenceDataManager.check_freshness w x None m') as [fresh m'']. cbn in Hcf.
    subst m''.
    assert (Hne : forall n, n ∈ done -> reference_data st !! n = None -> n <> x).
    { intros n Hn Hnone ->. destruct (Hfail x Hn Hnone) as [Hf _].
      by rewrite Hget in Hf. }
    assert (Hsome : is_Some (ReferenceDataManager.reference_data m' !! x)).
    { subst m'. cbn. rewrite lookup_insert_eq. eauto. }
    assert (Hkeep : forall n, n <> x ->
              fst (ReferenceDataManager.get_reference_data w n (reference_data_manager st))
                = None ->
              fst (ReferenceDataManager.get_reference_data w n m') = None).
    { intros n Hn Hf. apply get_reference_data_fails in Hf as [Hnone Hl].
      apply get_reference_data_fails. split.
      - subst m'. cbn. by rewrite lookup_insert_ne.
      - rewrite <- Hl. by apply load_reference_data_config_only. }
    assert (Hgrow : forall n,
              is_Some (ReferenceDataManager.reference_data (reference_data_manager st) !! n) ->
              is_Some (ReferenceDataManager.reference_data m' !! n)).
    { intros n Hn. subst m'. cbn. apply lookup_insert_is_Some.
      destruct (decide (x = n)); [by left | by right]. }
    destruct fresh.
    + rewrite <- (app_nil_r (warnings st)).
      apply stored_invariant; try done; [by left | by left].
    + apply stored_invariant; try done; [by left | by right].
Qed.

Lemma fold_load_reference_invariant (w : World) (refs : ReferenceSettings) (st0 : Processor)
    (names : list string) :
  reference_data st0 = ∅ ->
  loading_invariant w refs st0 names (fold_left (load_reference w refs) names (true, st0)).
Proof.
  intros Hempty. induction names as [|x names IH] using rev_ind.
  - cbn. unfold loading_invariant. cbn [fst snd]. rewrite Hempty.
    split; [done|]. split; [done|]. split.
    { exists []. split; [by rewrite app_nil_r | done]. }
    split; [intros k Hk; rewrite store_empty in Hk; by destruct Hk|].
    split; [intros _ n Hn; by apply elem_of_nil in Hn|].
    split; [done|]. split; [intros n Hn; by apply elem_of_nil in Hn|].
    intros n Hn. rewrite store_empty in Hn. by destruct Hn.
  - rewrite fold_left_app. cbn [fold_left]. by apply load_reference_invariant.
Qed.

(** X22. With names listed under [reference_data], the load of the
    reference data of a run starts from an empty store and returns
    [True] exactly when every listed name ends up in the store; the
    store holds listed names only; the warnings already there are kept
    and each one added tells that a stored name may be stale; the source
    data and the configuration are not touched.  With an empty list, or
    with neither key, nothing is done (the store is left as it is).  With
    the legacy list alone, not empty, the call raises. *)
Theorem load_reference_data_outcome (w : World) (refs : ReferenceSettings) (st : Processor) :
  (forall names,
      cfg_reference_data refs = Some names ->
      names <> [] ->
      exists success st',
        load_reference_data w refs st = (Returned success, st') /\
        (forall k, is_Some (reference_data st' !! k) -> k ∈ names) /\
        (success = true <-> forall n, n ∈ names -> is_Some (reference_data st' !! n)) /\
        stale_warnings_added names st' (warnings st) /\
        source_data st' = source_data st /\
        config st' = config st)
  /\ (cfg_reference_data refs = Some [] ->
      load_reference_data w refs st = (Returned true, st))
  /\ (cfg_reference_data refs = None ->
      match cfg_reference_files refs with
      | Some (_ :: _) => fst (load_reference_data w refs st) = Raised
      | _ => load_reference_data w refs st = (Returned true, st)
      end).
Proof.
  unfold load_reference_data, bind, get, put, ret. split; [|split].
  - intros names Hnames Hne. rewrite Hnames.
    destruct names as [|name names]; [done|].
    set (reset := mkProcessor _ _ _ _ ∅ _ _).
    pose proof (fold_load_reference_invariant w refs reset (name :: names) eq_refl) as Hinv.
    destruct (fold_left (load_reference w refs) (name :: names) (true, reset))
      as [success st'].
    destruct Hinv as (Hcfg & Hsrc & Hwarn & Hkeys & Htrue & Hfalse & _ & _).
    cbn [fst snd] in *. exists success, st'.
    split; [done|]. split; [done|]. split; [|done].
    split; [done|]. intros Hall. destruct success; [done|].
    destruct (Hfalse eq_refl) as (n & Hn & Hnone). specialize (Hall n Hn).
    rewrite Hnone in Hall. by destruct Hall.
  - by intros ->.
  - intros ->. by destruct (cfg_reference_files refs) as [[|]|].
Qed.

(** [country_codes] asked for forty days after its file was written: it
    is stored, with a warning that it may be stale. *)
Lemma load_reference_data_outcome_witness :
  let refs := mkReferenceSettings (Some ["country_codes"]) None in
  load_reference_data (Examples.reference_world 40) refs (Examples.processor [])
    = (Returned true,
       snd (load_reference_data (Examples.reference_world 40) refs (Examples.processor [])))
  /\ warnings (snd (load_reference_data (Examples.reference_world 40) refs
                      (Examples.processor [])))
     = ["Reference data 'country_codes' may be stale"]
  /\ exists success st',
       load_reference_data (Examples.reference_world 40) refs (Examples.processor [])
         = (Returned success, st') /\
       (forall k, is_Some (reference_data st' !! k) -> k ∈ ["country_codes"]) /\
       (success = true <->
        forall n, n ∈ ["country_codes"] -> is_Some (reference_data st' !! n)) /\
       stale_warnings_added ["country_codes"] st' (warnings (Examples.processor [])) /\
       source_data st' = source_data (Examples.processor []) /\
       config st' = config (Examples.processor []).
Proof.
  cbv zeta. split; [reflexivity|]. split; [reflexivity|].
  destruct (load_reference_data_outcome (Examples.reference_world 40)
              (mkReferenceSettings (Some ["country_codes"]) None) (Examples.processor []))
    as [Hnames _].
  apply (Hnames ["country_codes"]); [reflexivity | discriminate].
Defined.

End ReferenceLoadingFacts.

(* ===================================================================== *)
(** ** The whole run *)
(* ===================================================================== *)

Section RunFacts.
Import Pandas Env EnhancedDataProcessor Statements.

Lemma load_source_data_warnings_prefix (w : World) (path : string) (st : Processor) :
  warnings st `prefix_of` warnings (snd (load_source_data w path st)).
Proof.
  unfold load_source_data, bind, get, put, ret.
  destruct (truthy (data_source_name st)) as [name|].
  - destruct (DataSourceManager.load_data_source w name path (data_source_manager st))
      as [[[success frame] source_warnings] dsm].
    destruct success; cbn; [by exists source_warnings | done].
  - destruct (read_excel w path None) as [raw|]; [|done].
    unfold _map_column_aliases, bind, get, put, ret.
    cbn [source_data set_source_data config].
    destruct (source_required_columns (config st)) as [required|] eqn:Hreq; [|done].
    unfold _check_required_columns. cbn [source_data set_source_data config]. rewrite Hreq.
    destruct (missing_columns _ _); [|done].
    unfold _clean_data, bind, get, put, ret. cbn [source_data set_source_data config].
    rewrite Hreq. by destruct (fold_left (strip_column w) _ _).
Qed.

Lemma load_reference_data_warnings_prefix (w : World) (refs : ReferenceSettings)
    (st : Processor) :
  warnings st `prefix_of` warnings (snd (load_reference_data w refs st)).
Proof.
  unfold load_reference_data, bind, get, put, ret.
  destruct (cfg_reference_data refs) as [[|name names]|].
  - done.
  - set (reset := mkProcessor _ _ _ _ ∅ _ _).
    pose proof (fold_load_reference_invariant w refs reset (name :: names) eq_refl) as Hinv.
    destruct (fold_left (load_reference w refs) (name :: names) (true, reset))
      as [success st'].
    destruct Hinv as (_ & _ & (added & Hw & _) & _). cbn [fst snd] in *.
    by exists added.
  - by destruct (cfg_reference_files refs) as [[|]|].
Qed.

Lemma run_validations_warnings (st : Processor) :
  warnings (snd (run_validations st)) = warnings st.
Proof.
  unfold run_validations, bind, get, put, ret.
  destruct (source_data st) as [df|]; [|done]. by destruct (validation_results st df).
Qed.

Lemma complete_message_plain (ws : list string) :
  complete_message ws = "Processing complete" <-> ws = [].
Proof.
  destruct ws as [|msg ws]; [done|]. unfold complete_message.
  split; [|done]. cbv [String.append]. discriminate.
Qed.

Lemma run_validations_outcome_warnings (st : Processor) :
  warnings (snd (run_validations_outcome st)) = warnings st.
Proof.
  unfold run_validations_outcome, bind, get, put, ret.
  destruct (source_data st) as [df|] eqn:Hdf; [|done].
  destruct (bool_decide _ || bool_decide _); [|done].
  pose proof (run_validations_warnings st) as Hw.
  by destruct (run_validations st) as [[] st'].
Qed.

(** X23. A run publishes results only when it succeeds.  Then the
    results hold the dataset of the processor, which has a [Compliance]
    column and the grouping column, and the summary of that very dataset;
    the message is the plain one exactly when the processor has no
    warning.  A run that fails names the step that failed, and like a run
    that raises it leaves the detail and the summary of an earlier run in
    place.  The warnings in the results are the processor's own list: a
    run only adds to it, so the warnings of earlier results grow with
    every later run, failed ones included. *)
Theorem process_data_outcome (w : World) (refs : ReferenceSettings) (source_file : string)
    (r : Run) :
  (forall message,
      fst (process_data w refs source_file r) = Returned (true, message) ->
      exists res df,
        results (snd (process_data w refs source_file r)) = Some res /\
        detail res = Some df /\
        source_data (processor (snd (process_data w refs source_file r))) = Some df /\
        is_Some (get_column df "Compliance") /\
        is_Some (get_column df
                   (group_by (config (processor (snd (process_data w refs source_file r)))))) /\
        generate_summary (processor (snd (process_data w refs source_file r)))
          = Returned (Some (summary res)) /\
        result_warnings (snd (process_data w refs source_file r))
          = Some (warnings (processor (snd (process_data w refs source_file r)))) /\
        message
          = complete_message (warnings (processor (snd (process_data w refs source_file r)))) /\
        (message = "Processing complete" <->
         warnings (processor (snd (process_data w refs source_file r))) = []))
  /\ (forall message,
         fst (process_data w refs source_file r) = Returned (false, message) ->
         results (snd (process_data w refs source_file r)) = results r /\
         message ∈ ["Failed to load source data"; "Failed to load reference data";
                    "Failed to generate summary"])
  /\ (fst (process_data w refs source_file r) = Raised ->
      results (snd (process_data w refs source_file r)) = results r)
  /\ warnings (processor r)
       `prefix_of` warnings (processor (snd (process_data w refs source_file r)))
  /\ (forall before,
         result_warnings r = Some before ->
         exists after,
           result_warnings (snd (process_data w refs source_file r)) = Some after /\
           before `prefix_of` after).
Proof.
  assert (Hmain :
    (forall message,
        fst (process_data w refs source_file r) = Returned (true, message) ->
        exists res df,
          results (snd (process_data w refs source_file r)) = Some res /\
          detail res = Some df /\
          source_data (processor (snd (process_data w refs source_file r))) = Some df /\
          is_Some (get_column df "Compliance") /\
          is_Some (get_column df
                     (group_by
                        (config (processor (snd (process_data w refs source_file r)))))) /\
          generate_summary (processor (snd (process_data w refs source_file r)))
            = Returned (Some (summary res)) /\
          result_warnings (snd (process_data w refs source_file r))
            = Some (warnings (processor (snd (process_data w refs source_file r)))) /\
          message
            = complete_message
                (warnings (processor (snd (process_data w refs source_file r)))) /\
          (message = "Processing complete" <->
           warnings (processor (snd (process_data w refs source_file r))) = []))
    /\ (forall message,
           fst (process_data w refs source_file r) = Returned (false, message) ->
           results (snd (process_data w refs source_file r)) = results r /\
           message ∈ ["Failed to load source data"; "Failed to load reference data";
                      "Failed to generate summary"])
    /\ (fst (process_data w refs source_file r) = Raised ->
        results (snd (process_data w refs source_file r)) = results r)
    /\ warnings (processor r)
         `prefix_of` warnings (processor (snd (process_data w refs source_file r)))
    /\ (is_Some (results r) ->
        is_Some (results (snd (process_data w refs source_file r))))).
  { unfold process_data, bind, get, put, ret.
    pose proof (load_source_data_warnings_prefix w source_file (processor r)) as Hw1.
    destruct (load_source_data w source_file (processor r)) as [loaded st1].
    cbn [snd] in Hw1. destruct loaded; cbn [negb].
    2:{ cbn. split; [done|]. split; [|done]. intros message [= <-]. split; [done | left]. }
    pose proof (load_reference_data_warnings_prefix w refs st1) as Hw2.
    destruct (load_reference_data w refs st1) as [[[|]|] st2]; cbn [snd] in Hw2.
    - pose proof (run_validations_outcome_warnings st2) as Hw3.
      destruct (run_validations_outcome st2) as [[[]|] st3]; cbn [snd] in Hw3.
      + destruct (generate_summary st3) as [[s|]|] eqn:Hsum; cbn.
        * split; [|split; [done|]; split; [done|]; split; [|by eauto]].
          2:{ rewrite Hw3. by etrans. }
          intros message [= <-].
          destruct (generate_summary_columns st3 s Hsum)
            as (df & gs & cs & Hdf & Hgs & Hcs & _).
          exists (mkResults (source_data st3) s), df. cbn.
          split; [done|]. split; [done|]. split; [done|].
          split; [by rewrite Hcs|]. split; [by rewrite Hgs|].
          split; [done|]. split; [done|]. split; [done|]. apply complete_message_plain.
        * split; [done|]. split; [|split; [done|]; split; [|done]].
          -- intros message [= <-]. split; [done | do 2 right; left].
          -- rewrite Hw3. by etrans.
        * split; [done|]. split; [done|]. split; [done|]. split; [|done].
          rewrite Hw3. by etrans.
      + cbn. split; [done|]. split; [done|]. split; [done|]. split; [|done].
        rewrite Hw3. by etrans.
    - cbn. split; [done|]. split; [|split; [done|]; split; [|done]].
      + intros message [= <-]. split; [done | right; left].
      + by etrans.
    - cbn. split; [done|]. split; [done|]. split; [done|]. split; [|done]. by etrans. }
  destruct Hmain as (Hok & Hfail & Hraise & Hprefix & Hsome).
  split; [done|]. split; [done|]. split; [done|]. split; [done|].
  intros before Hbefore. unfold result_warnings in *.
  destruct (results r) as [res|] eqn:Hres; [|done]. injection Hbefore as <-.
  destruct (Hsome ltac:(eauto)) as [res' Hres']. rewrite Hres'. eauto.
Qed.

(** The workbook of four vendors run twice for analytic 1001 through the
    registry, under [rule_b].  The first run succeeds with the two
    warnings of the source.  The second asks for reference data that is
    not configured and fails: the results of the first run are still
    there, and their warnings are now four. *)
Lemma process_data_outcome_witness :
  let r := mkRun (Examples.make_processor (Examples.vendor_registry None)
                    Examples.legacy_required [Examples.declare "rule_b"] None) None in
  let first := process_data Examples.vendor_world (mkReferenceSettings None None)
                 "data/vendors.xlsx" r in
  let second := process_data Examples.vendor_world
                  (mkReferenceSettings (Some ["exchange_rates"]) None)
                  "data/vendors.xlsx" (snd first) in
  fst first = Returned (true, "Processing complete with 2 warnings") /\
  result_warnings (snd first)
    = Some ["Missing required columns: Vendor ID";
            "Row count (4) is below minimum threshold (5)"] /\
  fst second = Returned (false, "Failed to load reference data") /\
  results (snd second) = results (snd first) /\
  result_warnings (snd second)
    = Some ["Missing required columns: Vendor ID";
            "Row count (4) is below minimum threshold (5)";
            "Missing required columns: Vendor ID";
            "Row count (4) is below minimum threshold (5)"].
Proof.
  cbv zeta. split; [reflexivity|]. split; [reflexivity|]. split; [reflexivity|].
  split; [|reflexivity].
  destruct (process_data_outcome Examples.vendor_world
              (mkReferenceSettings (Some ["exchange_rates"]) None) "data/vendors.xlsx"
              (snd (process_data Examples.vendor_world (mkReferenceSettings None None)
                      "data/vendors.xlsx"
                      (mkRun (Examples.make_processor (Examples.vendor_registry None)
                                Examples.legacy_required [Examples.declare "rule_b"] None)
                         None))))
    as (_ & Hfail & _).
  destruct (Hfail "Failed to load reference data" eq_refl) as [Hres _]. exact Hres.
Defined.

End RunFacts.
